(** * Streaming relay and envelope extraction of the A2A agent pipeline

    A shallow embedding of the text-extraction code of
    - [agentic_client_a2a.py]   ([A2AClient.invoke_agent], also with
      every exception that can leave it, [sequential_workflow_a2a],
      [streaming_workflow_a2a]),
    - [blogpost_server_a2a.py]  ([extract_query_from_message],
      [parse_streaming_json], the head of [blogpost_generator_agent] up
      to its topic, the file name of [save_blog_node]),
    - [deepserach_server_a2a.py] ([extract_query_from_message], the head of
      [deepsearch_agent_handler]),
    followed by the properties of the specification, stated on it, and by
    further properties of the same code.

    Python [str] values are lists of characters; a character is a code
    point in U+0000..U+00FF.  Exceptions are values of the type [exn] and
    a computation that may raise returns a [result]. *)

From Stdlib Require Import Ascii String DecimalString.
From Stdlib Require Import List Bool Arith ZArith Lia.
Import ListNotations.

Set Implicit Arguments.

Open Scope string_scope.
Open Scope list_scope.
Open Scope bool_scope.

(** ** Python strings *)

Definition str := list ascii.

(** A string literal of the source. *)
Definition lit (s : string) : str := list_ascii_of_string s.
Coercion lit : string >-> str.

(** The double quote, and a literal written with an apostrophe wherever
    the source text has a double quote. *)
Definition dquote : ascii := "034"%char.

Definition q (s : string) : str :=
  map (fun c => if Ascii.eqb c "'" then dquote else c) (lit s).

Arguments lit : simpl never.
Arguments q : simpl never.

Module Py.

Definition chr_eqb (a b : ascii) : bool := Ascii.eqb a b.
Arguments chr_eqb : simpl never.

Fixpoint str_eqb (s t : str) : bool :=
  match s, t with
  | [], [] => true
  | a :: s', b :: t' => chr_eqb a b && str_eqb s' t'
  | _, _ => false
  end.

(** [c.isspace()] on U+0000..U+00FF: TAB..CR, FS..US, SPACE, NEL, NBSP. *)
Definition isspace (c : ascii) : bool :=
  let n := nat_of_ascii c in
  (((9 <=? n) && (n <=? 13)) || ((28 <=? n) && (n <=? 32))
   || (n =? 133) || (n =? 160))%nat.

Fixpoint lstrip (s : str) : str :=
  match s with
  | c :: s' => if isspace c then lstrip s' else s
  | [] => []
  end.

Definition rstrip (s : str) : str := rev (lstrip (rev s)).

(** [s.strip()] *)
Definition strip (s : str) : str := rstrip (lstrip s).

(** [s.startswith(p)] *)
Fixpoint startswith (p s : str) : bool :=
  match p, s with
  | [], _ => true
  | a :: p', b :: s' => chr_eqb a b && startswith p' s'
  | _ :: _, [] => false
  end.

(** [s.endswith(p)] *)
Definition endswith (p s : str) : bool := startswith (rev p) (rev s).

(** [p in s] for strings *)
Fixpoint contains (p s : str) : bool :=
  startswith p s ||
  match s with
  | [] => false
  | _ :: s' => contains p s'
  end.

(** [sep.join(l)] *)
Fixpoint join (sep : str) (l : list str) : str :=
  match l with
  | [] => []
  | [x] => x
  | x :: l' => x ++ sep ++ join sep l'
  end.

(** [sep.join(l)] with the empty separator *)
Definition concat (l : list str) : str := List.concat l.

(** [x in l] for a list of strings *)
Definition mem (x : str) (l : list str) : bool := existsb (str_eqb x) l.

(** [bool(s)] for a string or a list *)
Definition nonempty {A} (l : list A) : bool :=
  match l with [] => false | _ :: _ => true end.

(** [s.replace(old, new)], [old] not empty: occurrences are taken from
    left to right and do not overlap; [skip] counts the characters of
    the occurrence just replaced that are still to be passed. *)
Fixpoint replace_from (old new : str) (skip : nat) (s : str) : str :=
  match s with
  | [] => []
  | c :: s' =>
      match skip with
      | S k => replace_from old new k s'
      | O => if startswith old s
             then new ++ replace_from old new (length old - 1) s'
             else c :: replace_from old new 0 s'
      end
  end.

Definition replace (old new s : str) : str := replace_from old new 0 s.

(** [s.split(sep)], [sep] not empty. *)
Fixpoint split_from (sep : str) (skip : nat) (s : str) : list str :=
  match s with
  | [] => [[]]
  | c :: s' =>
      match skip with
      | S k => split_from sep k s'
      | O => if startswith sep s
             then [] :: split_from sep (length sep - 1) s'
             else match split_from sep 0 s' with
                  | p :: ps => (c :: p) :: ps
                  | [] => [[c]]
                  end
      end
  end.

Definition split (sep s : str) : list str := split_from sep 0 s.

(** [s.rfind(c)] for a one-character [c]: the last index, or -1. *)
Fixpoint rfind_from (c : ascii) (i : Z) (best : Z) (s : str) : Z :=
  match s with
  | [] => best
  | a :: s' => rfind_from c (i + 1) (if chr_eqb a c then i else best) s'
  end.

Definition rfind (c : ascii) (s : str) : Z := rfind_from c 0 (-1) s.

(** [str(n)] for an integer *)
Definition str_of_Z (z : Z) : str := lit (NilZero.string_of_int (Z.to_int z)).

End Py.

(** ** Exceptions and results *)

(** The exceptions the modelled code can raise, each with the text
    [str(e)] gives.  [Exception] is the generic class the client raises
    itself; [ReadError] is [httpx.ReadError]. *)
Inductive exn : Type :=
| AttributeError (msg : str)
| TypeError (msg : str)
| KeyError (msg : str)
| IndexError (msg : str)
| Exception (msg : str)
| ReadError (msg : str).

(** [str(e)] *)
Definition exn_str (e : exn) : str :=
  match e with
  | AttributeError m | TypeError m | KeyError m | IndexError m
  | Exception m | ReadError m => m
  end.

Inductive result (A : Type) : Type :=
| Ok (a : A)
| Raise (e : exn).
Arguments Ok {A} a.
Arguments Raise {A} e.

Definition bind {A B} (r : result A) (k : A -> result B) : result B :=
  match r with
  | Ok a => k a
  | Raise e => Raise e
  end.

Declare Scope py_scope.
Notation "x <- c1 ;; c2" := (bind c1 (fun x => c2))
  (at level 61, c1 at next level, right associativity) : py_scope.
Notation "c1 ;; c2" := (bind c1 (fun _ => c2))
  (at level 61, right associativity) : py_scope.
Open Scope py_scope.

(** ** JSON values, as [json.loads] returns them *)

Module Json.
Import Py.

(** A [float] is kept as the number's text; a [dict] keeps its keys in
    insertion order, each key once. *)
#[warnings="-register-all"] Inductive JSON : Type :=
| JNull
| JBool (b : bool)
| JInt (z : Z)
| JFloat (lexeme : str)
| JStr (s : str)
| JArr (l : list JSON)
| JObj (d : list (str * JSON)).

Definition dict := list (str * JSON).

(** [d[k]] when [k in d] *)
Fixpoint lookup (k : str) (d : dict) : option JSON :=
  match d with
  | [] => None
  | (k', v) :: d' => if str_eqb k k' then Some v else lookup k d'
  end.

(** [d[k] = v] *)
Fixpoint dict_set (k : str) (v : JSON) (d : dict) : dict :=
  match d with
  | [] => [(k, v)]
  | (k', v') :: d' =>
      if str_eqb k k' then (k', v) :: d' else (k', v') :: dict_set k v d'
  end.

(** [dict(pairs)] *)
Definition dict_of_pairs (pairs : list (str * JSON)) : dict :=
  fold_left (fun d kv => dict_set (fst kv) (snd kv) d) pairs [].

(** [type(v).__name__] *)
Definition type_name (v : JSON) : str :=
  match v with
  | JNull => "NoneType"
  | JBool _ => "bool"
  | JInt _ => "int"
  | JFloat _ => "float"
  | JStr _ => "str"
  | JArr _ => "list"
  | JObj _ => "dict"
  end.

Definition no_attribute (v : JSON) (attr : str) : exn :=
  AttributeError
    (lit "'" ++ type_name v ++ lit "' object has no attribute '" ++ attr ++ lit "'").

(** [isinstance(v, dict) and k in v] *)
Definition is_dict_with (k : str) (v : JSON) : bool :=
  match v with
  | JObj d => match lookup k d with Some _ => true | None => false end
  | _ => false
  end.

(** [v.get(k, dflt)] *)
Definition get_default (v : JSON) (k : str) (dflt : JSON) : result JSON :=
  match v with
  | JObj d => Ok (match lookup k d with Some x => x | None => dflt end)
  | _ => Raise (no_attribute v "get")
  end.

(** [v.keys()] *)
Definition keys (v : JSON) : result (list str) :=
  match v with
  | JObj d => Ok (map fst d)
  | _ => Raise (no_attribute v "keys")
  end.

(** [len(v)] *)
Definition len (v : JSON) : result nat :=
  match v with
  | JStr s => Ok (length s)
  | JArr l => Ok (length l)
  | JObj d => Ok (length d)
  | _ => Raise (TypeError (lit "object of type '" ++ type_name v ++ lit "' has no len()"))
  end.

(** The values [for part in v] binds [part] to. *)
Definition iter (v : JSON) : result (list JSON) :=
  match v with
  | JArr l => Ok l
  | JObj d => Ok (map (fun kv => JStr (fst kv)) d)
  | JStr s => Ok (map (fun c => JStr [c]) s)
  | _ => Raise (TypeError (lit "'" ++ type_name v ++ lit "' object is not iterable"))
  end.

(** [k in v] *)
Definition py_in (k : str) (v : JSON) : result bool :=
  match v with
  | JObj d => Ok (match lookup k d with Some _ => true | None => false end)
  | JArr l => Ok (existsb (fun x => match x with JStr s => str_eqb k s | _ => false end) l)
  | JStr s => Ok (contains k s)
  | _ => Raise (TypeError (lit "argument of type '" ++ type_name v ++ lit "' is not iterable"))
  end.

(** The digits at the head of a text: the number they add to [acc],
    how many they are, and what follows them. *)
Fixpoint read_digits (acc : Z) (n : nat) (s : str) : Z * nat * str :=
  match s with
  | c :: s' =>
      let d := nat_of_ascii c in
      if ((48 <=? d) && (d <=? 57))%nat
      then read_digits (10 * acc + Z.of_nat (d - 48)) (S n) s'
      else (acc, n, s)
  | [] => (acc, n, [])
  end.

(** The exponent of a number's text, from its [e] or [E] on; 0 when
    there is none. *)
Definition read_exponent (s : str) : Z :=
  match s with
  | c :: r =>
      if chr_eqb c "e" || chr_eqb c "E" then
        match r with
        | sg :: r' =>
            if chr_eqb sg "-" then (- fst (fst (read_digits 0 0 r')))%Z
            else if chr_eqb sg "+" then fst (fst (read_digits 0 0 r'))
            else fst (fst (read_digits 0 0 r))
        | [] => 0%Z
        end
      else 0%Z
  | [] => 0%Z
  end.

(** [float(x) == 0.0] for the text [x] of a number.  The text stands for
    [m * 10^k], with [m] its digits before the exponent read as one
    integer.  [float] rounds to the nearest double, ties to even, so the
    result is zero exactly when [m * 10^k <= 2^-1075], half the smallest
    positive double.  [NaN] and the infinities, which begin with no
    digit, are not zero. *)
Definition float_is_zero (x : str) : bool :=
  let x := match x with
           | c :: r => if chr_eqb c "-" then r else x
           | [] => []
           end in
  match read_digits 0 0 x with
  | (_, O, _) => false
  | (m, S _, r) =>
      let '(m, nfrac, r) :=
        match r with
        | c :: r' => if chr_eqb c "." then read_digits m 0 r' else (m, O, r)
        | [] => (m, O, r)
        end in
      let k := (read_exponent r - Z.of_nat nfrac)%Z in
      (m =? 0)%Z || ((k <? 0)%Z && (m * 2 ^ 1075 <=? 10 ^ (- k))%Z)
  end.

(** [bool(v)] *)
Definition truthy (v : JSON) : bool :=
  match v with
  | JNull => false
  | JBool b => b
  | JInt z => negb (z =? 0)%Z
  | JFloat x => negb (float_is_zero x)
  | JStr s => nonempty s
  | JArr l => nonempty l
  | JObj d => nonempty d
  end.

(** [v[0]] *)
Definition index0 (v : JSON) : result JSON :=
  match v with
  | JArr (x :: _) => Ok x
  | JArr [] => Raise (IndexError "list index out of range")
  | JStr (c :: _) => Ok (JStr [c])
  | JStr [] => Raise (IndexError "string index out of range")
  | JObj _ => Raise (KeyError "0")
  | _ => Raise (TypeError (lit "'" ++ type_name v ++ lit "' object is not subscriptable"))
  end.

(** The two library functions the code calls on JSON: [json.loads], with
    [None] for a [JSONDecodeError], and [str] on a parsed value, which is
    the identity on a string.  The other exceptions [json.loads] can
    raise (on deep nesting, on an integer of more than 4300 digits) are
    not among these two outcomes; [Invoke] below reads [invoke_agent]
    with them. *)
Class PyLib : Type := {
  json_loads : str -> option JSON;
  py_str : JSON -> str;
  py_str_JStr : forall s, py_str (JStr s) = s
}.

End Json.

(** ** A reference [json.loads]

    The decoder of Python's [json] module (strict mode) on the strings of
    this model, used to run the code on concrete payloads: insignificant
    whitespace is space, TAB, LF and CR; a repeated key keeps its last
    value; [NaN], [Infinity] and [-Infinity] are accepted; a [\u] escape
    above U+00FF has no character here and is refused.  Nesting of any
    depth and integers of any length are decoded, where Python gives up
    with a [RecursionError] or a [ValueError]. *)

Module RefJson.
Import Py Json.

Definition is_ws (c : ascii) : bool :=
  chr_eqb c " " || chr_eqb c "009" || chr_eqb c "010" || chr_eqb c "013".

Fixpoint skip_ws (s : str) : str :=
  match s with
  | c :: s' => if is_ws c then skip_ws s' else s
  | [] => []
  end.

Definition is_digit (c : ascii) : bool :=
  let n := nat_of_ascii c in ((48 <=? n) && (n <=? 57))%nat.

Definition digit_val (c : ascii) : Z := Z.of_nat (nat_of_ascii c - 48).

Definition hex_val (c : ascii) : option nat :=
  let n := nat_of_ascii c in
  if ((48 <=? n) && (n <=? 57))%nat then Some (n - 48)
  else if ((65 <=? n) && (n <=? 70))%nat then Some (n - 55)
  else if ((97 <=? n) && (n <=? 102))%nat then Some (n - 87)
  else None.

Definition hex4 (a b c d : ascii) : option nat :=
  match hex_val a, hex_val b, hex_val c, hex_val d with
  | Some x, Some y, Some z, Some w => Some (((x * 16 + y) * 16 + z) * 16 + w)
  | _, _, _, _ => None
  end.

(** The character a one-letter escape stands for. *)
Definition simple_escape (e : ascii) : option ascii :=
  if chr_eqb e dquote then Some dquote
  else if chr_eqb e "\" then Some "\"%char
  else if chr_eqb e "/" then Some "/"%char
  else if chr_eqb e "b" then Some "008"%char
  else if chr_eqb e "f" then Some "012"%char
  else if chr_eqb e "n" then Some "010"%char
  else if chr_eqb e "r" then Some "013"%char
  else if chr_eqb e "t" then Some "009"%char
  else None.

Definition cons_fst (c : ascii) (r : option (str * str)) : option (str * str) :=
  match r with
  | Some (v, rest) => Some (c :: v, rest)
  | None => None
  end.

(** The body of a string, after its opening quote: the decoded text and
    what follows the closing quote. *)
Fixpoint scan_string (s : str) : option (str * str) :=
  match s with
  | [] => None
  | c :: r =>
      if chr_eqb c dquote then Some ([], r)
      else if chr_eqb c "\" then
        match r with
        | [] => None
        | e :: r1 =>
            if chr_eqb e "u" then
              match r1 with
              | h1 :: h2 :: h3 :: h4 :: r2 =>
                  match hex4 h1 h2 h3 h4 with
                  | Some n => if (n <? 256)%nat
                              then cons_fst (ascii_of_nat n) (scan_string r2)
                              else None
                  | None => None
                  end
              | _ => None
              end
            else
              match simple_escape e with
              | Some ch => cons_fst ch (scan_string r1)
              | None => None
              end
        end
      else if (nat_of_ascii c <? 32)%nat then None
      else cons_fst c (scan_string r)
  end.

(** The longest run of digits at the head of [s]. *)
Fixpoint span_digits (s : str) : str * str :=
  match s with
  | c :: s' => if is_digit c
               then let (ds, r) := span_digits s' in (c :: ds, r)
               else ([], s)
  | [] => ([], [])
  end.

Definition Z_of_digits (ds : str) : Z :=
  fold_left (fun acc c => (acc * 10 + digit_val c)%Z) ds 0%Z.

(** The integer part, an optional minus sign and then 0 or a run of
    digits that does not start with 0: sign, digits and rest. *)
Definition scan_int (s : str) : option (bool * str * str) :=
  let (neg, s1) := match s with
                   | c :: r => if chr_eqb c "-" then (true, r) else (false, s)
                   | [] => (false, s)
                   end in
  match s1 with
  | c :: r =>
      if chr_eqb c "0" then Some (neg, [c], r)
      else if is_digit c then let (ds, r') := span_digits s1 in Some (neg, ds, r')
      else None
  | [] => None
  end.

(** The optional fraction: a dot and one digit or more. *)
Definition scan_frac (s : str) : str * str :=
  match s with
  | dot :: r =>
      if chr_eqb dot "." then
        match span_digits r with
        | ([], _) => ([], s)
        | (ds, r') => (dot :: ds, r')
        end
      else ([], s)
  | [] => ([], s)
  end.

(** The optional exponent: e or E, an optional sign, one digit or more. *)
Definition scan_exp (s : str) : str * str :=
  match s with
  | e :: r =>
      if chr_eqb e "e" || chr_eqb e "E" then
        let (sign, r1) := match r with
                          | c :: r' => if chr_eqb c "-" || chr_eqb c "+"
                                       then ([c], r') else ([], r)
                          | [] => ([], r)
                          end in
        match span_digits r1 with
        | ([], _) => ([], s)
        | (ds, r') => (e :: sign ++ ds, r')
        end
      else ([], s)
  | [] => ([], s)
  end.

Definition scan_number (s : str) : option (JSON * str) :=
  match scan_int s with
  | None => None
  | Some (neg, ds, r) =>
      let (frac, r1) := scan_frac r in
      let (ex, r2) := scan_exp r1 in
      match frac, ex with
      | [], [] => let z := Z_of_digits ds in
                  Some (JInt (if neg then (- z)%Z else z), r2)
      | _, _ => Some (JFloat ((if neg then lit "-" else []) ++ ds ++ frac ++ ex), r2)
      end
  end.

(** A fixed word at the head of [s]. *)
Definition keyword (w : str) (v : JSON) (s : str) : option (JSON * str) :=
  if startswith w s then Some (v, skipn (length w) s) else None.

Definition or_else {A} (a b : option A) : option A :=
  match a with Some _ => a | None => b end.

Definition scan_scalar (s : str) : option (JSON * str) :=
  or_else (keyword "null" JNull s)
  (or_else (keyword "true" (JBool true) s)
  (or_else (keyword "false" (JBool false) s)
  (or_else (scan_number s)
  (or_else (keyword "NaN" (JFloat "NaN") s)
  (or_else (keyword "Infinity" (JFloat "Infinity") s)
           (keyword "-Infinity" (JFloat "-Infinity") s)))))).

(** One value at the head of [s]; [fuel] bounds the calls. *)
Fixpoint scan_value (fuel : nat) (s : str) : option (JSON * str) :=
  match fuel with
  | O => None
  | S f =>
      match s with
      | [] => None
      | c :: r =>
          if chr_eqb c dquote then
            match scan_string r with
            | Some (v, rest) => Some (JStr v, rest)
            | None => None
            end
          else if chr_eqb c "{" then
            match skip_ws r with
            | c1 :: r1 =>
                if chr_eqb c1 "}" then Some (JObj [], r1)
                else scan_members f (c1 :: r1) []
            | [] => None
            end
          else if chr_eqb c "[" then
            match skip_ws r with
            | c1 :: r1 =>
                if chr_eqb c1 "]" then Some (JArr [], r1)
                else scan_elements f (c1 :: r1) []
            | [] => None
            end
          else scan_scalar s
      end
  end

with scan_elements (fuel : nat) (s : str) (acc : list JSON) : option (JSON * str) :=
  match fuel with
  | O => None
  | S f =>
      match scan_value f s with
      | None => None
      | Some (v, r) =>
          match skip_ws r with
          | c :: r1 =>
              if chr_eqb c "," then scan_elements f (skip_ws r1) (v :: acc)
              else if chr_eqb c "]" then Some (JArr (rev (v :: acc)), r1)
              else None
          | [] => None
          end
      end
  end

with scan_members (fuel : nat) (s : str) (acc : list (str * JSON)) : option (JSON * str) :=
  match fuel with
  | O => None
  | S f =>
      match s with
      | q :: r =>
          if chr_eqb q dquote then
            match scan_string r with
            | None => None
            | Some (k, r1) =>
                match skip_ws r1 with
                | colon :: r2 =>
                    if chr_eqb colon ":" then
                      match scan_value f (skip_ws r2) with
                      | None => None
                      | Some (v, r3) =>
                          match skip_ws r3 with
                          | c :: r4 =>
                              if chr_eqb c ","
                              then scan_members f (skip_ws r4) ((k, v) :: acc)
                              else if chr_eqb c "}"
                              then Some (JObj (dict_of_pairs (rev ((k, v) :: acc))), r4)
                              else None
                          | [] => None
                          end
                      end
                    else None
                | [] => None
                end
            end
          else None
      | [] => None
      end
  end.

(** [json.loads(s)]: one value, surrounded by whitespace only. *)
Definition loads (s : str) : option JSON :=
  match scan_value (2 * length s + 2) (skip_ws s) with
  | Some (v, r) => match skip_ws r with [] => Some v | _ :: _ => None end
  | None => None
  end.

(** [str(v)]: exact on [None], booleans, integers and strings; a float
    shows the text it was read from and a container its elements in
    Python's layout, without the quoting rules of [repr]. *)
Fixpoint show (v : JSON) : str :=
  match v with
  | JNull => "None"
  | JBool true => "True"
  | JBool false => "False"
  | JInt z => str_of_Z z
  | JFloat x => x
  | JStr s => s
  | JArr l => lit "[" ++ join ", " (map show l) ++ lit "]"
  | JObj d => lit "{" ++ join ", " (map (fun kv => lit "'" ++ fst kv ++ lit "': " ++ show (snd kv)) d) ++ lit "}"
  end.

#[export] Instance reference : PyLib :=
  {| json_loads := loads; py_str := show; py_str_JStr := fun s => eq_refl |}.

End RefJson.

(** ** The streaming client ([agentic_client_a2a.py]) *)

Module Client.
Import Py Json.

(** What the agent endpoint answers to one streamed POST: the status
    line, the decoded body (read only for an error status), the lines
    [resp.aiter_lines()] yields and, when the connection breaks after
    them, the text of the [httpx.ReadError] raised in place of the next
    line.  A body that cannot be read or decoded and a stream that ends
    with another exception are left to [Invoke] below. *)
Record response : Type := {
  status_code : Z;
  body : str;
  lines : list str;
  read_error : option str
}.

Section Extraction.
Context {L : PyLib}.

(** The loop over the parts of a content list: the text of every part
    that is a dict with a key [text], kept when it is not blank. *)
Fixpoint text_chunks (content_list : list JSON) : list str :=
  match content_list with
  | [] => []
  | part :: rest =>
      match part with
      | JObj d =>
          match lookup "text" d with
          | Some t =>
              let text_chunk := py_str t in
              if nonempty (strip text_chunk)
              then text_chunk :: text_chunks rest
              else text_chunks rest
          | None => text_chunks rest
          end
      | _ => text_chunks rest
      end
  end.

(** The diagnostic print of the keys of the first three events: it calls
    [keys()] on the value of [statusUpdate] and on that of [status]. *)
Definition debug_keys (event_count : nat) (data : JSON) : result unit :=
  if (event_count <=? 3)%nat then
    match data with
    | JObj d =>
        match lookup "statusUpdate" d with
        | Some su =>
            _ <- keys su ;;
            match su with
            | JObj sd =>
                match lookup "status" sd with
                | Some st => _ <- keys st ;; Ok tt
                | None => Ok tt
                end
            | _ => Ok tt
            end
        | None => Ok tt
        end
    | _ => Ok tt
    end
  else Ok tt.

(** The diagnostic print of the content list of the first three events:
    it takes [len(content_list)] and, for a true [content_list],
    [content_list[0]]. *)
Definition debug_content (event_count : nat) (content_list : JSON) : result unit :=
  if (event_count <=? 3)%nat then
    n <- len content_list ;;
    if truthy content_list && (0 <? n)%nat
    then _ <- index0 content_list ;; Ok tt
    else Ok tt
  else Ok tt.

(** The body of the [try] once [json.loads] has returned [data]: the
    fragments this event appends to [chunks]. *)
Definition extract (event_count : nat) (data : JSON) : result (list str) :=
  debug_keys event_count data ;;
  match data with
  | JObj d =>
      match lookup "statusUpdate" d with
      | Some su =>
          status <- get_default su "status" (JObj []) ;;
          message <- get_default status "message" (JObj []) ;;
          content_list <- get_default message "content" (JArr []) ;;
          debug_content event_count content_list ;;
          parts <- iter content_list ;;
          Ok (text_chunks parts)
      | None =>
          match lookup "content" d with
          | Some c => parts <- iter c ;; Ok (text_chunks parts)
          | None => Ok []
          end
      end
  | _ => Ok []
  end.

(** One payload: the [try] with its [except json.JSONDecodeError]. *)
Definition on_payload (event_count : nat) (data_str : str) : result (list str) :=
  match json_loads data_str with
  | Some data => extract event_count data
  | None =>
      if nonempty data_str && negb (startswith "{" (strip data_str))
      then Ok [data_str]
      else Ok []
  end.

(** The payloads the reader passes on: not blank and not [[DONE]]. *)
Definition is_payload (data_str : str) : bool :=
  negb (mem (strip data_str) [lit "[DONE]"; lit ""]).

(** The state of the loop: [chunks] and [event_count]. *)
Definition loop_state : Type := list str * nat.

(** One turn of [async for line in resp.aiter_lines()]: the state after
    it and the exception that left it, if any. *)
Definition on_line (st : loop_state) (line : str) : loop_state * option exn :=
  let (chunks, event_count) := st in
  if startswith "data: " line then
    let data_str := skipn 6 line in
    if is_payload data_str then
      let event_count := S event_count in
      match on_payload event_count data_str with
      | Ok new => ((chunks ++ new, event_count), None)
      | Raise e => ((chunks, event_count), Some e)
      end
    else (st, None)
  else (st, None).

Fixpoint read_lines (st : loop_state) (ls : list str) : loop_state * option exn :=
  match ls with
  | [] => (st, None)
  | line :: rest =>
      match on_line st line with
      | (st', None) => read_lines st' rest
      | (st', Some e) => (st', Some e)
      end
  end.

(** The body of the outer [try] of [invoke_agent]: [chunks] when it is
    left, and how it is left. *)
Definition stream_body (resp : response) : list str * result str :=
  if (400 <=? status_code resp)%Z then
    ([], Raise (Exception (lit "Agent error: HTTP " ++ str_of_Z (status_code resp)
                           ++ lit ": " ++ firstn 500 (body resp))))
  else
    match read_lines ([], O) (lines resp) with
    | ((chunks, _), Some e) => (chunks, Raise e)
    | ((chunks, _), None) =>
        match read_error resp with
        | Some msg => (chunks, Raise (ReadError msg))
        | None =>
            let result := strip (concat chunks) in
            if nonempty result then (chunks, Ok result)
            else (chunks, Raise (Exception "No content received from agent"))
        end
    end.

(** [invoke_agent] on the answer of the endpoint: the [try] above with
    its [except httpx.ReadError]. *)
Definition invoke_response (resp : response) : result str :=
  match stream_body resp with
  | (chunks, Raise (ReadError msg)) =>
      if nonempty chunks then Ok (strip (concat chunks))
      else Raise (Exception (lit "Stream error: " ++ msg))
  | (_, r) => r
  end.

End Extraction.

End Client.

(** ** The two-stage pipeline ([sequential_workflow_a2a])

    The workflow talks to a terminal and to two agents.  The world it
    runs in answers each request; a run records, in order, what the
    workflow prints and which requests it sends.  The diagnostic prints
    of [invoke_agent] are not recorded, and the pictograph that opens a
    message of the source, having no character in U+0000..U+00FF, is
    left out of it with the space that follows. *)

Module Workflow.
Import Py Json Client.

Record World : Type := {
  stdin_line : str;                    (* the line [input()] returns *)
  get_card : str -> result JSON;       (* GET url, raise_for_status, json() *)
  post_stream : str -> str -> response (* POST url with the text *)
}.

Inductive event : Type :=
| Input (prompt : str)
| Print (s : str)
| Get (url : str)
| PostStream (url : str) (text_input : str).

(** A computation that writes events and may raise. *)
Definition io (A : Type) : Type := list event * result A.

Definition io_ret {A} (a : A) : io A := ([], Ok a).

Definition io_bind {A B} (c : io A) (k : A -> io B) : io B :=
  match c with
  | (t, Ok a) => let (t', r) := k a in (t ++ t', r)
  | (t, Raise e) => (t, Raise e)
  end.

Definition emit (e : event) : io unit := ([e], Ok tt).

Definition lift {A} (r : result A) : io A := ([], r).

(** [try: c  except Exception as e: h e] *)
Definition try_except {A} (c : io A) (h : exn -> io A) : io A :=
  match c with
  | (t, Ok a) => (t, Ok a)
  | (t, Raise e) => let (t', r) := h e in (t ++ t', r)
  end.

Declare Scope io_scope.
Delimit Scope io_scope with io.
Notation "x <- c1 ;; c2" := (io_bind c1 (fun x => c2))
  (at level 61, c1 at next level, right associativity) : io_scope.
Notation "c1 ;; c2" := (io_bind c1 (fun _ => c2))
  (at level 61, right associativity) : io_scope.

Definition nl : str := ["010"%char].

(** [s * n] for a one-character [s] *)
Definition times (c : ascii) (n : nat) : str := repeat c n.

(** [str(len(s))] *)
Definition len_str (s : str) : str := str_of_Z (Z.of_nat (length s)).

Fixpoint rstrip_slash_rev (r : str) : str :=
  match r with
  | c :: r' => if chr_eqb c "/" then rstrip_slash_rev r' else r
  | [] => []
  end.

(** [A2AClient(base_url)]: [self.base_url = base_url.rstrip('/')] *)
Record A2AClient : Type := { base_url : str }.

Definition new_client (url : str) : A2AClient :=
  {| base_url := rev (rstrip_slash_rev (rev url)) |}.

Section Run.
Context {L : PyLib}.
Variable w : World.

Local Open Scope io_scope.

Definition discover_agent (self : A2AClient) : io JSON :=
  let url := base_url self ++ lit "/.well-known/agent.json" in
  emit (Get url) ;;
  match get_card w url with
  | Ok card => io_ret card
  | Raise e =>
      emit (Print (lit "Failed to discover agent at " ++ base_url self
                   ++ lit ": " ++ exn_str e)) ;;
      io_ret (JObj [])
  end.

Definition invoke_agent (self : A2AClient) (text_input : str) : io str :=
  let url := base_url self ++ lit "/v1/message:stream" in
  emit (PostStream url text_input) ;;
  lift (invoke_response (post_stream w url text_input)).

(** [if agent_card: print(... agent_card.get('name', 'Unknown') ...)] *)
Definition print_discovered (label : str) (agent_card : JSON) : io unit :=
  if truthy agent_card then
    name <- lift (get_default agent_card "name" (JStr "Unknown")) ;;
    emit (Print (lit "Discovered " ++ label ++ lit ": " ++ py_str name))
  else io_ret tt.

(** The preview of the research, cut after a sentence when it is long. *)
Definition research_preview (research_content : str) : str :=
  let preview := strip (firstn 500 research_content) in
  if (500 <? length research_content)%nat then
    let last_period := rfind "." preview in
    let preview := if (200 <? last_period)%Z
                   then firstn (Z.to_nat (last_period + 1)) preview
                   else preview in
    preview ++ lit "..."
  else preview.

Definition default_topic : str := "The future of sustainable energy technologies".

(** Stage 1 inside its client: the research text, or [None] when the
    workflow returns from the [except] branch. *)
Definition research_stage (topic : str) : io (option str) :=
  let deepsearch_client := new_client "http://localhost:8003" in
  agent_card <- discover_agent deepsearch_client ;;
  print_discovered "DeepSearch Agent" agent_card ;;
  try_except
    (research_content <- invoke_agent deepsearch_client topic ;;
     emit (Print (lit "Research completed: " ++ len_str research_content ++ lit " chars")) ;;
     (if nonempty research_content then
        emit (Print (nl ++ lit "Research Preview:")) ;;
        emit (Print (times "-" 60)) ;;
        emit (Print (research_preview research_content)) ;;
        emit (Print (times "-" 60))
      else io_ret tt) ;;
     io_ret (Some research_content))
    (fun e =>
       emit (Print (lit "Research failed: " ++ exn_str e)) ;;
       io_ret None).

(** Stage 2 inside its client: [true] when the blog post was made. *)
Definition blog_stage (research_content : str) : io bool :=
  let blogpost_client := new_client "http://localhost:8004" in
  agent_card <- discover_agent blogpost_client ;;
  print_discovered "BlogPost Agent" agent_card ;;
  try_except
    (blog_post <- invoke_agent blogpost_client research_content ;;
     emit (Print (lit "Blog post generated: " ++ len_str blog_post ++ lit " chars")) ;;
     emit (Print (nl ++ times "=" 80)) ;;
     emit (Print "GENERATED BLOG POST SUMMARY") ;;
     emit (Print (times "=" 80)) ;;
     emit (Print blog_post) ;;
     emit (Print (times "=" 80)) ;;
     emit (Print (nl ++ lit "TIP: Check your directory for the generated .md file")) ;;
     io_ret true)
    (fun e =>
       emit (Print (lit "Blog generation failed: " ++ exn_str e)) ;;
       io_ret false).

Definition sequential_workflow_a2a : io unit :=
  emit (Print "Starting A2A Sequential Workflow") ;;
  emit (Print (times "=" 80)) ;;
  emit (Input "Enter a topic for research and blog generation: ") ;;
  let entered := strip (stdin_line w) in
  topic <- (if nonempty entered then io_ret entered
            else emit (Print (lit "No topic entered. Using default: " ++ default_topic)) ;;
                 io_ret default_topic) ;;
  emit (Print (nl ++ lit "Step 1: Discovering and researching topic: '" ++ topic ++ lit "'")) ;;
  emit (Print (times "-" 60)) ;;
  stage1 <- research_stage topic ;;
  match stage1 with
  | None => io_ret tt
  | Some research_content =>
      emit (Print (nl ++ lit "Step 2: Generating blog post from research data")) ;;
      emit (Print (times "-" 60)) ;;
      done <- blog_stage research_content ;;
      if done : bool then
        emit (Print (nl ++ times "=" 80)) ;;
        emit (Print "A2A Sequential workflow completed successfully!")
      else io_ret tt
  end.

End Run.

End Workflow.

(** ** Inbound messages of the agent handlers

    A handler reads its [Message] through [getattr] and [hasattr] only.
    A part is seen through its [root] attribute (absent or [None] here is
    [None]) and its [content] attribute (given by its [str] when the part
    has one); a root through its [kind] (when it is a string) and its
    [text], which may be missing, [None] or a string. *)

Module A2A.

Inductive text_attr : Type :=
| NoText
| TextNone
| Text (s : str).

Record Root : Type := { kind : option str; text : text_attr }.

Record Part : Type := { root : option Root; content : option str }.

Record Message : Type := {
  parts : option (list Part);   (* [None]: no attribute [parts] *)
  message_str : str             (* [str(message)] *)
}.

(** [root and getattr(root, "kind", None) == "text"] *)
Definition is_text_root (r : option Root) : option Root :=
  match r with
  | Some x => match kind x with
              | Some k => if Py.str_eqb k "text" then Some x else None
              | None => None
              end
  | None => None
  end.

(** [getattr(message, "parts", [])] *)
Definition parts_of (message : Message) : list Part :=
  match parts message with Some ps => ps | None => [] end.

(** A part whose root has kind [text] and a string for text. *)
Definition text_part (s : str) : Part :=
  {| root := Some {| kind := Some (lit "text"); text := Text s |}; content := None |}.

End A2A.

(** ** The blog post agent ([blogpost_server_a2a.py]) *)

Module Blogpost.
Import Py Json A2A.

(** One turn of a loop that appends to [query]. *)
Definition append_part (query : str) (part : Part) : result str :=
  match is_text_root (root part) with
  | Some r =>
      match text r with
      | Text s => Ok (query ++ s)
      | TextNone => Ok (query ++ lit "")
      | NoText => Raise (AttributeError "text")
      end
  | None =>
      match content part with
      | Some c => Ok (query ++ c)
      | None => Ok query
      end
  end.

Fixpoint append_parts (query : str) (ps : list Part) : result str :=
  match ps with
  | [] => Ok query
  | part :: rest => query' <- append_part query part ;; append_parts query' rest
  end.

Definition extract_query_from_message (message : Message) : str :=
  let query := match append_parts (lit "") (parts_of message) with
               | Ok query => query
               | Raise _ => message_str message
               end in
  strip query.

(** The first lines of [blogpost_generator_agent]: [research_content]
    as the loop over the parts leaves it. *)
Definition received_content (message : Message) : str :=
  match append_parts (lit "") (parts_of message) with
  | Ok research_content => research_content
  | Raise _ => message_str message
  end.

Section Parsing.
Context {L : PyLib}.

(** The loop over a content list: the text of every part that is a dict
    with a key [text]. *)
Fixpoint text_contents (content_list : list JSON) : list str :=
  match content_list with
  | [] => []
  | part :: rest =>
      match part with
      | JObj d =>
          match lookup "text" d with
          | Some t => py_str t :: text_contents rest
          | None => text_contents rest
          end
      | _ => text_contents rest
      end
  end.

(** The body of the [try] for one candidate once [json.loads] has
    returned [data]; its two prints evaluate ['statusUpdate' in data] and
    [len(content_list)]. *)
Definition candidate_texts (data : JSON) : result (list str) :=
  _ <- py_in "statusUpdate" data ;;
  match data with
  | JObj d =>
      match lookup "statusUpdate" d with
      | Some su =>
          status <- get_default su "status" (JObj []) ;;
          msg <- get_default status "message" (JObj []) ;;
          content_list <- get_default msg "content" (JArr []) ;;
          _ <- len content_list ;;
          parts <- iter content_list ;;
          Ok (text_contents parts)
      | None => Ok []
      end
  | _ => Ok []
  end.

(** What one candidate adds to [parsed_chunks]: every exception of the
    [try] is caught, and none is raised once the loop over the content
    list has begun. *)
Definition candidate_chunks (json_str : str) : list str :=
  match json_loads json_str with
  | None => []
  | Some data =>
      match candidate_texts data with
      | Ok texts => texts
      | Raise _ => []
      end
  end.

(** The candidates: the blob cut at every boundary between a closing and
    an opening brace. *)
Definition json_objects (research_content : str) : list str :=
  split "|||" (replace "}{" "}|||{" research_content).

Definition parsed_chunks (research_content : str) : list str :=
  flat_map candidate_chunks (json_objects research_content).

(** The longest run of characters other than a double quote. *)
Fixpoint span_unquoted (s : str) : str * str :=
  match s with
  | c :: s' => if chr_eqb c dquote then ([], s)
               else let (v, r) := span_unquoted s' in (c :: v, r)
  | [] => ([], [])
  end.

(** A match of the pattern at the head of [s]: the key [text] in double
    quotes, a colon, any whitespace, and a run of one character or more
    between double quotes.  Gives the run and the length of the match. *)
Definition match_text_field (s : str) : option (str * nat) :=
  if startswith (q "'text':") s then
    let r1 := skipn 7 s in
    let r2 := lstrip r1 in
    match r2 with
    | c :: r3 =>
        if chr_eqb c dquote then
          match span_unquoted r3 with
          | ((_ :: _) as v, _ :: _) =>
              Some (v, 7 + (length r1 - length r2) + 1 + length v + 1)%nat
          | _ => None
          end
        else None
    | [] => None
    end
  else None.

(** [re.findall] for that pattern: the matches from left to right,
    without overlap. *)
Fixpoint findall_from (skip : nat) (s : str) : list str :=
  match s with
  | [] => []
  | _ :: s' =>
      match skip with
      | S k => findall_from k s'
      | O => match match_text_field s with
             | Some (v, n) => v :: findall_from (n - 1) s'
             | None => findall_from 0 s'
             end
      end
  end.

Definition findall_text (s : str) : list str := findall_from 0 s.

Definition extraction_error : str :=
  "ERROR: Unable to extract research content from message. Please provide research text directly.".

Definition parse_streaming_json (research_content : str) : str :=
  if negb (contains "statusUpdate" research_content) then research_content
  else
    let parsed_chunks := parsed_chunks research_content in
    if nonempty parsed_chunks then strip (concat parsed_chunks)
    else
      let text_matches := findall_text research_content in
      if nonempty text_matches then join " " text_matches
      else extraction_error.

(** [blogpost_generator_agent] up to the text it hands to the blog
    workflow. *)
Definition research_text (message : Message) : str :=
  let research_content := received_content message in
  if contains "statusUpdate" research_content
  then parse_streaming_json research_content
  else research_content.

End Parsing.

End Blogpost.

(** ** The research agent ([deepserach_server_a2a.py]) *)

Module Deepsearch.
Import Py Json A2A.

Definition append_part (query : str) (part : Part) : result str :=
  match is_text_root (root part) with
  | Some r =>
      match text r with
      | Text s => Ok (query ++ s)
      | TextNone => Ok (query ++ lit "")
      | NoText => Raise (AttributeError "text")
      end
  | None =>
      match content part with
      | Some c => Ok (query ++ c)
      | None => Ok query
      end
  end.

Fixpoint append_parts (query : str) (ps : list Part) : result str :=
  match ps with
  | [] => Ok query
  | part :: rest => query' <- append_part query part ;; append_parts query' rest
  end.

Definition extract_query_from_message (message : Message) : str :=
  let query := match append_parts (lit "") (parts_of message) with
               | Ok query => query
               | Raise _ => message_str message
               end in
  strip query.

(** One turn of the loop of the handler, which assigns to [query]; the
    value of [query] is [None] or a string. *)
Definition assign_part (query : option str) (part : Part) : result (option str) :=
  match is_text_root (root part) with
  | Some r =>
      match text r with
      | Text s => Ok (Some s)
      | TextNone => Ok None
      | NoText => Raise (AttributeError "text")
      end
  | None =>
      match content part with
      | Some c => Ok (Some c)
      | None => Ok query
      end
  end.

Fixpoint assign_parts (query : option str) (ps : list Part) : result (option str) :=
  match ps with
  | [] => Ok query
  | part :: rest => query' <- assign_part query part ;; assign_parts query' rest
  end.

(** The first lines of [deepsearch_agent_handler]: [query] as the loop
    over the parts leaves it. *)
Definition received_query (message : Message) : option str :=
  match assign_parts (Some (lit "")) (parts_of message) with
  | Ok query => query
  | Raise _ => Some (message_str message)
  end.

(** [not query]: the handler answers with an error and stops. *)
Definition no_query (query : option str) : bool :=
  match query with
  | None => true
  | Some s => negb (nonempty s)
  end.

End Deepsearch.


(** ** The streaming workflow ([streaming_workflow_a2a])

    The second workflow of the client: the two stages without discovery,
    and a test of the research text between them.  Runs are recorded as
    for the sequential workflow. *)

Module Streaming.
Import Py Json Client Workflow.

Section Run.
Context {L : PyLib}.
Variable w : World.

Local Open Scope io_scope.

Definition default_topic : str := "Latest developments in quantum computing".

(** Stage 1 inside its client: the research text, or [None] when the
    workflow returns from the [except] branch. *)
Definition research_stage (topic : str) : io (option str) :=
  let deepsearch_client := new_client "http://localhost:8003" in
  try_except
    (research_content <- invoke_agent w deepsearch_client topic ;;
     emit (Print (lit "Research completed: " ++ len_str research_content ++ lit " chars")) ;;
     io_ret (Some research_content))
    (fun e =>
       emit (Print (lit "Research failed: " ++ exn_str e)) ;;
       io_ret None).

(** Stage 2 inside its client: [true] when the blog post was made. *)
Definition blog_stage (research_content : str) : io bool :=
  let blogpost_client := new_client "http://localhost:8004" in
  try_except
    (blog_post <- invoke_agent w blogpost_client research_content ;;
     emit (Print "Blog generated!") ;;
     emit (Print (nl ++ times "=" 80)) ;;
     emit (Print "GENERATED BLOG POST") ;;
     emit (Print (times "=" 80)) ;;
     emit (Print blog_post) ;;
     emit (Print (times "=" 80)) ;;
     io_ret true)
    (fun e =>
       emit (Print (lit "Blog generation failed: " ++ exn_str e)) ;;
       io_ret false).

Definition streaming_workflow_a2a : io unit :=
  emit (Print "Starting A2A Streaming Workflow") ;;
  emit (Print (times "=" 80)) ;;
  emit (Input "Enter a topic for research and blog generation: ") ;;
  let entered := strip (stdin_line w) in
  topic <- (if nonempty entered then io_ret entered
            else emit (Print (lit "No topic entered. Using default: " ++ default_topic)) ;;
                 io_ret default_topic) ;;
  emit (Print (nl ++ lit "Step 1: Streaming research for: '" ++ topic ++ lit "'")) ;;
  emit (Print (times "-" 60)) ;;
  stage1 <- research_stage topic ;;
  match stage1 with
  | None => io_ret tt
  | Some research_content =>
      if negb (nonempty research_content) then
        emit (Print "No research content received")
      else
        emit (Print (nl ++ lit "Step 2: Streaming blog generation")) ;;
        emit (Print (times "-" 60)) ;;
        done <- blog_stage research_content ;;
        if done : bool then
          emit (Print (nl ++ times "=" 80)) ;;
          emit (Print "A2A Streaming workflow completed!")
        else io_ret tt
  end.

End Run.

End Streaming.

(** ** The blog workflow of the blog post agent

    What [blogpost_generator_agent] and [save_blog_node] compute from
    strings alone: the topic taken from the research text, and the name
    of the file the post is written to. *)

Module BlogFile.
Import Py.

Definition between (a b n : nat) : bool := ((a <=? n) && (n <=? b))%nat.

(** [c.isalnum()] on U+0000..U+00FF: the digits, the letters, the
    ordinal indicators, the superscript digits, MICRO SIGN and the
    vulgar fractions. *)
Definition isalnum (c : ascii) : bool :=
  let n := nat_of_ascii c in
  between 48 57 n || between 65 90 n || between 97 122 n
  || (n =? 170)%nat || between 178 179 n || (n =? 181)%nat
  || between 185 186 n || between 188 190 n
  || between 192 214 n || between 216 246 n || between 248 255 n.

(** [c.lower()] on U+0000..U+00FF *)
Definition lower_chr (c : ascii) : ascii :=
  let n := nat_of_ascii c in
  if between 65 90 n || between 192 214 n || between 216 222 n
  then ascii_of_nat (n + 32)
  else c.

(** [s.lower()] *)
Definition lower (s : str) : str := map lower_chr s.

(** [c.isalnum() or c in (' ', '-', '_')] *)
Definition kept (c : ascii) : bool :=
  isalnum c || existsb (chr_eqb c) [" "; "-"; "_"]%char.

(** [safe_title] as [save_blog_node] leaves it. *)
Definition safe_title (blog_title : str) : str :=
  let safe_title := rstrip (filter kept blog_title) in
  lower (replace " " "_" safe_title).

(** [filename] in [save_blog_node]; [timestamp] is the text of
    [datetime.now().strftime("%Y%m%d_%H%M%S")]. *)
Definition filename (timestamp blog_title : str) : str :=
  lit "blog_" ++ timestamp ++ lit "_" ++ firstn 50 (safe_title blog_title) ++ lit ".md".

(** [topic] in [blogpost_generator_agent], from the research text the
    handler has after parsing. *)
Definition blog_topic (research_content : str) : str :=
  let lines := split ["010"%char] research_content in
  let topic := match lines with
               | l :: _ => strip l
               | [] => lit "Blog Post Topic"
               end in
  if (150 <? length topic)%nat then firstn 150 topic ++ lit "..." else topic.

End BlogFile.

(** ** [invoke_agent] with every way it can be left

    The [response] of the client above is an answer whose body decodes
    and whose payloads [json.loads] either parses or refuses.  Here the
    same function is read with every outcome of the calls it makes on
    the answer once its status has arrived: reading or decoding the
    body of an error answer may raise; [json.loads] may raise something
    else than a [JSONDecodeError] (a [RecursionError] on deep nesting, a
    [ValueError] on an integer of more than 4300 digits); and the
    iteration over the lines may end with an exception of any class.
    The diagnostic prints are taken to succeed. *)

Module Invoke.
Import Py Json Client.

(** An exception of any class: one of the classes of [exn], or another,
    given by the name of its class and its [str]. *)
Inductive raised : Type :=
| Known (e : exn)
| Foreign (cls msg : str).

Inductive outcome (A : Type) : Type :=
| Returns (a : A)
| Fails (r : raised).
Arguments Returns {A} a.
Arguments Fails {A} r.

Definition of_result {A} (r : result A) : outcome A :=
  match r with
  | Ok a => Returns a
  | Raise e => Fails (Known e)
  end.

(** What reaches [invoke_agent] once the status has arrived: the status,
    what [(await resp.aread()).decode()] gives (evaluated only for an
    error status), the lines [resp.aiter_lines()] yields and the
    exception, if any, it raises in place of the next line. *)
Record exchange : Type := {
  status_code : Z;
  body : outcome str;
  lines : list str;
  stream_end : option raised
}.

Section Outcomes.
Context {L : PyLib}.

(** [json.loads] on a text: the exception it raises when that is no
    [JSONDecodeError]; otherwise [json_loads] tells what it does. *)
Variable loads_raises : str -> option raised.

(** One payload: the [try] with its [except json.JSONDecodeError],
    which lets every other exception through. *)
Definition on_payload (event_count : nat) (data_str : str) : outcome (list str) :=
  match loads_raises data_str with
  | Some r => Fails r
  | None => of_result (Client.on_payload event_count data_str)
  end.

(** One turn of [async for line in resp.aiter_lines()]. *)
Definition on_line (st : loop_state) (line : str) : loop_state * option raised :=
  let (chunks, event_count) := st in
  if startswith "data: " line then
    let data_str := skipn 6 line in
    if is_payload data_str then
      let event_count := S event_count in
      match on_payload event_count data_str with
      | Returns new => ((chunks ++ new, event_count), None)
      | Fails r => ((chunks, event_count), Some r)
      end
    else (st, None)
  else (st, None).

Fixpoint read_lines (st : loop_state) (ls : list str) : loop_state * option raised :=
  match ls with
  | [] => (st, None)
  | line :: rest =>
      match on_line st line with
      | (st', None) => read_lines st' rest
      | (st', Some r) => (st', Some r)
      end
  end.

(** The body of the outer [try]: [chunks] when it is left, and how it is
    left. *)
Definition stream_body (x : exchange) : list str * outcome str :=
  if (400 <=? status_code x)%Z then
    match body x with
    | Returns text =>
        ([], Fails (Known (Exception (lit "Agent error: HTTP " ++ str_of_Z (status_code x)
                                      ++ lit ": " ++ firstn 500 text))))
    | Fails r => ([], Fails r)
    end
  else
    match read_lines ([], O) (lines x) with
    | ((chunks, _), Some r) => (chunks, Fails r)
    | ((chunks, _), None) =>
        match stream_end x with
        | Some r => (chunks, Fails r)
        | None =>
            let result := strip (concat chunks) in
            if nonempty result then (chunks, Returns result)
            else (chunks, Fails (Known (Exception "No content received from agent")))
        end
    end.

(** [invoke_agent]: the [try] above with its [except httpx.ReadError]. *)
Definition invoke_agent (x : exchange) : outcome str :=
  match stream_body x with
  | (chunks, Fails (Known (ReadError msg))) =>
      if nonempty chunks then Returns (strip (concat chunks))
      else Fails (Known (Exception (lit "Stream error: " ++ msg)))
  | (_, r) => r
  end.

End Outcomes.

End Invoke.

(** * Vocabulary of the specification *)

Import Py Json Client A2A.

Unset Implicit Arguments.

(** A string of whitespace only. *)
Definition blank (s : str) : bool := forallb isspace s.

(** The shape the specification calls a StatusEnvelope, read off the
    value under [statusUpdate]: the value under a key of an object, or
    the default when the key is missing. *)
Definition field_or (k : str) (dflt v : JSON) : JSON :=
  match v with
  | JObj d => match lookup k d with Some x => x | None => dflt end
  | _ => dflt
  end.

Definition is_object (v : JSON) : bool :=
  match v with JObj _ => true | _ => false end.

Definition envelope_status (su : JSON) : JSON := field_or "status" (JObj []) su.
Definition envelope_message (su : JSON) : JSON := field_or "message" (JObj []) (envelope_status su).
Definition envelope_content (su : JSON) : JSON := field_or "content" (JArr []) (envelope_message su).

(** Every level that is present is an object. *)
Definition objects_all_the_way (su : JSON) : bool :=
  is_object su && is_object (envelope_status su) && is_object (envelope_message su).

(** The value under [text] of a content element that is a dict with that
    key. *)
Definition text_of_part (part : JSON) : list JSON :=
  match part with
  | JObj d => match lookup "text" d with Some t => [t] | None => [] end
  | _ => []
  end.

(** A content element [{"text": s}]. *)
Definition text_object (s : str) : JSON := JObj [(lit "text", JStr s)].

(** In list order, [str(text)] of each content element that is a dict
    with a key [text], when it is not blank. *)
Definition kept_texts {L : PyLib} (cl : list JSON) : list str :=
  filter (fun t => negb (blank t)) (map py_str (flat_map text_of_part cl)).

(** The boundary of two objects in a blob, the delimiter the parser
    cuts at, and the boundary once the delimiter is put in. *)
Definition boundary : str := "}{".
Definition delimiter : str := "|||".
Definition delimited : str := "}|||{".

(** A JSON object as the splitter can recover it from a blob: its text
    opens with a brace, closes with one, and holds neither the boundary
    of two objects nor the delimiter. *)
Definition splittable (s : str) : bool :=
  startswith "{" s && endswith "}" s
  && negb (contains "}{" s) && negb (contains "|||" s).

(** The StatusEnvelope that carries the one text [T]. *)
Definition status_envelope (T : str) : JSON :=
  JObj [(lit "statusUpdate",
         JObj [(lit "status",
                JObj [(lit "message",
                       JObj [(lit "content", JArr [text_object T])])])])].

(** [s] is a well-formed StatusEnvelope string carrying [T]: it parses to
    that envelope, shows the marker the parser looks for, and can be
    recovered by the splitter. *)
Definition wire_envelope {L : PyLib} (s T : str) : Prop :=
  json_loads s = Some (status_envelope T)
  /\ contains "statusUpdate" s = true
  /\ splittable s = true.

(** The endpoints of the two stages and the topic the workflow
    researches. *)
Definition stage1_url : str := "http://localhost:8003/v1/message:stream".
Definition stage2_url : str := "http://localhost:8004/v1/message:stream".

Definition topic_of (w : Workflow.World) : str :=
  if nonempty (strip (Workflow.stdin_line w))
  then strip (Workflow.stdin_line w)
  else Workflow.default_topic.

Definition is_invoke (ev : Workflow.event) : bool :=
  match ev with Workflow.PostStream _ _ => true | _ => false end.


(** Discovery and its print, which come before the invocation of a
    stage. *)
Definition preamble {L : PyLib} (w : Workflow.World) (self : Workflow.A2AClient)
    (label : str) : Workflow.io unit :=
  Workflow.io_bind (Workflow.discover_agent w self)
    (fun agent_card => Workflow.print_discovered label agent_card).

(** The text of a text part: a root of kind [text] whose text is a
    string. *)
Definition text_of (p : Part) : list str :=
  match is_text_root (root p) with
  | Some r => match text r with Text s => [s] | _ => [] end
  | None => []
  end.

(** A part that is a text part, or that a handler passes over: it has
    no text root and no [content] attribute. *)
Definition text_or_skipped (p : Part) : bool :=
  match is_text_root (root p) with
  | Some r => match text r with Text _ => true | _ => false end
  | None => match content p with None => true | Some _ => false end
  end.

(** The texts of the text parts of a message, in order. *)
Definition texts_of (message : Message) : list str :=
  flat_map text_of (parts_of message).

(** A message made of text parts. *)
Definition text_message (texts : list str) (shown : str) : Message :=
  {| parts := Some (map text_part texts); message_str := shown |}.

(** ** Concrete streams and blobs

    The examples of the specification, run with the reference
    [json.loads]. *)

(** The StatusEnvelope text with one content element, as in the
    end-to-end scenarios. *)
Definition envelope_text (T : str) : str :=
  q "{'statusUpdate':{'status':{'message':{'content':[{'text':'" ++ T ++ q "'}]}}}}".

(** An answer with status 200 that yields the given lines. *)
Definition answer (ls : list str) (err : option str) : response :=
  {| status_code := 200; body := []; lines := ls; read_error := err |}.

(** A world where nothing is typed, discovery fails, and every agent
    answers with a stream that ends without a line. *)
Definition silent_world : Workflow.World :=
  {| Workflow.stdin_line := [];
     Workflow.get_card := fun _ => Raise (Exception "connection refused");
     Workflow.post_stream := fun _ _ => answer [] None |}.

(** A character that stands for itself inside a JSON string, and a text
    of such characters that holds neither the boundary nor the
    delimiter. *)
Definition plain (c : ascii) : bool :=
  negb (chr_eqb c dquote) && negb (chr_eqb c "\") && (32 <=? nat_of_ascii c)%nat.

Definition plain_text (T : str) : bool :=
  forallb plain T && negb (contains boundary T) && negb (contains delimiter T).

(** ** Vocabulary of the further properties *)

(** A line the reader passes on to the extraction. *)
Definition carries_payload (line : str) : bool :=
  startswith "data: " line && is_payload (skipn 6 line).

(** The answer with the lines the reader ignores taken out. *)
Definition without_ignored_lines (resp : response) : response :=
  {| status_code := status_code resp;
     body := body resp;
     lines := filter carries_payload (lines resp);
     read_error := read_error resp |}.

(** The exceptions a value of the wrong type makes the extraction
    raise. *)
Definition is_shape_error (e : exn) : bool :=
  match e with
  | AttributeError _ | TypeError _ | KeyError _ => true
  | _ => false
  end.

(** The line that carries a payload. *)
Definition data_line (payload : str) : str := lit "data: " ++ payload.

(** An event of a stream: a payload the reader passes on that parses to
    the StatusEnvelope of one text. *)
Definition status_event {L : PyLib} (payload T : str) : Prop :=
  is_payload payload = true /\ json_loads payload = Some (status_envelope T).

(** The texts that are not blank. *)
Definition solid_texts (Ts : list str) : list str :=
  filter (fun T => negb (blank T)) Ts.

(** The requests to a stream endpoint a run sends, in order. *)
Definition invokes {A} (run : Workflow.io A) : list Workflow.event :=
  filter is_invoke (fst run).

(** The agent cards of the two stages. *)
Definition card1_url : str := "http://localhost:8003/.well-known/agent.json".
Definition card2_url : str := "http://localhost:8004/.well-known/agent.json".

(** What the workflow does with a card once discovery has returned:
    nothing for one that is false, a print for an object, and an
    [AttributeError] for any other value, which has no [get]. *)
Definition card_outcome (answer : result JSON) : result unit :=
  match answer with
  | Raise _ => Ok tt
  | Ok card =>
      if truthy card
      then if is_object card then Ok tt else Raise (no_attribute card "get")
      else Ok tt
  end.

(** The topic the streaming workflow researches. *)
Definition streaming_topic (w : Workflow.World) : str :=
  if nonempty (strip (Workflow.stdin_line w))
  then strip (Workflow.stdin_line w)
  else Streaming.default_topic.

(** A candidate of a blob: a text the splitter can recover that either
    parses to the StatusEnvelope of a text, or does not parse at all. *)
Definition blob_candidate {L : PyLib} (s : str) (T : option str) : Prop :=
  splittable s = true /\
  match T with
  | Some t => json_loads s = Some (status_envelope t)
  | None => json_loads s = None
  end.

(** The texts of the candidates that parse. *)
Definition candidate_texts_of (cands : list (str * option str)) : list str :=
  flat_map (fun c => match snd c with Some t => [t] | None => [] end) cands.

(** [v] stands in [blob] as the value of a key [text]: after the key in
    double quotes and a colon comes whitespace, if any, and [v] between
    double quotes. *)
Definition text_field_occurrence (v blob : str) : Prop :=
  exists pre ws post,
    blob = pre ++ q "'text':" ++ ws ++ dquote :: v ++ dquote :: post
    /\ blank ws = true /\ v <> [] /\ ~ In dquote v.

(** A text the scan can return: not empty and free of double quotes. *)
Definition scannable (T : str) : bool :=
  nonempty T && negb (existsb (chr_eqb dquote) T).

(** A text a JSON string holds as it is: not empty, and made of
    characters that stand for themselves between the quotes, so that
    [envelope_text T] is the envelope that carries [T]. *)
Definition verbatim (T : str) : bool :=
  nonempty T && forallb plain T.

(** A part whose root has kind [text] but no attribute [text]: reading
    it raises. *)
Definition broken (p : Part) : bool :=
  match is_text_root (root p) with
  | Some r => match text r with NoText => true | _ => false end
  | None => false
  end.

(** What a part that is not broken says: the text of a text root ([None]
    says nothing), and otherwise the content when there is one. *)
Definition said (p : Part) : str :=
  match is_text_root (root p) with
  | Some r => match text r with Text s => s | _ => [] end
  | None => match content p with Some c => c | None => [] end
  end.

(** A character of a plain file name: alphanumeric and not upper case,
    or a hyphen, or an underscore. *)
Definition name_char (c : ascii) : bool :=
  (BlogFile.isalnum c && chr_eqb (BlogFile.lower_chr c) c)
  || chr_eqb c "-" || chr_eqb c "_".

(** The line feed. *)
Definition newline : ascii := "010"%char.

(** A world where a topic is typed, discovery fails, and every agent
    answers with one status event. *)
Definition answering_world : Workflow.World :=
  {| Workflow.stdin_line := lit " tides ";
     Workflow.get_card := fun _ => Raise (Exception "connection refused");
     Workflow.post_stream := fun _ _ => answer [lit "data: " ++ envelope_text "found"] None |}.

(** A world as the last one where discovery answers with a JSON array. *)
Definition array_card_world : Workflow.World :=
  {| Workflow.stdin_line := lit " tides ";
     Workflow.get_card := fun _ => Ok (JArr [JStr "card"]);
     Workflow.post_stream := fun _ _ => answer [lit "data: " ++ envelope_text "found"] None |}.

(** A part whose root has kind [text] and the given [text] attribute. *)
Definition root_part (t : text_attr) : Part :=
  {| root := Some {| kind := Some (lit "text"); text := t |}; content := None |}.

(** What leaves [invoke_agent] when [r'] is raised inside its [try] and
    the call fails: [r'] itself, unless it is the [httpx.ReadError] the
    function catches, which it replaces. *)
Definition relayed (r' r : Invoke.raised) : Prop :=
  match r' with
  | Invoke.Known (ReadError msg) =>
      r = Invoke.Known (Exception (lit "Stream error: " ++ msg))
  | _ => r = r'
  end.

(** An answer seen as an exchange in which the body decodes and the
    lines end normally or with a read error. *)
Definition widen (resp : response) : Invoke.exchange :=
  {| Invoke.status_code := status_code resp;
     Invoke.body := Invoke.Returns (body resp);
     Invoke.lines := lines resp;
     Invoke.stream_end :=
       match read_error resp with
       | Some msg => Some (Invoke.Known (ReadError msg))
       | None => None
       end |}.

(** A payload [json.loads] refuses with a [ValueError]: an integer of
    4301 digits; and a [json.loads] that raises on that payload only. *)
Definition long_integer : str := repeat "1"%char 4301.

Definition digits_limit : Invoke.raised :=
  Invoke.Foreign "ValueError"
    "Exceeds the limit (4300 digits) for integer string conversion: value has 4301 digits; use sys.set_int_max_str_digits() to increase the limit".

Definition limited_loads (p : str) : option Invoke.raised :=
  if str_eqb p long_integer then Some digits_limit else None.

(** An error answer whose body is not UTF-8. *)
Definition undecodable : Invoke.raised :=
  Invoke.Foreign "UnicodeDecodeError"
    "'utf-8' codec can't decode byte 0xff in position 0: invalid start byte".

(** * Properties *)

(** ** Facts on the string primitives *)

Section StringFacts.

Lemma chr_eqb_eq (a b : ascii) : chr_eqb a b = true <-> a = b.
Proof. unfold chr_eqb. apply Ascii.eqb_eq. Qed.

Lemma chr_eqb_refl (a : ascii) : chr_eqb a a = true.
Proof. apply chr_eqb_eq. reflexivity. Qed.

Lemma str_eqb_eq (s t : str) : str_eqb s t = true <-> s = t.
Proof.
  revert t. induction s as [|a s IH]; intros [|b t]; simpl; split; intros H;
    try reflexivity; try discriminate.
  - apply andb_true_iff in H. destruct H as [H1 H2].
    apply chr_eqb_eq in H1. apply IH in H2. congruence.
  - injection H as -> ->. rewrite chr_eqb_refl. simpl. apply IH. reflexivity.
Qed.

(** [startswith] and [contains] decide the presence of a prefix and of a
    substring. *)
Lemma startswith_spec (p s : str) :
  startswith p s = true <-> exists r, s = p ++ r.
Proof.
  revert s. induction p as [|a p IH]; intros s; simpl.
  - split; [intros _; exists s; reflexivity | reflexivity].
  - destruct s as [|b s].
    + split; [discriminate | intros [r Hr]; discriminate].
    + rewrite andb_true_iff, chr_eqb_eq, IH. split.
      * intros [-> [r ->]]. exists r. reflexivity.
      * intros [r Hr]. injection Hr as -> ->. split; [reflexivity | exists r; reflexivity].
Qed.

Lemma contains_spec (p s : str) :
  contains p s = true <-> exists a b, s = a ++ p ++ b.
Proof.
  induction s as [|c s IH].
  - simpl. rewrite orb_false_r, startswith_spec. split.
    + intros [r Hr]. exists [], r. exact Hr.
    + intros [a [b H]]. destruct a; [exists b; exact H | discriminate].
  - simpl. rewrite orb_true_iff, startswith_spec, IH. split.
    + intros [[r Hr] | [a [b H]]].
      * exists [], r. exact Hr.
      * exists (c :: a), b. rewrite H. reflexivity.
    + intros [a [b H]]. destruct a as [|c' a].
      * left. exists b. exact H.
      * right. injection H as -> ->. exists a, b. reflexivity.
Qed.

Lemma contains_cons_false (p : str) (c : ascii) (s : str) :
  contains p (c :: s) = false -> startswith p (c :: s) = false /\ contains p s = false.
Proof. simpl. intros H. apply orb_false_iff in H. exact H. Qed.

Lemma contains_app_l (p a b : str) :
  contains p a = true -> contains p (a ++ b) = true.
Proof.
  rewrite !contains_spec. intros [x [y ->]]. exists x, (y ++ b).
  rewrite <- !app_assoc. reflexivity.
Qed.

(** [strip] leaves nothing exactly of a blank string. *)
Lemma lstrip_nil (s : str) : lstrip s = [] <-> blank s = true.
Proof.
  induction s as [|c s IH]; simpl.
  - split; reflexivity.
  - destruct (isspace c); simpl; [exact IH | split; discriminate].
Qed.

Lemma blank_app (s t : str) : blank (s ++ t) = blank s && blank t.
Proof. apply forallb_app. Qed.

Lemma blank_rev (s : str) : blank (rev s) = blank s.
Proof.
  induction s as [|c s IH]; simpl; [reflexivity|].
  rewrite blank_app, IH. simpl. rewrite andb_true_r. apply andb_comm.
Qed.

Lemma lstrip_suffix (s : str) : exists a, s = a ++ lstrip s /\ blank a = true.
Proof.
  induction s as [|c s [a [E B]]]; simpl.
  - exists []. split; reflexivity.
  - destruct (isspace c) eqn:W.
    + exists (c :: a). simpl. rewrite W, B. split; [f_equal; exact E | reflexivity].
    + exists []. split; reflexivity.
Qed.

Lemma blank_lstrip (s : str) : blank (lstrip s) = blank s.
Proof.
  destruct (lstrip_suffix s) as [a [E B]].
  rewrite E at 2. rewrite blank_app, B. reflexivity.
Qed.

Lemma strip_nil (s : str) : strip s = [] <-> blank s = true.
Proof.
  unfold strip, rstrip. split; intros H.
  - assert (lstrip (rev (lstrip s)) = []) as H1.
    { destruct (lstrip (rev (lstrip s))); [reflexivity|].
      simpl in H. apply app_eq_nil in H. destruct H; discriminate. }
    apply lstrip_nil in H1. rewrite blank_rev, blank_lstrip in H1. exact H1.
  - apply lstrip_nil in H. rewrite H. reflexivity.
Qed.

Lemma strip_nonempty (s : str) : nonempty (strip s) = negb (blank s).
Proof.
  destruct (blank s) eqn:B.
  - apply strip_nil in B. rewrite B. reflexivity.
  - destruct (strip s) eqn:E; [|reflexivity].
    apply strip_nil in E. congruence.
Qed.


End StringFacts.

(** ** The client: payloads, fragments and finalization *)

Section ClientFacts.
Context {L : PyLib}.

(** A payload the reader passes on is neither empty nor blank. *)
Lemma is_payload_not_blank (p : str) : is_payload p = true -> blank p = false.
Proof.
  unfold is_payload, mem. simpl. intros H.
  destruct (blank p) eqn:B; [|reflexivity].
  apply strip_nil in B. rewrite B in H. simpl in H. discriminate.
Qed.

Lemma is_payload_nonempty (p : str) : is_payload p = true -> nonempty p = true.
Proof.
  intros H. apply is_payload_not_blank in H. destruct p; [discriminate | reflexivity].
Qed.

(** No fragment the loop over a content list keeps is blank. *)
Lemma text_chunks_not_blank (cl : list JSON) :
  forallb (fun t => negb (blank t)) (text_chunks cl) = true.
Proof.
  induction cl as [|part cl IH]; simpl; [reflexivity|].
  destruct part as [| | | | |l|d]; try exact IH.
  destruct (lookup _ d) as [t|]; [|exact IH].
  destruct (nonempty (strip (py_str t))) eqn:E; [|exact IH].
  simpl. rewrite IH, andb_true_r. rewrite strip_nonempty in E. exact E.
Qed.

Lemma extract_not_blank (ec : nat) (data : JSON) (new : list str) :
  extract ec data = Ok new -> forallb (fun t => negb (blank t)) new = true.
Proof.
  unfold extract, bind.
  destruct (debug_keys ec data); [|intros ?; discriminate].
  destruct data as [| | | | |l|d]; try (intros [= <-]; reflexivity).
  destruct (lookup _ d) as [su|].
  - repeat match goal with
           | |- match ?c with Ok _ => _ | Raise _ => _ end = _ -> _ =>
               destruct c; [|intros ?; discriminate]
           end.
    intros [= <-]. apply text_chunks_not_blank.
  - destruct (lookup _ d) as [c|]; [|intros [= <-]; reflexivity].
    destruct (iter c) as [ps|]; [|intros ?; discriminate].
    intros [= <-]. apply text_chunks_not_blank.
Qed.

Lemma on_payload_not_blank (ec : nat) (p : str) (new : list str) :
  is_payload p = true -> on_payload ec p = Ok new ->
  forallb (fun t => negb (blank t)) new = true.
Proof.
  intros P. unfold on_payload. destruct (json_loads p) as [data|].
  - apply extract_not_blank.
  - destruct (nonempty p && negb (startswith "{" (strip p))); intros [= <-]; [|reflexivity].
    simpl. rewrite (is_payload_not_blank _ P). reflexivity.
Qed.

Lemma on_line_not_blank (st st' : loop_state) (line : str) (o : option exn) :
  forallb (fun t => negb (blank t)) (fst st) = true ->
  on_line st line = (st', o) ->
  forallb (fun t => negb (blank t)) (fst st') = true.
Proof.
  destruct st as [chunks ec]. cbn [fst]. intros I. unfold on_line.
  destruct (startswith _ line); [|intros [= <- <-]; exact I].
  destruct (is_payload _) eqn:P; [|intros [= <- <-]; exact I].
  destruct (on_payload _ _) as [new|e] eqn:E; intros [= <- <-]; cbn [fst].
  - rewrite forallb_app, I. simpl. exact (on_payload_not_blank _ _ _ P E).
  - exact I.
Qed.

Lemma read_lines_not_blank (ls : list str) (st st' : loop_state) (o : option exn) :
  forallb (fun t => negb (blank t)) (fst st) = true ->
  read_lines st ls = (st', o) ->
  forallb (fun t => negb (blank t)) (fst st') = true.
Proof.
  revert st. induction ls as [|line ls IH]; intros st I; simpl.
  - intros [= <- <-]. exact I.
  - destruct (on_line st line) as [st1 [e|]] eqn:E.
    + intros [= <- <-]. exact (on_line_not_blank _ _ _ _ I E).
    + apply IH. exact (on_line_not_blank _ _ _ _ I E).
Qed.

(** Fragments that are not blank join to a text that is not blank,
    unless there is none. *)
Lemma joined_not_blank (chunks : list str) :
  forallb (fun t => negb (blank t)) chunks = true ->
  chunks <> [] -> blank (concat chunks) = false.
Proof.
  intros I N. destruct chunks as [|c chunks]; [contradiction|].
  simpl in I. apply andb_true_iff in I. destruct I as [I _].
  unfold concat. simpl. rewrite blank_app.
  apply negb_true_iff in I. rewrite I. reflexivity.
Qed.

Lemma stream_body_ok (resp : response) (chunks : list str) (n : nat) :
  (status_code resp < 400)%Z ->
  read_lines ([], O) (lines resp) = ((chunks, n), None) ->
  stream_body resp =
    match read_error resp with
    | Some msg => (chunks, Raise (ReadError msg))
    | None => if nonempty (strip (concat chunks))
              then (chunks, Ok (strip (concat chunks)))
              else (chunks, Raise (Exception "No content received from agent"))
    end.
Proof.
  intros S R. unfold stream_body.
  replace (400 <=? status_code resp)%Z with false by (symmetry; apply Z.leb_gt; exact S).
  rewrite R. reflexivity.
Qed.

End ClientFacts.

(** ** Properties of the client *)

Section ClientProperties.
Context {L : PyLib}.

Lemma text_chunks_kept (cl : list JSON) : text_chunks cl = kept_texts cl.
Proof.
  unfold kept_texts. induction cl as [|part cl IH]; [reflexivity|].
  cbn [text_chunks flat_map]. destruct part as [| | | | |l|d]; try exact IH.
  cbn [text_of_part]. destruct (lookup _ d) as [t|]; [|exact IH].
  cbn [app map filter]. rewrite strip_nonempty, IH. reflexivity.
Qed.

Lemma get_default_field (k : str) (dflt v : JSON) :
  is_object v = true -> get_default v k dflt = Ok (field_or k dflt v).
Proof. destruct v; try discriminate. reflexivity. Qed.

Lemma extract_status_envelope (ec : nat) (d : dict) (su : JSON) (cl : list JSON) :
  lookup "statusUpdate" d = Some su ->
  objects_all_the_way su = true ->
  envelope_content su = JArr cl ->
  extract ec (JObj d) = Ok (text_chunks cl).
Proof.
  intros Hsu Hobj Hcl. unfold objects_all_the_way in Hobj.
  apply andb_true_iff in Hobj. destruct Hobj as [Hobj Hm].
  apply andb_true_iff in Hobj. destruct Hobj as [Ho Hs].
  unfold extract.
  assert (debug_keys ec (JObj d) = Ok tt) as ->.
  { unfold debug_keys. destruct (ec <=? 3)%nat; [|reflexivity].
    rewrite Hsu. destruct su as [| | | | | |sd]; try discriminate.
    cbn [keys bind]. unfold envelope_status, field_or in Hs.
    destruct (lookup _ sd) as [st|]; [|reflexivity].
    destruct st; try discriminate. reflexivity. }
  cbn [bind]. rewrite Hsu.
  rewrite (get_default_field _ _ _ Ho). cbn [bind].
  fold (envelope_status su). rewrite (get_default_field _ _ _ Hs). cbn [bind].
  fold (envelope_message su). rewrite (get_default_field _ _ _ Hm). cbn [bind].
  fold (envelope_content su). rewrite Hcl.
  assert (debug_content ec (JArr cl) = Ok tt) as ->.
  { unfold debug_content. destruct (ec <=? 3)%nat; [|reflexivity].
    destruct cl; reflexivity. }
  reflexivity.
Qed.

(** C2, as amended: for every payload that parses as a JSON object with
    a top-level key [statusUpdate] whose value, and the values under
    [status] and [message] where present, are objects and whose [content],
    where present, is a list, extraction descends
    [statusUpdate.status.message.content] with an empty object or list
    for every missing key and appends, in list order, [str(text)] of each
    content element that is a dict with a key [text] and a text that is
    not blank; for the content list [[{"text": "a"}, {"text": "b"}]] the
    fragments are ["a"] and ["b"], joining to ["ab"]. *)
Theorem C2_status_envelope_extraction
    (ec : nat) (p : str) (d : dict) (su : JSON) (cl : list JSON) :
  json_loads p = Some (JObj d) ->
  lookup "statusUpdate" d = Some su ->
  objects_all_the_way su = true ->
  envelope_content su = JArr cl ->
  on_payload ec p = Ok (kept_texts cl) /\
  (cl = [text_object "a"; text_object "b"] ->
   on_payload ec p = Ok [lit "a"; lit "b"] /\
   concat [lit "a"; lit "b"] = lit "ab").
Proof.
  intros Hp Hsu Hobj Hcl.
  assert (on_payload ec p = Ok (kept_texts cl)) as H.
  { unfold on_payload. rewrite Hp, <- text_chunks_kept.
    exact (extract_status_envelope ec d su cl Hsu Hobj Hcl). }
  split; [exact H|].
  intros ->. split; [|reflexivity].
  rewrite H.
  change (kept_texts [text_object "a"; text_object "b"])
    with (filter (fun t => negb (blank t)) [py_str (JStr "a"); py_str (JStr "b")]).
  rewrite !py_str_JStr. reflexivity.
Qed.

(** C1: a payload that fails JSON parsing is appended verbatim when,
    trimmed, it does not start with an opening brace, and adds nothing
    when it does; the same seen on the line that carries it. *)
Theorem C1_unparsable_payload (ec : nat) (p : str) :
  is_payload p = true ->
  json_loads p = None ->
  on_payload ec p = Ok (if startswith "{" (strip p) then [] else [p]) /\
  forall chunks,
    on_line (chunks, ec) (lit "data: " ++ p) =
    ((if startswith "{" (strip p) then chunks else chunks ++ [p], S ec), None).
Proof.
  intros P J.
  assert (on_payload ec p = Ok (if startswith "{" (strip p) then [] else [p])) as H.
  { unfold on_payload. rewrite J, (is_payload_nonempty _ P).
    destruct (startswith "{" (strip p)); reflexivity. }
  split; [exact H|].
  intros chunks. unfold on_line.
  change (startswith "data: " (lit "data: " ++ p)) with true.
  change (skipn 6 (lit "data: " ++ p)) with p.
  cbv iota. rewrite P. unfold on_payload in *. rewrite J in *.
  rewrite (is_payload_nonempty _ P). cbn [andb].
  destruct (startswith "{" (strip p)); cbn [negb]; [rewrite app_nil_r|]; reflexivity.
Qed.

(** The fragments of a stream that was read to its end are not blank, so
    that their trimmed join is empty only when there is none. *)
Lemma finalize_nonempty (resp : response) (chunks : list str) (n : nat) (o : option exn) :
  read_lines ([], O) (lines resp) = ((chunks, n), o) ->
  nonempty (strip (concat chunks)) = nonempty chunks.
Proof.
  intros R. rewrite strip_nonempty.
  pose proof (read_lines_not_blank (lines resp) ([], O) _ _ eq_refl R) as I.
  cbn [fst] in I. destruct chunks as [|c chunks]; [reflexivity|].
  rewrite (joined_not_blank _ I); [reflexivity | discriminate].
Qed.

(** C6: when the stream ends, the result is the fragments joined
    without separator and trimmed; with no fragment the call fails with
    "No content received from agent" and never returns the empty string;
    with the single fragment ["  x  "] it returns ["x"]. *)
Theorem C6_finalize (resp : response) (chunks : list str) (n : nat) :
  (status_code resp < 400)%Z ->
  read_error resp = None ->
  read_lines ([], O) (lines resp) = ((chunks, n), None) ->
  invoke_response resp =
    (if nonempty chunks then Ok (strip (concat chunks))
     else Raise (Exception "No content received from agent")) /\
  invoke_response resp <> Ok [] /\
  (chunks = [lit "  x  "] -> invoke_response resp = Ok (lit "x")).
Proof.
  intros S E R.
  assert (invoke_response resp =
          (if nonempty chunks then Ok (strip (concat chunks))
           else Raise (Exception "No content received from agent"))) as H.
  { unfold invoke_response. rewrite (stream_body_ok _ _ _ S R), E.
    rewrite (finalize_nonempty _ _ _ _ R). destruct (nonempty chunks); reflexivity. }
  split; [exact H|]. split.
  - rewrite H. destruct (nonempty chunks) eqn:N; [|discriminate].
    rewrite <- (finalize_nonempty _ _ _ _ R) in N. intros [= Z]. rewrite Z in N. discriminate.
  - intros ->. rewrite H. reflexivity.
Qed.

(** C7: when reading the stream fails after the lines were read, the
    call returns the trimmed join of the fragments if there is one, and
    fails with "Stream error: ..." if there is none. *)
Theorem C7_read_error_recovery
    (resp : response) (chunks : list str) (n : nat) (msg : str) :
  (status_code resp < 400)%Z ->
  read_lines ([], O) (lines resp) = ((chunks, n), None) ->
  read_error resp = Some msg ->
  invoke_response resp =
    (if nonempty chunks then Ok (strip (concat chunks))
     else Raise (Exception (lit "Stream error: " ++ msg))).
Proof.
  intros S R E. unfold invoke_response.
  rewrite (stream_body_ok _ _ _ S R), E. reflexivity.
Qed.

End ClientProperties.

(** ** The splitter: replacing the boundaries and cutting at the delimiter *)

Section SplitterFacts.

Lemma endswith_brace (s : str) :
  endswith "}" s = true -> exists m, s = m ++ ["}"%char].
Proof.
  unfold endswith. intros H. apply startswith_spec in H. destruct H as [r H].
  exists (rev r). rewrite <- (rev_involutive s), H. reflexivity.
Qed.

Lemma startswith_brace (s : str) :
  startswith "{" s = true -> exists t, s = "{"%char :: t.
Proof. intros H. apply startswith_spec in H. exact H. Qed.

Lemma replace_absent (old new s : str) :
  contains old s = false -> replace old new s = s.
Proof.
  unfold replace. induction s as [|c s IH]; [reflexivity|].
  intros H. apply contains_cons_false in H. destruct H as [H1 H2].
  cbn [replace_from]. rewrite H1, (IH H2). reflexivity.
Qed.

Lemma split_absent (sep s : str) :
  contains sep s = false -> split sep s = [s].
Proof.
  unfold split. induction s as [|c s IH]; [reflexivity|].
  intros H. apply contains_cons_false in H. destruct H as [H1 H2].
  cbn [split_from]. rewrite H1, (IH H2). reflexivity.
Qed.

(** Whether a string starts with the boundary depends on its first two
    characters only. *)
Lemma boundary_head (m u : str) :
  startswith boundary (m ++ ["}"%char]) = false ->
  m <> [] ->
  startswith boundary (m ++ "}"%char :: u) = false.
Proof.
  unfold boundary, lit.
  destruct m as [|a [|b m]]; [contradiction | |];
    cbn [app startswith list_ascii_of_string]; intros H _.
  - destruct (chr_eqb "}" a); [|reflexivity]. reflexivity.
  - exact H.
Qed.

Lemma replace_boundary (m t : str) :
  contains boundary (m ++ ["}"%char]) = false ->
  replace boundary delimited (m ++ "}"%char :: "{"%char :: t)
  = m ++ delimited ++ replace boundary delimited t.
Proof.
  unfold replace. induction m as [|c m IH]; intros H.
  - reflexivity.
  - change ((c :: m) ++ ["}"%char]) with (c :: (m ++ ["}"%char])) in H.
    apply contains_cons_false in H. destruct H as [H1 H2].
    change ((c :: m) ++ "}"%char :: "{"%char :: t)
      with (c :: (m ++ "}"%char :: "{"%char :: t)).
    cbn [replace_from].
    change (c :: (m ++ "}"%char :: "{"%char :: t))
      with ((c :: m) ++ "}"%char :: "{"%char :: t).
    rewrite (boundary_head (c :: m) ("{"%char :: t) H1) by discriminate.
    rewrite (IH H2). reflexivity.
Qed.

Lemma delimiter_head (x u : str) :
  startswith delimiter (x ++ ["}"%char]) = false ->
  startswith delimiter (x ++ "}"%char :: u) = false.
Proof.
  unfold delimiter, lit.
  destruct x as [|a [|b [|c x]]];
    cbn [app startswith list_ascii_of_string]; intros H.
  - reflexivity.
  - destruct (chr_eqb "|" a); reflexivity.
  - destruct (chr_eqb "|" a); [|reflexivity].
    destruct (chr_eqb "|" b); reflexivity.
  - exact H.
Qed.

Lemma split_delimiter (x y : str) :
  contains delimiter (x ++ ["}"%char]) = false ->
  split delimiter (x ++ "}"%char :: delimiter ++ y)
  = (x ++ ["}"%char]) :: split delimiter y.
Proof.
  unfold split. induction x as [|c x IH]; intros H.
  - reflexivity.
  - change ((c :: x) ++ ["}"%char]) with (c :: (x ++ ["}"%char])) in H.
    apply contains_cons_false in H. destruct H as [H1 H2].
    change ((c :: x) ++ "}"%char :: delimiter ++ y)
      with (c :: (x ++ "}"%char :: delimiter ++ y)).
    cbn [split_from].
    change (c :: (x ++ "}"%char :: delimiter ++ y))
      with ((c :: x) ++ "}"%char :: delimiter ++ y).
    rewrite (delimiter_head (c :: x) (delimiter ++ y) H1).
    rewrite (IH H2). reflexivity.
Qed.

End SplitterFacts.

Section SplitterRecovers.

Lemma splittable_inv (s : str) :
  splittable s = true ->
  exists m, s = ("{"%char :: m) ++ ["}"%char]
            /\ contains boundary s = false /\ contains delimiter s = false.
Proof.
  unfold splittable. intros H.
  apply andb_true_iff in H. destruct H as [H Hd].
  apply andb_true_iff in H. destruct H as [H Hb].
  apply andb_true_iff in H. destruct H as [Hs He].
  apply negb_true_iff in Hd, Hb.
  apply startswith_brace in Hs. destruct Hs as [t ->].
  apply endswith_brace in He. destruct He as [m He].
  destruct m as [|a m].
  - discriminate He.
  - injection He as <- ->. exists m. repeat split; assumption.
Qed.

Lemma replace_envelopes (rest : list str) :
  Forall (fun e => splittable e = true) rest ->
  forall m, contains boundary (m ++ ["}"%char]) = false ->
  replace boundary delimited (m ++ ["}"%char] ++ concat rest)
  = m ++ ["}"%char] ++ flat_map (fun e => delimiter ++ e) rest.
Proof.
  induction 1 as [|e rest He _ IH]; intros m Hm.
  - cbn [concat List.concat flat_map]. rewrite app_nil_r.
    apply replace_absent. exact Hm.
  - apply splittable_inv in He. destruct He as [me [-> [Hb _]]].
    change (m ++ ["}"%char] ++ concat ((("{"%char :: me) ++ ["}"%char]) :: rest))
      with (m ++ "}"%char :: "{"%char :: ((me ++ ["}"%char]) ++ concat rest)).
    rewrite (replace_boundary m _ Hm), <- app_assoc.
    change (("{"%char :: me) ++ ["}"%char]) with ("{"%char :: (me ++ ["}"%char])) in Hb.
    apply contains_cons_false in Hb. destruct Hb as [_ Hb].
    rewrite (IH me Hb). cbn [flat_map]. rewrite <- !app_assoc. reflexivity.
Qed.

Lemma split_envelopes (rest : list str) :
  Forall (fun e => splittable e = true) rest ->
  forall x, contains delimiter (x ++ ["}"%char]) = false ->
  split delimiter (x ++ ["}"%char] ++ flat_map (fun e => delimiter ++ e) rest)
  = (x ++ ["}"%char]) :: rest.
Proof.
  induction 1 as [|e rest He _ IH]; intros x Hx.
  - cbn [flat_map]. rewrite app_nil_r. apply split_absent. exact Hx.
  - apply splittable_inv in He. destruct He as [me [-> [_ Hd]]].
    cbn [flat_map].
    change (x ++ ["}"%char] ++ (delimiter ++ ("{"%char :: me) ++ ["}"%char]) ++
            flat_map (fun e => delimiter ++ e) rest)
      with (x ++ "}"%char :: (delimiter ++ ("{"%char :: me) ++ ["}"%char]) ++
            flat_map (fun e => delimiter ++ e) rest).
    rewrite <- (app_assoc delimiter).
    rewrite (split_delimiter x _ Hx).
    rewrite <- app_assoc. rewrite (IH ("{"%char :: me) Hd). reflexivity.
Qed.

(** The candidates of a blob made of splittable objects are the objects. *)
Lemma json_objects_concat (e : str) (rest : list str) :
  Forall (fun e => splittable e = true) (e :: rest) ->
  Blogpost.json_objects (concat (e :: rest)) = e :: rest.
Proof.
  intros H. inversion H as [|e' rest' He Hrest]; subst.
  apply splittable_inv in He. destruct He as [m [-> [Hb Hd]]].
  unfold Blogpost.json_objects.
  change (lit "}{") with boundary. change (lit "}|||{") with delimited.
  change (lit "|||") with delimiter.
  change (concat ((("{"%char :: m) ++ ["}"%char]) :: rest))
    with ((("{"%char :: m) ++ ["}"%char]) ++ concat rest).
  rewrite <- app_assoc.
  rewrite (replace_envelopes rest Hrest _ Hb).
  apply (split_envelopes rest Hrest _ Hd).
Qed.

End SplitterRecovers.

(** ** Properties of [parse_streaming_json] *)

Section ParserProperties.
Context {L : PyLib}.

Lemma candidate_chunks_envelope (s T : str) :
  json_loads s = Some (status_envelope T) -> Blogpost.candidate_chunks s = [T].
Proof.
  intros H. unfold Blogpost.candidate_chunks. rewrite H.
  change (Blogpost.candidate_texts (status_envelope T)) with (Ok [py_str (JStr T)]).
  rewrite py_str_JStr. reflexivity.
Qed.

Lemma parsed_chunks_envelopes (envs : list (str * str)) :
  Forall (fun e => wire_envelope (fst e) (snd e)) envs ->
  flat_map Blogpost.candidate_chunks (map fst envs) = map snd envs.
Proof.
  induction 1 as [|[s T] envs [Hs _] _ IH]; [reflexivity|].
  cbn [map flat_map fst snd] in *. rewrite (candidate_chunks_envelope s T Hs), IH.
  reflexivity.
Qed.

Lemma wire_envelopes_splittable (envs : list (str * str)) :
  Forall (fun e => wire_envelope (fst e) (snd e)) envs ->
  Forall (fun e => splittable e = true) (map fst envs).
Proof.
  induction 1 as [|[s T] envs [_ [_ Hs]] _ IH]; constructor; assumption.
Qed.

(** The parser on a blob of well-formed envelopes: the candidates are
    the envelopes, each gives its text, and the join is trimmed. *)
Lemma parse_streaming_json_envelopes (envs : list (str * str)) :
  Forall (fun e => wire_envelope (fst e) (snd e)) envs ->
  Blogpost.parse_streaming_json (concat (map fst envs))
  = strip (concat (map snd envs)).
Proof.
  intros H. destruct envs as [|[s T] envs]; [reflexivity|].
  pose proof (wire_envelopes_splittable _ H) as Hs.
  pose proof (parsed_chunks_envelopes _ H) as Hc.
  inversion H as [|? ? [_ [Hm _]] _]; subst. cbn [fst] in Hm.
  unfold Blogpost.parse_streaming_json, Blogpost.parsed_chunks.
  cbn [map fst] in *.
  assert (contains "statusUpdate" (concat (s :: map fst envs)) = true) as ->.
  { apply contains_app_l. exact Hm. }
  cbn [negb]. rewrite (json_objects_concat s _ Hs), Hc. reflexivity.
Qed.

(** C3, as amended: for every sequence of well-formed StatusEnvelope
    strings carrying the texts T_1 .. T_N, each opening and closing with
    a brace, showing the marker [statusUpdate] and free of the boundary
    and of the delimiter, [parse_streaming_json] applied to their
    concatenation returns T_1 .. T_N joined in order without separator
    and trimmed of leading and trailing whitespace. *)
Theorem C3_concatenated_envelopes (envs : list (str * str)) :
  Forall (fun e => wire_envelope (fst e) (snd e)) envs ->
  Blogpost.parse_streaming_json (concat (map fst envs))
  = strip (concat (map snd envs)).
Proof. exact (parse_streaming_json_envelopes envs). Qed.

(** The matches of the scan hold no double quote, and a scan that
    matches has read one. *)
Lemma span_unquoted_fst (s : str) : ~ In dquote (fst (Blogpost.span_unquoted s)).
Proof.
  induction s as [|c s IH]; cbn [Blogpost.span_unquoted]; [intros []|].
  destruct (chr_eqb c dquote) eqn:E; [intros []|].
  destruct (Blogpost.span_unquoted s) as [v r]. cbn [fst] in *.
  intros [->|H]; [|exact (IH H)].
  rewrite chr_eqb_refl in E. discriminate.
Qed.






(** C9: a blob that does not show the marker [statusUpdate] is returned
    unchanged. *)
Theorem C9_no_marker_unchanged (blob : str) :
  contains "statusUpdate" blob = false ->
  Blogpost.parse_streaming_json blob = blob.
Proof.
  intros H. unfold Blogpost.parse_streaming_json. rewrite H. reflexivity.
Qed.

(** The handler, which tests for the marker itself, hands such a text on
    as it received it. *)
Lemma research_text_no_marker (message : Message) :
  contains "statusUpdate" (Blogpost.received_content message) = false ->
  Blogpost.research_text message = Blogpost.received_content message.
Proof.
  intros H. unfold Blogpost.research_text. rewrite H. reflexivity.
Qed.

End ParserProperties.

(** ** Properties of the pipeline *)

Section PipelineProperties.
Context {L : PyLib}.
Import Workflow.

Lemma io_bind_assoc {A B C} (c : io A) (f : A -> io B) (g : B -> io C) :
  io_bind (io_bind c f) g = io_bind c (fun x => io_bind (f x) g).
Proof.
  destruct c as [t [a|e]]; [|reflexivity]. cbn [io_bind].
  destruct (f a) as [t' [b|e']]; [|reflexivity]. cbn [io_bind].
  destruct (g b) as [t'' r]. rewrite app_assoc. reflexivity.
Qed.

Lemma stage1_endpoint :
  base_url (new_client "http://localhost:8003") ++ lit "/v1/message:stream" = stage1_url.
Proof. reflexivity. Qed.






(** What discovery and its print leave behind: no request to a stream
    endpoint, and the outcome the card decides. *)
Lemma card1_endpoint :
  base_url (new_client "http://localhost:8003") ++ lit "/.well-known/agent.json" = card1_url.
Proof. reflexivity. Qed.

Lemma preamble_outcome (w : World) (self : A2AClient) (label : str) :
  invokes (preamble w self label) = [] /\
  snd (preamble w self label)
  = card_outcome (get_card w (base_url self ++ lit "/.well-known/agent.json")).
Proof.
  unfold preamble, discover_agent, print_discovered, card_outcome, invokes.
  destruct (get_card w _) as [card|e0];
    cbv beta iota delta [io_bind emit io_ret lift]; [|split; reflexivity].
  destruct (truthy card); [|split; reflexivity].
  destruct card; split; reflexivity.
Qed.


End PipelineProperties.

(** ** Properties of the inbound messages *)

Section InboundProperties.

Lemma blogpost_append_texts (ps : list Part) :
  forallb text_or_skipped ps = true ->
  forall query,
    Blogpost.append_parts query ps = Ok (query ++ concat (flat_map text_of ps)).
Proof.
  induction ps as [|p ps IH]; intros H query; cbn [Blogpost.append_parts flat_map].
  - rewrite app_nil_r. reflexivity.
  - cbn [forallb] in H. apply andb_true_iff in H. destruct H as [Hp Hps].
    unfold Blogpost.append_part, text_of. unfold text_or_skipped in Hp.
    destruct (is_text_root (root p)) as [r|].
    + destruct (text r) as [| |s]; try discriminate.
      cbn [bind]. rewrite (IH Hps). unfold concat. rewrite concat_app, app_assoc.
      cbn [List.concat]. rewrite app_nil_r. reflexivity.
    + destruct (content p); [discriminate|]. cbn [bind]. apply (IH Hps).
Qed.

Lemma deepsearch_append_texts (ps : list Part) :
  forallb text_or_skipped ps = true ->
  forall query,
    Deepsearch.append_parts query ps = Ok (query ++ concat (flat_map text_of ps)).
Proof.
  induction ps as [|p ps IH]; intros H query; cbn [Deepsearch.append_parts flat_map].
  - rewrite app_nil_r. reflexivity.
  - cbn [forallb] in H. apply andb_true_iff in H. destruct H as [Hp Hps].
    unfold Deepsearch.append_part, text_of. unfold text_or_skipped in Hp.
    destruct (is_text_root (root p)) as [r|].
    + destruct (text r) as [| |s]; try discriminate.
      cbn [bind]. rewrite (IH Hps). unfold concat. rewrite concat_app, app_assoc.
      cbn [List.concat]. rewrite app_nil_r. reflexivity.
    + destruct (content p); [discriminate|]. cbn [bind]. apply (IH Hps).
Qed.

Lemma last_default (l : list str) :
  forall a d d', last (a :: l) d = last (a :: l) d'.
Proof.
  induction l as [|b l IH]; intros a d d'; [reflexivity|].
  change (last (a :: b :: l) d) with (last (b :: l) d).
  change (last (a :: b :: l) d') with (last (b :: l) d').
  apply IH.
Qed.

Lemma last_cons_default (l : list str) (a d : str) : last (a :: l) d = last l a.
Proof.
  destruct l as [|b l]; [reflexivity|].
  change (last (a :: b :: l) d) with (last (b :: l) d). apply last_default.
Qed.

Lemma deepsearch_assign_texts (ps : list Part) :
  forallb text_or_skipped ps = true ->
  forall query,
    Deepsearch.assign_parts (Some query) ps
    = Ok (Some (last (flat_map text_of ps) query)).
Proof.
  induction ps as [|p ps IH]; intros H query; [reflexivity|].
  cbn [forallb] in H. apply andb_true_iff in H. destruct H as [Hp Hps].
  cbn [Deepsearch.assign_parts flat_map].
  unfold Deepsearch.assign_part, text_of. unfold text_or_skipped in Hp.
  destruct (is_text_root (root p)) as [r|].
  - destruct (text r) as [| |s]; try discriminate.
    cbn [bind]. rewrite (IH Hps). cbn [app]. rewrite last_cons_default. reflexivity.
  - destruct (content p); [discriminate|]. cbn [bind]. apply (IH Hps).
Qed.

Lemma concat_removelast (texts : list str) :
  texts <> [] -> concat texts = concat (removelast texts) ++ last texts [].
Proof.
  intros N. rewrite (app_removelast_last [] N) at 1.
  unfold concat. rewrite concat_app. cbn [List.concat]. rewrite app_nil_r. reflexivity.
Qed.

Lemma app_eq_right_nil (a l : str) : a ++ l = l <-> a = [].
Proof.
  split; [|intros ->; reflexivity].
  intros H. apply (f_equal (@length ascii)) in H. rewrite length_app in H.
  destruct a; [reflexivity | cbn in H; lia].
Qed.

(** C10, as amended: for every inbound message whose parts are text
    parts, or parts with neither a text root nor a [content] attribute,
    the research handler takes the text of the last text part (each text
    part assigns to the query), the blog handler takes the texts of all
    text parts joined in order, and [extract_query_from_message] returns
    that join trimmed of leading and trailing whitespace; the two
    handlers disagree exactly when a text part before the last has a
    text that is not empty. *)
Theorem C10_inbound_policies (message : Message) :
  forallb text_or_skipped (parts_of message) = true ->
  Deepsearch.received_query message = Some (last (texts_of message) []) /\
  Blogpost.received_content message = concat (texts_of message) /\
  Blogpost.extract_query_from_message message = strip (concat (texts_of message)) /\
  Deepsearch.extract_query_from_message message = strip (concat (texts_of message)) /\
  (Deepsearch.received_query message = Some (Blogpost.received_content message)
   <-> concat (removelast (texts_of message)) = []).
Proof.
  intros H.
  assert (Deepsearch.received_query message = Some (last (texts_of message) [])) as Hd.
  { unfold Deepsearch.received_query. change (lit "") with (@nil ascii).
    rewrite (deepsearch_assign_texts _ H). reflexivity. }
  assert (Blogpost.received_content message = concat (texts_of message)) as Hb.
  { unfold Blogpost.received_content. rewrite (blogpost_append_texts _ H). reflexivity. }
  split; [exact Hd|]. split; [exact Hb|]. split; [|split].
  - unfold Blogpost.extract_query_from_message.
    rewrite (blogpost_append_texts _ H). reflexivity.
  - unfold Deepsearch.extract_query_from_message.
    rewrite (deepsearch_append_texts _ H). reflexivity.
  - rewrite Hd, Hb. destruct (texts_of message) as [|t texts] eqn:E; [split; reflexivity|].
    rewrite (concat_removelast (t :: texts)) by discriminate.
    split.
    + intros [= F]. symmetry in F. apply app_eq_right_nil in F. exact F.
    + intros ->. reflexivity.
Qed.

End InboundProperties.

(** ** The reference decoder on the envelopes of the scenarios *)

Section ReferenceDecoder.
Import RefJson.

Lemma scan_string_plain (T rest : str) :
  forallb plain T = true -> scan_string (T ++ dquote :: rest) = Some (T, rest).
Proof.
  induction T as [|c T IH]; intros H.
  - reflexivity.
  - cbn [forallb] in H. apply andb_true_iff in H. destruct H as [Hc HT].
    unfold plain in Hc.
    apply andb_true_iff in Hc. destruct Hc as [Hc H32].
    apply andb_true_iff in Hc. destruct Hc as [Hq Hb].
    apply negb_true_iff in Hq, Hb. apply Nat.leb_le in H32.
    cbn [app scan_string]. rewrite Hq, Hb.
    replace (nat_of_ascii c <? 32)%nat with false by (symmetry; apply Nat.ltb_ge; exact H32).
    rewrite (IH HT). reflexivity.
Qed.

Lemma scan_value_string (f : nat) (T rest : str) :
  forallb plain T = true ->
  scan_value (S f) (dquote :: T ++ dquote :: rest) = Some (JStr T, rest).
Proof.
  intros H. cbn [scan_value]. change (chr_eqb dquote dquote) with true. cbv iota.
  rewrite (scan_string_plain T rest H). reflexivity.
Qed.

(** An object with one member whose value is followed by the closing
    brace, written without whitespace. *)
Lemma scan_value_single_member (f : nat) (k r r' : str) (c : ascii) (v : JSON) :
  forallb plain k = true ->
  is_ws c = false ->
  scan_value f (c :: r) = Some (v, "}"%char :: r') ->
  scan_value (S (S f)) ("{"%char :: dquote :: k ++ dquote :: ":"%char :: c :: r)
  = Some (JObj [(k, v)], r').
Proof.
  intros Hk Hc Hv. cbn [scan_value].
  change (chr_eqb "{" dquote) with false. change (chr_eqb "{" "{") with true. cbv iota.
  change (skip_ws (dquote :: k ++ dquote :: ":"%char :: c :: r))
    with (dquote :: k ++ dquote :: ":"%char :: c :: r).
  change (chr_eqb dquote "}") with false. cbv iota.
  cbn [scan_members]. change (chr_eqb dquote dquote) with true. cbv iota.
  rewrite (scan_string_plain k _ Hk).
  change (skip_ws (":"%char :: c :: r)) with (":"%char :: c :: r).
  change (chr_eqb ":" ":") with true. cbv iota.
  cbn [skip_ws]. rewrite Hc. rewrite Hv.
  reflexivity.
Qed.

(** An array with one element followed by the closing bracket. *)
Lemma scan_value_single_element (f : nat) (r r' : str) (c : ascii) (v : JSON) :
  is_ws c = false ->
  chr_eqb c "]" = false ->
  scan_value f (c :: r) = Some (v, "]"%char :: r') ->
  scan_value (S (S f)) ("["%char :: c :: r) = Some (JArr [v], r').
Proof.
  intros Hc Hb Hv. cbn [scan_value].
  change (chr_eqb "[" dquote) with false. change (chr_eqb "[" "{") with false.
  change (chr_eqb "[" "[") with true. cbv iota.
  cbn [skip_ws]. rewrite Hc, Hb. cbn [scan_elements]. rewrite Hv.
  reflexivity.
Qed.

Lemma scan_value_envelope (f : nat) (T : str) :
  forallb plain T = true ->
  scan_value (13 + f) (envelope_text T) = Some (status_envelope T, []).
Proof.
  intros H.
  change (13 + f)%nat with (S (S (S (S (S (S (S (S (S (S (S (S (S f))))))))))))).
  change (envelope_text T)
    with ("{"%char :: dquote :: lit "statusUpdate" ++ dquote :: ":"%char ::
          "{"%char :: dquote :: lit "status" ++ dquote :: ":"%char ::
          "{"%char :: dquote :: lit "message" ++ dquote :: ":"%char ::
          "{"%char :: dquote :: lit "content" ++ dquote :: ":"%char ::
          "["%char ::
          "{"%char :: dquote :: lit "text" ++ dquote :: ":"%char ::
          dquote :: T ++ dquote :: lit "}]}}}}").
  apply scan_value_single_member; [reflexivity | reflexivity |].
  apply scan_value_single_member; [reflexivity | reflexivity |].
  apply scan_value_single_member; [reflexivity | reflexivity |].
  apply scan_value_single_member; [reflexivity | reflexivity |].
  apply scan_value_single_element; [reflexivity | reflexivity |].
  apply scan_value_single_member; [reflexivity | reflexivity |].
  apply (scan_value_string f T _ H).
Qed.

Lemma loads_envelope_text (T : str) :
  forallb plain T = true -> loads (envelope_text T) = Some (status_envelope T).
Proof.
  intros H. unfold loads.
  change (skip_ws (envelope_text T)) with (envelope_text T).
  assert (exists f, (2 * length (envelope_text T) + 2 = 13 + f)%nat) as [f ->].
  { exists (2 * length (envelope_text T) + 2 - 13)%nat.
    unfold envelope_text. rewrite !length_app.
    set (a := length (q "{'statusUpdate':{'status':{'message':{'content':[{'text':'")).
    vm_compute in a. subst a. lia. }
  rewrite (scan_value_envelope f T H). reflexivity.
Qed.

End ReferenceDecoder.

(** ** The envelopes of the scenarios are well formed *)

Section ScenarioEnvelopes.

Lemma contains_app_r (p a b : str) :
  contains p b = true -> contains p (a ++ b) = true.
Proof.
  rewrite !contains_spec. intros [x [y ->]]. exists (a ++ x), y.
  rewrite <- app_assoc. reflexivity.
Qed.

(** An occurrence of a pattern does not span a character the pattern
    does not hold. *)
Lemma contains_sep (p a b : str) (c : ascii) :
  ~ In c p ->
  contains p (a ++ c :: b) = contains p a || contains p b.
Proof.
  intros Hc. destruct (contains p a || contains p b) eqn:E.
  - apply orb_true_iff in E. destruct E as [E|E].
    + apply contains_app_l. exact E.
    + apply contains_app_r. apply (contains_app_r p [c]). exact E.
  - apply orb_false_iff in E. destruct E as [Ea Eb].
    destruct (contains p (a ++ c :: b)) eqn:F; [|reflexivity]. exfalso.
    apply contains_spec in F. destruct F as [x [y F]].
    apply app_eq_app in F. destruct F as [l [[F1 F2]|[F1 F2]]].
    + (* the occurrence starts before the separator *)
      apply app_eq_app in F2. destruct F2 as [l' [[G1 G2]|[G1 G2]]].
      * destruct l' as [|c' l'].
        -- rewrite app_nil_r in G1. subst l.
           assert (contains p a = true) as Ea'.
           { apply contains_spec. exists x, []. rewrite app_nil_r. exact F1. }
           congruence.
        -- injection G2 as -> _. apply Hc. rewrite G1. apply in_or_app. right. left.
           reflexivity.
      * assert (contains p a = true) as Ea'.
        { apply contains_spec. exists x, l'. rewrite F1, G1. reflexivity. }
        congruence.
    + (* the occurrence starts on the separator, or after it *)
      destruct l as [|c' l].
      * cbn [app] in F2. destruct p as [|c' p].
        -- destruct a; discriminate Ea.
        -- injection F2 as -> _. apply Hc. left. reflexivity.
      * injection F2 as _ F2.
        assert (contains p b = true) as Eb'.
        { apply contains_spec. exists l, y. exact F2. }
        congruence.
Qed.

Lemma envelope_text_free (p : str) (T : str) :
  ~ In dquote p ->
  contains p (q "{'statusUpdate':{'status':{'message':{'content':[{'text':") = false ->
  contains p (lit "}]}}}}") = false ->
  contains p T = false ->
  contains p (envelope_text T) = false.
Proof.
  intros Hq Hpre Hsuf HT.
  change (envelope_text T)
    with (q "{'statusUpdate':{'status':{'message':{'content':[{'text':"
          ++ dquote :: (T ++ dquote :: lit "}]}}}}")).
  rewrite (contains_sep p _ _ dquote Hq), (contains_sep p _ _ dquote Hq).
  rewrite Hpre, HT, Hsuf. reflexivity.
Qed.

Lemma wire_envelope_text (T : str) :
  plain_text T = true ->
  wire_envelope (L := RefJson.reference) (envelope_text T) T.
Proof.
  unfold plain_text. intros H.
  apply andb_true_iff in H. destruct H as [H Hd].
  apply andb_true_iff in H. destruct H as [Hp Hb].
  apply negb_true_iff in Hd, Hb.
  split; [|split].
  - exact (loads_envelope_text T Hp).
  - unfold envelope_text. apply contains_app_l. reflexivity.
  - unfold splittable.
    assert (endswith "}" (envelope_text T) = true) as ->.
    { unfold endswith, envelope_text.
      change (q "'}]}}}}") with (q "'}]}}}" ++ ["}"%char]).
      rewrite !app_assoc, rev_unit. reflexivity. }
    change (lit "}{") with boundary. change (lit "|||") with delimiter.
    rewrite (envelope_text_free boundary T), (envelope_text_free delimiter T);
      try reflexivity; try assumption.
    + vm_compute. intuition discriminate.
    + vm_compute. intuition discriminate.
Qed.

(** With the reference decoder, the envelopes of any plain texts come
    back as the texts joined and trimmed. *)
Lemma scenario_envelopes_round_trip (Ts : list str) :
  Forall (fun T => plain_text T = true) Ts ->
  Blogpost.parse_streaming_json (L := RefJson.reference) (concat (map envelope_text Ts))
  = strip (concat Ts).
Proof.
  intros H.
  pose proof (parse_streaming_json_envelopes (L := RefJson.reference)
                (map (fun T => (envelope_text T, T)) Ts)) as P.
  rewrite !map_map in P. cbn [fst snd] in P. rewrite map_id in P.
  apply P. clear P. apply Forall_map. cbn [fst snd].
  induction H as [|T Ts HT _ IH]; constructor; [exact (wire_envelope_text T HT) | exact IH].
Qed.

End ScenarioEnvelopes.

(** ** The properties on concrete inputs *)

Section Examples.
Existing Instance RefJson.reference.

(** The end-to-end scenarios of the specification on the client. *)
Example scenario_hello_world :
  invoke_response
    (answer [lit "data: " ++ envelope_text "Hello ";
             lit "data: " ++ envelope_text "world";
             lit "data: [DONE]"] None)
  = Ok (lit "Hello world").
Proof. vm_compute. reflexivity. Qed.

Example scenario_plain_text :
  invoke_response (answer [lit "data: just some text"] None) = Ok (lit "just some text").
Proof. vm_compute. reflexivity. Qed.

Example scenario_error_status :
  invoke_response {| status_code := 503; body := "busy"; lines := []; read_error := None |}
  = Raise (Exception "Agent error: HTTP 503: busy").
Proof. vm_compute. reflexivity. Qed.

Lemma C1_unparsable_payload_witness :
  is_payload "just some text" = true /\
  json_loads "just some text" = None /\
  on_payload 1 "just some text" = Ok [lit "just some text"].
Proof.
  split; [reflexivity|]. split; [reflexivity|].
  exact (proj1 (C1_unparsable_payload 1 "just some text" eq_refl eq_refl)).
Defined.

(** The value under [statusUpdate] need not be an object: the payload
    [{"statusUpdate": null}] parses to an object with that key, and the
    extraction raises an [AttributeError] that [invoke_agent] does not
    catch. *)
Lemma C2_null_status_update_raises :
  json_loads (q "{'statusUpdate': null}") = Some (JObj [(lit "statusUpdate", JNull)]) /\
  on_payload 1 (q "{'statusUpdate': null}")
  = Raise (AttributeError "'NoneType' object has no attribute 'keys'") /\
  invoke_response (answer [lit "data: " ++ q "{'statusUpdate': null}"] None)
  = Raise (AttributeError "'NoneType' object has no attribute 'keys'").
Proof. vm_compute. repeat split. Qed.

Lemma C2_status_envelope_extraction_witness :
  on_payload 1 (q "{'statusUpdate':{'status':{'message':{'content':[{'text':'a'},{'text':'b'}]}}}}")
  = Ok [lit "a"; lit "b"].
Proof.
  refine (proj1 (proj2 (C2_status_envelope_extraction 1
    (q "{'statusUpdate':{'status':{'message':{'content':[{'text':'a'},{'text':'b'}]}}}}")
    _ _ [text_object "a"; text_object "b"] _ _ _ _) eq_refl)).
  - vm_compute. reflexivity.
  - vm_compute. reflexivity.
  - vm_compute. reflexivity.
  - vm_compute. reflexivity.
Defined.

(** A text that begins with a space comes back without it. *)
Lemma C3_leading_space_lost :
  wire_envelope (envelope_text " x") " x" /\
  Blogpost.parse_streaming_json (concat [envelope_text " x"]) = lit "x" /\
  Blogpost.parse_streaming_json (concat [envelope_text " x"]) <> concat [lit " x"].
Proof.
  split; [|split].
  - repeat split; vm_compute; reflexivity.
  - vm_compute. reflexivity.
  - vm_compute. discriminate.
Qed.

Lemma C3_concatenated_envelopes_witness :
  Forall (fun e => wire_envelope (fst e) (snd e))
    [(envelope_text "foo", lit "foo"); (envelope_text "bar", lit "bar")] /\
  Blogpost.parse_streaming_json (envelope_text "foo" ++ envelope_text "bar")
  = lit "foobar".
Proof.
  assert (Forall (fun e => wire_envelope (fst e) (snd e))
            [(envelope_text "foo", lit "foo"); (envelope_text "bar", lit "bar")]) as H.
  { repeat constructor; vm_compute; reflexivity. }
  split; [exact H|].
  exact (C3_concatenated_envelopes _ H).
Defined.


(** C5 at an envelope with a blank text between two others: the
    streaming client drops the blank text, [parse_streaming_json] keeps
    it. *)
Lemma C5_parser_keeps_blank_text :
  let payload :=
    q "{'statusUpdate':{'status':{'message':{'content':[{'text':'a'},{'text':' '},{'text':'b'}]}}}}" in
  invoke_response (answer [lit "data: " ++ payload] None) = Ok (lit "ab") /\
  Blogpost.parsed_chunks payload = [lit "a"; lit " "; lit "b"] /\
  Blogpost.parse_streaming_json payload = lit "a b".
Proof. vm_compute. repeat split. Qed.

Lemma C6_finalize_witness :
  read_lines ([], O) (lines (answer [lit "data:   x  "] None)) = (([lit "  x  "], 1), None) /\
  invoke_response (answer [lit "data:   x  "] None) = Ok (lit "x") /\
  invoke_response (answer [] None) = Raise (Exception "No content received from agent").
Proof.
  split; [reflexivity|]. split.
  - exact (proj2 (proj2 (C6_finalize (answer [lit "data:   x  "] None) [lit "  x  "] 1
                           eq_refl eq_refl eq_refl)) eq_refl).
  - exact (proj1 (C6_finalize (answer [] None) [] 0 eq_refl eq_refl eq_refl)).
Defined.

Lemma C7_read_error_recovery_witness :
  invoke_response (answer [lit "data: " ++ envelope_text "partial "] (Some (lit "peer closed")))
  = Ok (lit "partial") /\
  invoke_response (answer [] (Some (lit "peer closed")))
  = Raise (Exception "Stream error: peer closed").
Proof.
  split.
  - exact (C7_read_error_recovery
             (answer [lit "data: " ++ envelope_text "partial "] (Some (lit "peer closed")))
             [lit "partial "] 1 (lit "peer closed") eq_refl eq_refl eq_refl).
  - exact (C7_read_error_recovery (answer [] (Some (lit "peer closed")))
             [] 0 (lit "peer closed") eq_refl eq_refl eq_refl).
Defined.

(** The run in which stage 1 ends without content: the failure of
    stage 1 is the last thing printed. *)
Example scenario_stage1_empty :
  Workflow.sequential_workflow_a2a silent_world =
  ([Workflow.Print "Starting A2A Sequential Workflow";
    Workflow.Print (Workflow.times "=" 80);
    Workflow.Input "Enter a topic for research and blog generation: ";
    Workflow.Print "No topic entered. Using default: The future of sustainable energy technologies";
    Workflow.Print (Workflow.nl ++ lit "Step 1: Discovering and researching topic: 'The future of sustainable energy technologies'");
    Workflow.Print (Workflow.times "-" 60);
    Workflow.Get "http://localhost:8003/.well-known/agent.json";
    Workflow.Print "Failed to discover agent at http://localhost:8003: connection refused";
    Workflow.PostStream "http://localhost:8003/v1/message:stream"
      "The future of sustainable energy technologies";
    Workflow.Print "Research failed: No content received from agent"],
   Ok tt).
Proof. vm_compute. reflexivity. Qed.


Lemma C9_no_marker_unchanged_witness :
  contains "statusUpdate" "Solar power is growing." = false /\
  Blogpost.parse_streaming_json "Solar power is growing." = lit "Solar power is growing.".
Proof.
  split; [reflexivity|].
  exact (C9_no_marker_unchanged "Solar power is growing." eq_refl).
Defined.

Lemma C10_inbound_policies_witness :
  forallb text_or_skipped (parts_of (text_message [lit "first "; lit "second"] [])) = true /\
  Deepsearch.received_query (text_message [lit "first "; lit "second"] [])
  = Some (lit "second") /\
  Blogpost.received_content (text_message [lit "first "; lit "second"] [])
  = lit "first second".
Proof.
  split; [reflexivity|].
  pose proof (C10_inbound_policies (text_message [lit "first "; lit "second"] []) eq_refl)
    as [H1 [H2 _]].
  split; [exact H1 | exact H2].
Defined.

(** The helper trims: two text parts [" a"] and ["b"] give ["ab"], not
    their join [" ab"]. *)
Lemma C10_helper_trims :
  Blogpost.extract_query_from_message (text_message [lit " a"; lit "b"] [])
  = lit "ab" /\
  Blogpost.extract_query_from_message (text_message [lit " a"; lit "b"] [])
  <> concat [lit " a"; lit "b"].
Proof. vm_compute. split; [reflexivity | discriminate]. Qed.

End Examples.

(** * Further properties *)

(** ** More on trimming *)

Section TrimFacts.

Lemma lstrip_head (s : str) :
  lstrip s = [] \/ exists c r, lstrip s = c :: r /\ isspace c = false.
Proof.
  induction s as [|c s IH]; [left; reflexivity|].
  cbn [lstrip]. destruct (isspace c) eqn:E; [exact IH|].
  right. exists c, s. split; [reflexivity | exact E].
Qed.

Lemma lstrip_solid (c : ascii) (r : str) :
  isspace c = false -> lstrip (c :: r) = c :: r.
Proof. intros H. cbn [lstrip]. rewrite H. reflexivity. Qed.

Lemma lstrip_snoc (a : str) (c : ascii) :
  isspace c = false -> lstrip (a ++ [c]) = lstrip a ++ [c].
Proof.
  intros H. induction a as [|x a IH]; cbn [app lstrip].
  - rewrite H. reflexivity.
  - destruct (isspace x); [exact IH | reflexivity].
Qed.

Lemma rstrip_cons (c : ascii) (r : str) :
  isspace c = false -> rstrip (c :: r) = c :: rstrip r.
Proof.
  intros H. unfold rstrip. cbn [rev]. rewrite (lstrip_snoc _ _ H), rev_app_distr.
  reflexivity.
Qed.

(** What [strip] returns is trimmed already. *)
Lemma strip_strip (s : str) : strip (strip s) = strip s.
Proof.
  unfold strip. destruct (lstrip_head s) as [E | [c [r [E H]]]]; rewrite E.
  - reflexivity.
  - rewrite (rstrip_cons _ _ H), (lstrip_solid _ _ H), (rstrip_cons _ _ H).
    f_equal. unfold rstrip. rewrite rev_involutive.
    destruct (lstrip_head (rev r)) as [F | [c' [r' [F H']]]]; rewrite F.
    + reflexivity.
    + rewrite (lstrip_solid _ _ H'). reflexivity.
Qed.

Lemma strip_length (s : str) : (length (strip s) <= length s)%nat.
Proof.
  assert (forall x, (length (lstrip x) <= length x)%nat) as L.
  { induction x as [|c x IH]; cbn [lstrip]; [lia|].
    destruct (isspace c); cbn [length]; lia. }
  unfold strip, rstrip. rewrite length_rev.
  pose proof (L (rev (lstrip s))) as H1. rewrite length_rev in H1.
  pose proof (L s). lia.
Qed.

End TrimFacts.

(** ** The reader and the outcomes of [invoke_agent] *)

Section ClientOutcomes.
Context {L : PyLib}.

Lemma on_line_ignored (st : loop_state) (line : str) :
  carries_payload line = false -> on_line st line = (st, None).
Proof.
  unfold carries_payload, on_line. destruct st as [chunks ec].
  destruct (startswith _ line); [|reflexivity].
  cbn [andb]. intros ->. reflexivity.
Qed.

Lemma read_lines_filter (ls : list str) :
  forall st, read_lines st ls = read_lines st (filter carries_payload ls).
Proof.
  induction ls as [|line ls IH]; intros st; [reflexivity|].
  cbn [filter]. destruct (carries_payload line) eqn:E.
  - cbn [read_lines]. destruct (on_line st line) as [st' [e|]]; [reflexivity | apply IH].
  - cbn [read_lines]. rewrite (on_line_ignored st line E). apply IH.
Qed.

(** Lines without the prefix [data: ], blank payloads and [[DONE]] are
    transparent: taking them out of the stream, wherever they stand,
    changes nothing of what [invoke_agent] returns or raises. *)
Theorem ignored_lines_transparent (resp : response) :
  invoke_response resp = invoke_response (without_ignored_lines resp).
Proof.
  unfold invoke_response, stream_body, without_ignored_lines.
  cbn [status_code body lines read_error].
  rewrite <- read_lines_filter. reflexivity.
Qed.

(** The extraction raises only for a value of the wrong type. *)
Lemma extract_raises (ec : nat) (data : JSON) (e : exn) :
  extract ec data = Raise e -> is_shape_error e = true.
Proof.
  unfold extract, debug_keys, debug_content, get_default, keys, len, iter, index0,
    no_attribute, truthy, nonempty, bind.
  repeat match goal with
         | |- context [match ?x with _ => _ end] =>
             lazymatch x with
             | context [match _ with _ => _ end] => fail
             | _ => destruct x; cbn [andb length Nat.ltb Nat.leb]
             end
         end;
    (discriminate || (intros [= <-]; reflexivity)).
Qed.

Lemma on_payload_raises (ec : nat) (p : str) (e : exn) :
  on_payload ec p = Raise e -> is_shape_error e = true.
Proof.
  unfold on_payload. destruct (json_loads p) as [data|].
  - apply extract_raises.
  - destruct (_ && _); discriminate.
Qed.

Lemma read_lines_raises (ls : list str) :
  forall st st' e, read_lines st ls = (st', Some e) -> is_shape_error e = true.
Proof.
  induction ls as [|line ls IH]; intros st st' e; cbn [read_lines]; [discriminate|].
  destruct (on_line st line) as [st1 [e1|]] eqn:E.
  - intros [= <- <-]. unfold on_line in E. destruct st as [chunks ec].
    destruct (startswith _ line); [|discriminate].
    destruct (is_payload _); [|discriminate].
    destruct (on_payload _ _) eqn:P; [discriminate|].
    injection E as _ <-. exact (on_payload_raises _ _ _ P).
  - apply IH.
Qed.

(** How [invoke_response] ends, read off an answer whose body decodes
    and whose payloads [json.loads] parses or refuses. *)
Lemma invoke_response_cases (resp : response) :
  ((400 <= status_code resp)%Z /\
   invoke_response resp =
   Raise (Exception (lit "Agent error: HTTP " ++ str_of_Z (status_code resp)
                     ++ lit ": " ++ firstn 500 (body resp))))
  \/ (exists e, is_shape_error e = true /\ invoke_response resp = Raise e)
  \/ (exists chunks, chunks <> [] /\ blank (concat chunks) = false /\
                     invoke_response resp = Ok (strip (concat chunks)))
  \/ (read_error resp = None /\
      invoke_response resp = Raise (Exception "No content received from agent"))
  \/ (exists msg, read_error resp = Some msg /\
                  invoke_response resp = Raise (Exception (lit "Stream error: " ++ msg))).
Proof.
  unfold invoke_response, stream_body.
  destruct (400 <=? status_code resp)%Z eqn:S.
  - left. split; [apply Z.leb_le; exact S | reflexivity].
  - right. destruct (read_lines ([], O) (lines resp)) as [[chunks n] [e|]] eqn:R.
    + left. exists e. pose proof (read_lines_raises _ _ _ _ R) as H.
      split; [exact H|]. destruct e; try discriminate H; reflexivity.
    + right.
      pose proof (finalize_nonempty resp chunks n None R) as F.
      pose proof (read_lines_not_blank (lines resp) ([], O) _ _ eq_refl R) as I.
      cbn [fst] in I.
      destruct (read_error resp) as [msg|].
      * destruct chunks as [|c chunks].
        -- right. right. exists msg. split; reflexivity.
        -- left. exists (c :: chunks). split; [discriminate|].
           split; [apply (joined_not_blank _ I); discriminate | reflexivity].
      * rewrite F. destruct chunks as [|c chunks].
        -- right. left. split; reflexivity.
        -- left. exists (c :: chunks). split; [discriminate|].
           split; [apply (joined_not_blank _ I); discriminate | reflexivity].
Qed.

Lemma invoke_response_nonempty (resp : response) (s : str) :
  invoke_response resp = Ok s -> s <> [].
Proof.
  intros H.
  destruct (invoke_response_cases resp)
    as [[_ E] | [[e [_ E]] | [[chunks [_ [B E]]] | [[_ E] | [msg [_ E]]]]]];
    rewrite E in H; try discriminate H.
  injection H as <-. intros Z. apply strip_nil in Z. congruence.
Qed.

(** Whatever the answer, a text [invoke_agent] returns is not empty and
    has no whitespace at either end. *)
Theorem invoke_result_trimmed (resp : response) (s : str) :
  invoke_response resp = Ok s -> s <> [] /\ blank s = false /\ strip s = s.
Proof.
  intros H.
  destruct (invoke_response_cases resp)
    as [[_ E] | [[e [_ E]] | [[chunks [_ [B E]]] | [[_ E] | [msg [_ E]]]]]];
    rewrite E in H; try discriminate H.
  injection H as <-.
  assert (strip (concat chunks) <> []) as N.
  { intros Z. apply strip_nil in Z. congruence. }
  split; [exact N|]. split; [|apply strip_strip].
  destruct (blank (strip (concat chunks))) eqn:B'; [|reflexivity].
  apply strip_nil in B'. rewrite strip_strip in B'. contradiction.
Qed.

(** With every outcome of the calls it makes, the narrow reading of
    [invoke_agent] is the wide one on the answers it covers. *)
Lemma read_lines_widen (loads_raises : str -> option Invoke.raised) (ls : list str) :
  (forall p, loads_raises p = None) ->
  forall st,
    Invoke.read_lines loads_raises st ls
    = (fst (read_lines st ls),
       match snd (read_lines st ls) with
       | Some e => Some (Invoke.Known e)
       | None => None
       end).
Proof.
  intros N. induction ls as [|line ls IH]; intros st; [reflexivity|].
  cbn [Invoke.read_lines read_lines].
  unfold Invoke.on_line, on_line, Invoke.on_payload. destruct st as [chunks ec].
  destruct (startswith _ line); [|apply IH].
  destruct (is_payload _); [|apply IH].
  rewrite N. destruct (on_payload _ _) as [new|e]; cbn [Invoke.of_result]; [apply IH | reflexivity].
Qed.

Lemma invoke_agent_widen (loads_raises : str -> option Invoke.raised) (resp : response) :
  (forall p, loads_raises p = None) ->
  Invoke.invoke_agent loads_raises (widen resp) = Invoke.of_result (invoke_response resp).
Proof.
  intros N. unfold Invoke.invoke_agent, Invoke.stream_body, invoke_response, stream_body, widen.
  cbn [Invoke.status_code Invoke.body Invoke.lines Invoke.stream_end].
  destruct (400 <=? status_code resp)%Z; [reflexivity|].
  rewrite (read_lines_widen loads_raises _ N).
  destruct (read_lines _ _) as [[chunks n] [e|]]; cbn [fst snd].
  - destruct e; try reflexivity. destruct (nonempty chunks); reflexivity.
  - destruct (read_error resp) as [msg|].
    + destruct (nonempty chunks); reflexivity.
    + destruct (nonempty (strip (concat chunks))); reflexivity.
Qed.

Lemma wide_read_lines_fails (loads_raises : str -> option Invoke.raised) (ls : list str) :
  forall st st' r,
    Invoke.read_lines loads_raises st ls = (st', Some r) ->
    (exists e, is_shape_error e = true /\ r = Invoke.Known e) \/
    (exists p, In (data_line p) ls /\ is_payload p = true /\ loads_raises p = Some r).
Proof.
  induction ls as [|line ls IH]; intros st st' r; cbn [Invoke.read_lines]; [discriminate|].
  destruct (Invoke.on_line loads_raises st line) as [st1 [r1|]] eqn:E.
  - intros [= <- <-]. unfold Invoke.on_line in E. destruct st as [chunks ec].
    destruct (startswith _ line) eqn:S; [|discriminate].
    destruct (is_payload _) eqn:P; [|discriminate].
    unfold Invoke.on_payload in E.
    destruct (loads_raises (skipn 6 line)) as [r'|] eqn:R.
    + injection E as _ <-. right. exists (skipn 6 line).
      split; [|split; [exact P | exact R]].
      left. apply startswith_spec in S. destruct S as [rest ->]. reflexivity.
    + destruct (on_payload _ _) as [new|e] eqn:O; cbn [Invoke.of_result] in E; [discriminate|].
      injection E as _ <-. left. exists e. split; [|reflexivity].
      exact (on_payload_raises _ _ _ O).
  - intros H. destruct (IH _ _ _ H) as [K|[p [I K]]]; [left; exact K|].
    right. exists p. split; [right; exact I | exact K].
Qed.

Lemma relayed_out (chunks : list str) (r' r : Invoke.raised) :
  match r' with
  | Invoke.Known (ReadError msg) =>
      if nonempty chunks then Invoke.Returns (strip (concat chunks))
      else Invoke.Fails (Invoke.Known (Exception (lit "Stream error: " ++ msg)))
  | _ => Invoke.Fails r'
  end = Invoke.Fails r ->
  relayed r' r /\ forall msg, r <> Invoke.Known (ReadError msg).
Proof.
  unfold relayed. destruct r' as [[]|]; try (intros [= <-]; split; [reflexivity | discriminate]).
  destruct (nonempty chunks); [discriminate|].
  intros [= <-]. split; [reflexivity | discriminate].
Qed.

(** Once the status of the answer has arrived, and with its prints
    taken to succeed, [invoke_agent] fails in six ways only.  On an
    error status: with "Agent error: HTTP", the status and at most 500
    characters of the body, or with what reading or decoding the body
    raised.  Otherwise: with the exception of an envelope holding a
    value of the wrong type; with what [json.loads] raised on a payload
    of the stream when that is no [JSONDecodeError]; with "No content
    received from agent" when the lines ended without an exception; or
    with what the iteration over the lines raised.  Each exception
    raised inside leaves as it is, but for the [httpx.ReadError], which
    never leaves: it is replaced by "Stream error: " and its text. *)
Theorem invoke_failure_kinds
    (loads_raises : str -> option Invoke.raised) (x : Invoke.exchange) (r : Invoke.raised) :
  Invoke.invoke_agent loads_raises x = Invoke.Fails r ->
  (forall msg, r <> Invoke.Known (ReadError msg)) /\
  (((400 <= Invoke.status_code x)%Z /\
    exists text, Invoke.body x = Invoke.Returns text /\
      r = Invoke.Known (Exception (lit "Agent error: HTTP "
                                   ++ str_of_Z (Invoke.status_code x)
                                   ++ lit ": " ++ firstn 500 text)))
   \/ ((400 <= Invoke.status_code x)%Z /\
       exists r', Invoke.body x = Invoke.Fails r' /\ relayed r' r)
   \/ ((Invoke.status_code x < 400)%Z /\
       exists e, is_shape_error e = true /\ r = Invoke.Known e)
   \/ ((Invoke.status_code x < 400)%Z /\
       exists p r', In (data_line p) (Invoke.lines x) /\ is_payload p = true /\
                    loads_raises p = Some r' /\ relayed r' r)
   \/ ((Invoke.status_code x < 400)%Z /\ Invoke.stream_end x = None /\
       r = Invoke.Known (Exception "No content received from agent"))
   \/ ((Invoke.status_code x < 400)%Z /\
       exists r', Invoke.stream_end x = Some r' /\ relayed r' r)).
Proof.
  unfold Invoke.invoke_agent, Invoke.stream_body.
  destruct (400 <=? Invoke.status_code x)%Z eqn:S.
  - apply Z.leb_le in S. destruct (Invoke.body x) as [text|r'] eqn:B.
    + intros [= <-]. split; [discriminate|]. left. split; [exact S|].
      exists text. split; reflexivity.
    + intros H. destruct (relayed_out [] r' r H) as [R N].
      split; [exact N|]. right. left. split; [exact S|]. exists r'. split; [reflexivity | exact R].
  - apply Z.leb_gt in S.
    destruct (Invoke.read_lines loads_raises ([], O) (Invoke.lines x))
      as [[chunks n] [r'|]] eqn:E.
    + intros H. destruct (relayed_out chunks r' r H) as [R N]. split; [exact N|].
      destruct (wide_read_lines_fails loads_raises _ _ _ _ E) as [[e [Se ->]]|[p [I [P K]]]].
      * right. right. left. split; [exact S|]. exists e. split; [exact Se|].
        unfold relayed in R. destruct e; try exact R. discriminate Se.
      * right. right. right. left. split; [exact S|]. exists p, r'. repeat split; assumption.
    + destruct (Invoke.stream_end x) as [r'|] eqn:Z.
      * intros H. destruct (relayed_out chunks r' r H) as [R N]. split; [exact N|].
        do 5 right. split; [exact S|]. exists r'. split; [reflexivity | exact R].
      * cbv zeta. destruct (nonempty (strip (concat chunks))); [discriminate|].
        intros [= <-]. split; [discriminate|].
        do 4 right. left. split; [exact S|]. split; reflexivity.
Qed.

End ClientOutcomes.

(** ** Envelope shapes and the diagnostics of the first three events *)

Section EnvelopeShapes.
Context {L : PyLib}.

Lemma text_chunks_of_strings (ss : list str) :
  text_chunks (map JStr ss) = [].
Proof. induction ss as [|s ss IH]; [reflexivity | exact IH]. Qed.

Lemma debug_keys_plain (ec : nat) (d : dict) :
  lookup "statusUpdate" d = None -> debug_keys ec (JObj d) = Ok tt.
Proof.
  intros H. unfold debug_keys. destruct (ec <=? 3)%nat; [|reflexivity].
  rewrite H. reflexivity.
Qed.

(** A payload that parses to an object without [statusUpdate] but with
    a top-level [content] list gives the texts of that list, as a
    StatusEnvelope would; a [content] that is an object or a string gives
    nothing, and no error, whatever the place of the event. *)
Theorem direct_envelope_extraction (ec : nat) (p : str) (d : dict) (c : JSON) :
  json_loads p = Some (JObj d) ->
  lookup "statusUpdate" d = None ->
  lookup "content" d = Some c ->
  (forall cl, c = JArr cl -> on_payload ec p = Ok (kept_texts cl)) /\
  (forall cd, c = JObj cd -> on_payload ec p = Ok []) /\
  (forall cs, c = JStr cs -> on_payload ec p = Ok []).
Proof.
  intros Hp Hs Hc.
  assert (on_payload ec p = bind (iter c) (fun parts => Ok (text_chunks parts))) as H.
  { unfold on_payload, extract. rewrite Hp, (debug_keys_plain ec d Hs). cbn [bind].
    rewrite Hs, Hc. reflexivity. }
  rewrite H. split; [|split].
  - intros cl ->. cbn [iter bind]. rewrite text_chunks_kept. reflexivity.
  - intros cd ->. cbn [iter bind].
    rewrite <- (map_map fst JStr), text_chunks_of_strings. reflexivity.
  - intros cs ->. cbn [iter bind].
    rewrite <- (map_map (fun c => [c]) JStr), text_chunks_of_strings. reflexivity.
Qed.

(** When an object has both keys, [statusUpdate] decides: whatever
    stands under the top-level [content], and under any other key, is
    not looked at. *)
Theorem status_update_shadows_content (ec : nat) (d : dict) (su : JSON) :
  lookup "statusUpdate" d = Some su ->
  extract ec (JObj d) = extract ec (JObj [(lit "statusUpdate", su)]).
Proof.
  intros H. unfold extract, debug_keys.
  change (lookup "statusUpdate" [(lit "statusUpdate", su)]) with (Some su).
  rewrite H. reflexivity.
Qed.

(** A payload that parses as JSON but is no object with one of the two
    keys adds nothing: a line of plain text that happens to be valid
    JSON, a number say, is dropped where other plain text is kept. *)
Theorem json_without_envelope_dropped (ec : nat) (p : str) (v : JSON) :
  json_loads p = Some v ->
  is_dict_with "statusUpdate" v = false ->
  is_dict_with "content" v = false ->
  on_payload ec p = Ok [].
Proof.
  intros Hp Hs Hc. unfold on_payload, extract, debug_keys. rewrite Hp.
  destruct v as [| | | | | |d]; try (destruct (ec <=? 3)%nat; reflexivity).
  unfold is_dict_with in Hs, Hc.
  destruct (lookup "statusUpdate" d); [discriminate|].
  destruct (lookup "content" d); [discriminate|].
  destruct (ec <=? 3)%nat; reflexivity.
Qed.

Lemma debug_keys_late (ec : nat) (data : JSON) :
  (3 < ec)%nat -> debug_keys ec data = Ok tt.
Proof.
  intros H. unfold debug_keys.
  replace (ec <=? 3)%nat with false by (symmetry; apply Nat.leb_gt; exact H).
  reflexivity.
Qed.

Lemma debug_content_late (ec : nat) (c : JSON) :
  (3 < ec)%nat -> debug_content ec c = Ok tt.
Proof.
  intros H. unfold debug_content.
  replace (ec <=? 3)%nat with false by (symmetry; apply Nat.leb_gt; exact H).
  reflexivity.
Qed.

(** The diagnostic prints of the first three events never change what
    is extracted, they can only fail: an event that gives fragments
    gives the same fragments as any later event. *)
Theorem diagnostics_only_add_failures (ec ec' : nat) (data : JSON) (l : list str) :
  extract ec data = Ok l -> (3 < ec')%nat -> extract ec' data = Ok l.
Proof.
  intros H H'. unfold extract in *. rewrite (debug_keys_late ec' data H').
  destruct (debug_keys ec data) as [[]|]; [|discriminate H]. cbn [bind] in *.
  destruct data as [| | | | | |d]; try exact H.
  destruct (lookup "statusUpdate" d) as [su|]; [|exact H].
  destruct (get_default su _ _) as [st|]; [|discriminate H]. cbn [bind] in *.
  destruct (get_default st _ _) as [m|]; [|discriminate H]. cbn [bind] in *.
  destruct (get_default m _ _) as [c|]; [|discriminate H]. cbn [bind] in *.
  rewrite (debug_content_late ec' c H').
  destruct (debug_content ec c) as [[]|]; [|discriminate H]. exact H.
Qed.

(** An envelope whose [content] is an object that is not empty, where a
    list is expected: as one of the first three events it raises
    [KeyError: 0] from the diagnostic print; as a later event it adds
    nothing and raises nothing. *)
Theorem object_content_by_position
    (ec : nat) (p : str) (d : dict) (su : JSON) (kv : str * JSON) (rest : dict) :
  json_loads p = Some (JObj d) ->
  lookup "statusUpdate" d = Some su ->
  objects_all_the_way su = true ->
  envelope_content su = JObj (kv :: rest) ->
  on_payload ec p = if (ec <=? 3)%nat then Raise (KeyError "0") else Ok [].
Proof.
  intros Hp Hsu Hobj Hc. unfold objects_all_the_way in Hobj.
  apply andb_true_iff in Hobj. destruct Hobj as [Hobj Hm].
  apply andb_true_iff in Hobj. destruct Hobj as [Ho Hs].
  unfold on_payload, extract. rewrite Hp.
  assert (debug_keys ec (JObj d) = Ok tt) as ->.
  { unfold debug_keys. destruct (ec <=? 3)%nat; [|reflexivity].
    rewrite Hsu. destruct su as [| | | | | |sd]; try discriminate.
    cbn [keys bind]. unfold envelope_status, field_or in Hs.
    destruct (lookup _ sd) as [st|]; [|reflexivity].
    destruct st; try discriminate. reflexivity. }
  cbn [bind]. rewrite Hsu.
  rewrite (get_default_field _ _ _ Ho). cbn [bind].
  fold (envelope_status su). rewrite (get_default_field _ _ _ Hs). cbn [bind].
  fold (envelope_message su). rewrite (get_default_field _ _ _ Hm). cbn [bind].
  fold (envelope_content su). rewrite Hc.
  unfold debug_content. destruct (ec <=? 3)%nat.
  - reflexivity.
  - cbn [bind iter]. rewrite <- (map_map fst JStr), text_chunks_of_strings. reflexivity.
Qed.

End EnvelopeShapes.

(** ** A stream of status events *)

Section ClientRoundTrip.
Context {L : PyLib}.

Lemma on_payload_status_event (ec : nat) (payload T : str) :
  json_loads payload = Some (status_envelope T) ->
  on_payload ec payload = Ok (solid_texts [T]).
Proof.
  intros H. unfold on_payload. rewrite H. unfold status_envelope.
  pose (su := JObj [(lit "status",
                      JObj [(lit "message",
                             JObj [(lit "content", JArr [text_object T])])])]).
  rewrite (extract_status_envelope ec [(lit "statusUpdate", su)] su
             [text_object T] eq_refl eq_refl eq_refl).
  rewrite text_chunks_kept. unfold kept_texts, solid_texts.
  change (flat_map text_of_part [text_object T]) with [JStr T].
  cbn [map]. rewrite py_str_JStr. reflexivity.
Qed.

Lemma read_lines_status_events (events : list (str * str)) :
  Forall (fun e => status_event (fst e) (snd e)) events ->
  forall chunks n,
    read_lines (chunks, n) (map (fun e => data_line (fst e)) events)
    = ((chunks ++ solid_texts (map snd events), (n + length events)%nat), None).
Proof.
  induction 1 as [|[payload T] events [Hp Hj] _ IH]; intros chunks n.
  - cbn [map read_lines solid_texts filter length]. rewrite app_nil_r, Nat.add_0_r.
    reflexivity.
  - cbn [map read_lines fst snd] in *. unfold on_line.
    change (startswith "data: " (data_line payload)) with true.
    change (skipn 6 (data_line payload)) with payload. cbv iota.
    rewrite Hp, (on_payload_status_event (S n) payload T Hj), IH.
    change (T :: map snd events) with ([T] ++ map snd events).
    unfold solid_texts. rewrite filter_app, app_assoc. cbn [length].
    rewrite Nat.add_succ_r. reflexivity.
Qed.

(** A stream of status events carrying the texts T_1 .. T_N, whether it
    ends or breaks off after them: [invoke_agent] returns the texts that
    are not blank, joined in order and trimmed; the blank ones are lost,
    also between two others; and it fails when all are blank. *)
Theorem client_round_trip (events : list (str * str)) (err : option str) :
  Forall (fun e => status_event (fst e) (snd e)) events ->
  invoke_response (answer (map (fun e => data_line (fst e)) events) err)
  = if nonempty (solid_texts (map snd events))
    then Ok (strip (concat (solid_texts (map snd events))))
    else Raise (Exception (match err with
                           | None => lit "No content received from agent"
                           | Some msg => lit "Stream error: " ++ msg
                           end)).
Proof.
  intros H.
  pose proof (read_lines_status_events events H [] O) as R. cbn [app] in R.
  unfold invoke_response.
  rewrite (stream_body_ok (answer _ err) _ _ eq_refl R). cbn [read_error answer].
  rewrite (finalize_nonempty (answer _ err) _ _ _ R).
  destruct err; destruct (nonempty _); reflexivity.
Qed.

End ClientRoundTrip.

(** ** The requests of the sequential workflow *)

Section WorkflowFlow.
Context {L : PyLib}.
Import Workflow.

Lemma stage2_endpoint :
  base_url (new_client "http://localhost:8004") ++ lit "/v1/message:stream" = stage2_url.
Proof. reflexivity. Qed.

Lemma card2_endpoint :
  base_url (new_client "http://localhost:8004") ++ lit "/.well-known/agent.json" = card2_url.
Proof. reflexivity. Qed.

Lemma research_stage_outcome (w : World) (topic : str) :
  invokes (research_stage w topic)
  = match card_outcome (get_card w card1_url) with
    | Ok _ => [PostStream stage1_url topic]
    | Raise _ => []
    end /\
  snd (research_stage w topic)
  = match card_outcome (get_card w card1_url) with
    | Raise e => Raise e
    | Ok _ => match invoke_response (post_stream w stage1_url topic) with
              | Ok rc => Ok (Some rc)
              | Raise _ => Ok None
              end
    end.
Proof.
  unfold research_stage. rewrite <- io_bind_assoc.
  pose proof (preamble_outcome w (new_client "http://localhost:8003") "DeepSearch Agent")
    as [Pi Po].
  unfold preamble in Pi, Po. rewrite card1_endpoint in Po. rewrite <- Po.
  unfold invokes in *.
  destruct (io_bind (discover_agent w _) _) as [t [[]|e']]; cbn [fst snd] in *;
    [|split; [exact Pi | reflexivity]].
  unfold invoke_agent. rewrite stage1_endpoint.
  cbv beta iota delta [io_bind emit lift try_except io_ret].
  destruct (invoke_response _) as [rc|e].
  - destruct (nonempty rc); cbn [fst snd]; rewrite filter_app, Pi; split; reflexivity.
  - cbn [fst snd]. rewrite filter_app, Pi. split; reflexivity.
Qed.

Lemma blog_stage_outcome (w : World) (research_content : str) :
  invokes (blog_stage w research_content)
  = match card_outcome (get_card w card2_url) with
    | Ok _ => [PostStream stage2_url research_content]
    | Raise _ => []
    end /\
  snd (blog_stage w research_content)
  = match card_outcome (get_card w card2_url) with
    | Raise e => Raise e
    | Ok _ => match invoke_response (post_stream w stage2_url research_content) with
              | Ok _ => Ok true
              | Raise _ => Ok false
              end
    end.
Proof.
  unfold blog_stage. rewrite <- io_bind_assoc.
  pose proof (preamble_outcome w (new_client "http://localhost:8004") "BlogPost Agent")
    as [Pi Po].
  unfold preamble in Pi, Po. rewrite card2_endpoint in Po. rewrite <- Po.
  unfold invokes in *.
  destruct (io_bind (discover_agent w _) _) as [t [[]|e']]; cbn [fst snd] in *;
    [|split; [exact Pi | reflexivity]].
  unfold invoke_agent. rewrite stage2_endpoint.
  cbv beta iota delta [io_bind emit lift try_except io_ret].
  destruct (invoke_response _) as [bp|e];
    cbn [fst snd]; rewrite filter_app, Pi; split; reflexivity.
Qed.

Lemma workflow_outcome (w : World) :
  invokes (sequential_workflow_a2a w)
  = invokes (research_stage w (topic_of w))
    ++ match snd (research_stage w (topic_of w)) with
       | Ok (Some rc) => invokes (blog_stage w rc)
       | _ => []
       end /\
  snd (sequential_workflow_a2a w)
  = match snd (research_stage w (topic_of w)) with
    | Raise e => Raise e
    | Ok None => Ok tt
    | Ok (Some rc) => match snd (blog_stage w rc) with
                      | Raise e => Raise e
                      | Ok _ => Ok tt
                      end
    end.
Proof.
  unfold sequential_workflow_a2a, topic_of, invokes.
  destruct (nonempty (strip (stdin_line w)));
    cbv beta iota delta [io_bind emit io_ret];
    destruct (research_stage w _) as [t [[rc|]|e]]; cbn [fst snd];
    try (destruct (blog_stage w rc) as [t2 [[]|e2]]; cbn [fst snd]);
    repeat (rewrite ?filter_app; cbn [app filter is_invoke]);
    rewrite ?app_nil_r; split; reflexivity.
Qed.

Lemma topic_solid (w : World) :
  blank (topic_of w) = false /\ strip (topic_of w) = topic_of w.
Proof.
  unfold topic_of. destruct (nonempty (strip (stdin_line w))) eqn:N.
  - split; [|apply strip_strip].
    destruct (blank (strip (stdin_line w))) eqn:B; [|reflexivity].
    apply strip_nil in B. rewrite strip_strip in B. rewrite B in N. discriminate.
  - split; reflexivity.
Qed.

(** Every run of the sequential workflow sends at most two requests to a
    stream endpoint: first the topic to stage 1, then, only if stage 1
    returned a text, that very text to stage 2.  The topic is never
    blank and has no whitespace at either end. *)
Theorem workflow_requests (w : World) :
  (invokes (sequential_workflow_a2a w) = []
   \/ invokes (sequential_workflow_a2a w) = [PostStream stage1_url (topic_of w)]
   \/ exists rc,
        invoke_response (post_stream w stage1_url (topic_of w)) = Ok rc /\
        invokes (sequential_workflow_a2a w)
        = [PostStream stage1_url (topic_of w); PostStream stage2_url rc])
  /\ blank (topic_of w) = false
  /\ strip (topic_of w) = topic_of w.
Proof.
  split; [|apply topic_solid].
  destruct (workflow_outcome w) as [-> _].
  destruct (research_stage_outcome w (topic_of w)) as [-> ->].
  destruct (card_outcome (get_card w card1_url)) as [[]|e1]; [|left; reflexivity].
  destruct (invoke_response (post_stream w stage1_url (topic_of w))) as [rc|e];
    [|right; left; reflexivity].
  destruct (blog_stage_outcome w rc) as [-> _].
  destruct (card_outcome (get_card w card2_url)) as [[]|e2].
  - right. right. exists rc. split; reflexivity.
  - right. left. reflexivity.
Qed.

(** When both cards are usable (discovery failed, or gave a false value
    or an object) and stage 1 returns a text, stage 2 is invoked with
    exactly that text and the run ends normally, whether stage 2
    succeeds or fails. *)
Theorem workflow_data_flow (w : World) (rc : str) :
  card_outcome (get_card w card1_url) = Ok tt ->
  card_outcome (get_card w card2_url) = Ok tt ->
  invoke_response (post_stream w stage1_url (topic_of w)) = Ok rc ->
  invokes (sequential_workflow_a2a w)
  = [PostStream stage1_url (topic_of w); PostStream stage2_url rc] /\
  snd (sequential_workflow_a2a w) = Ok tt.
Proof.
  intros C1 C2 H.
  destruct (workflow_outcome w) as [-> ->].
  destruct (research_stage_outcome w (topic_of w)) as [-> ->].
  rewrite C1, H.
  destruct (blog_stage_outcome w rc) as [-> ->]. rewrite C2.
  split; [reflexivity|].
  destruct (invoke_response (post_stream w stage2_url rc)); reflexivity.
Qed.

(** The print of a discovered card stands outside the [try]: a card
    that is true but no object, a JSON array say, makes the workflow end
    with an [AttributeError].  For the card of stage 1 no agent is
    invoked at all; for the card of stage 2 the research is done and
    lost. *)
Theorem malformed_card_aborts (w : World) (card : JSON) :
  truthy card = true ->
  is_object card = false ->
  (get_card w card1_url = Ok card ->
   invokes (sequential_workflow_a2a w) = [] /\
   snd (sequential_workflow_a2a w) = Raise (no_attribute card "get")) /\
  (forall rc,
     card_outcome (get_card w card1_url) = Ok tt ->
     invoke_response (post_stream w stage1_url (topic_of w)) = Ok rc ->
     get_card w card2_url = Ok card ->
     invokes (sequential_workflow_a2a w) = [PostStream stage1_url (topic_of w)] /\
     snd (sequential_workflow_a2a w) = Raise (no_attribute card "get")).
Proof.
  intros T O. split.
  - intros G.
    destruct (workflow_outcome w) as [-> ->].
    destruct (research_stage_outcome w (topic_of w)) as [-> ->].
    rewrite G. unfold card_outcome. rewrite T, O. split; reflexivity.
  - intros rc C1 H G.
    destruct (workflow_outcome w) as [-> ->].
    destruct (research_stage_outcome w (topic_of w)) as [-> ->].
    rewrite C1, H.
    destruct (blog_stage_outcome w rc) as [-> ->].
    rewrite G. unfold card_outcome. rewrite T, O. split; reflexivity.
Qed.

End WorkflowFlow.

(** ** The requests of the streaming workflow *)

Section StreamingFlow.
Context {L : PyLib}.
Import Workflow.

Lemma streaming_research_outcome (w : World) (topic : str) :
  invokes (Streaming.research_stage w topic) = [PostStream stage1_url topic] /\
  snd (Streaming.research_stage w topic)
  = match invoke_response (post_stream w stage1_url topic) with
    | Ok rc => Ok (Some rc)
    | Raise _ => Ok None
    end.
Proof.
  unfold Streaming.research_stage, invoke_agent, invokes. rewrite stage1_endpoint.
  cbv beta iota delta [io_bind emit lift try_except io_ret].
  destruct (invoke_response _); split; reflexivity.
Qed.

Lemma streaming_blog_outcome (w : World) (research_content : str) :
  invokes (Streaming.blog_stage w research_content)
  = [PostStream stage2_url research_content] /\
  exists done, snd (Streaming.blog_stage w research_content) = Ok done.
Proof.
  unfold Streaming.blog_stage, invoke_agent, invokes. rewrite stage2_endpoint.
  cbv beta iota delta [io_bind emit lift try_except io_ret].
  destruct (invoke_response _); split; try reflexivity; eexists; reflexivity.
Qed.

(** Every run of the streaming workflow ends normally, having sent the
    topic to stage 1 and, exactly when stage 1 returned a text, that
    text to stage 2: since [invoke_agent] never returns an empty text,
    the test for an empty research text stops no run. *)
Theorem streaming_requests (w : World) :
  invokes (Streaming.streaming_workflow_a2a w)
  = match invoke_response (post_stream w stage1_url (streaming_topic w)) with
    | Ok rc => [PostStream stage1_url (streaming_topic w); PostStream stage2_url rc]
    | Raise _ => [PostStream stage1_url (streaming_topic w)]
    end /\
  snd (Streaming.streaming_workflow_a2a w) = Ok tt.
Proof.
  unfold Streaming.streaming_workflow_a2a, streaming_topic.
  set (topic := if nonempty (strip (stdin_line w)) then strip (stdin_line w)
                else Streaming.default_topic).
  destruct (streaming_research_outcome w topic) as [Ri Ro].
  pose proof (invoke_response_nonempty (post_stream w stage1_url topic)) as N.
  unfold invokes in *. subst topic.
  destruct (nonempty (strip (stdin_line w)));
    cbv beta iota delta [io_bind emit io_ret];
    destruct (Streaming.research_stage w _) as [t r]; cbn [fst snd] in *; subst r;
    (destruct (invoke_response _) as [rc|e];
     [ pose proof (N rc eq_refl) as Nrc;
       destruct rc as [|c rc]; [contradiction|]; cbn [nonempty negb];
       destruct (streaming_blog_outcome w (c :: rc)) as [Bi [done Bo]];
       unfold invokes in Bi;
       destruct (Streaming.blog_stage w (c :: rc)) as [t2 r2]; cbn [fst snd] in *;
       subst r2; destruct done
     | ]);
    cbn [fst snd];
    repeat (rewrite ?filter_app; cbn [app filter is_invoke]);
    rewrite ?Ri, ?Bi, ?app_nil_r; split; reflexivity.
Qed.

End StreamingFlow.

(** ** The splitter loses no character *)

Section SplitterLossless.

Lemma replace_boundary_cons (c : ascii) (s : str) :
  exists r, replace boundary delimited (c :: s) = c :: r /\
            (chr_eqb "|" c = true -> r = replace boundary delimited s).
Proof.
  unfold replace, boundary, delimited, lit.
  cbn [replace_from list_ascii_of_string startswith length Nat.sub].
  destruct (chr_eqb "}" c) eqn:E.
  - apply chr_eqb_eq in E. subst c. cbn [andb].
    destruct s as [|c1 s1].
    + eexists. split; [reflexivity | intros H; discriminate H].
    + destruct (chr_eqb "{" c1 && true).
      * cbn [app]. eexists. split; [reflexivity | intros H; discriminate H].
      * eexists. split; [reflexivity | intros H; discriminate H].
  - cbn [andb]. eexists. split; reflexivity.
Qed.

(** No delimiter begins in the replaced text where none began in the
    blob. *)
Lemma delimiter_not_made (c : ascii) (s : str) :
  startswith delimiter (c :: s) = false ->
  startswith boundary (c :: s) = false ->
  startswith delimiter (c :: replace boundary delimited s) = false.
Proof.
  unfold delimiter. unfold lit. cbn [list_ascii_of_string startswith].
  intros H _. destruct (chr_eqb "|" c) eqn:Ec; [|reflexivity]. cbn [andb] in *.
  destruct s as [|c1 s1]; [reflexivity|].
  destruct (replace_boundary_cons c1 s1) as [r1 [-> Hr1]].
  destruct (chr_eqb "|" c1) eqn:Ec1; [|reflexivity]. cbn [andb] in *.
  rewrite (Hr1 eq_refl).
  destruct s1 as [|c2 s2]; [reflexivity|].
  destruct (replace_boundary_cons c2 s2) as [r2 [-> _]].
  exact H.
Qed.

Lemma candidates_rejoin (s : str) :
  contains delimiter s = false ->
  concat (split delimiter (replace boundary delimited s)) = s.
Proof.
  induction s as [|c s IH]; [reflexivity|].
  intros H. apply contains_cons_false in H. destruct H as [Hd Hs].
  specialize (IH Hs).
  destruct (startswith boundary (c :: s)) eqn:B.
  - (* a boundary: the delimiter is put in and cut out again *)
    apply startswith_spec in B. destruct B as [r B].
    change (boundary ++ r) with ("}"%char :: "{"%char :: r) in B.
    injection B as -> ->.
    assert (replace boundary delimited ("{"%char :: r)
            = "{"%char :: replace boundary delimited r) as E by reflexivity.
    rewrite E in IH.
    change (replace boundary delimited ("}"%char :: "{"%char :: r))
      with ("}"%char :: "|"%char :: "|"%char :: "|"%char
            :: "{"%char :: replace boundary delimited r).
    change (split delimiter ("}"%char :: "|"%char :: "|"%char :: "|"%char
                             :: "{"%char :: replace boundary delimited r))
      with (["}"%char] :: split delimiter ("{"%char :: replace boundary delimited r)).
    change (concat (["}"%char] :: split delimiter ("{"%char :: replace boundary delimited r)))
      with ("}"%char :: concat (split delimiter ("{"%char :: replace boundary delimited r))).
    rewrite IH. reflexivity.
  - assert (replace boundary delimited (c :: s) = c :: replace boundary delimited s) as E.
    { unfold replace. cbn [replace_from]. rewrite B. reflexivity. }
    rewrite E. unfold split. cbn [split_from]. fold (split delimiter).
    rewrite (delimiter_not_made c s Hd B).
    fold (split delimiter (replace boundary delimited s)).
    destruct (split delimiter (replace boundary delimited s)) as [|p ps].
    + cbn in IH. subst s. reflexivity.
    + unfold concat in *. cbn [List.concat app] in *. rewrite IH. reflexivity.
Qed.

End SplitterLossless.

Section SplitterProperties.
Context {L : PyLib}.

(** Cutting a blob into candidates loses nothing as long as the blob
    does not hold the delimiter [|||] itself: the candidates, joined as
    they are, give back the blob. *)
Theorem json_objects_lossless (blob : str) :
  contains "|||" blob = false ->
  concat (Blogpost.json_objects blob) = blob.
Proof. apply candidates_rejoin. Qed.

End SplitterProperties.

(** ** The parser on candidates that fail, and on blank texts *)

Section ParserTolerance.
Context {L : PyLib}.

Lemma candidate_chunks_unparsable (s : str) :
  json_loads s = None -> Blogpost.candidate_chunks s = [].
Proof. intros H. unfold Blogpost.candidate_chunks. rewrite H. reflexivity. Qed.

Lemma parsed_chunks_candidates (cands : list (str * option str)) :
  Forall (fun c => blob_candidate (fst c) (snd c)) cands ->
  flat_map Blogpost.candidate_chunks (map fst cands) = candidate_texts_of cands.
Proof.
  induction 1 as [|[s [t|]] cands [_ Hs] _ IH]; [reflexivity | |];
    cbn [map flat_map fst snd candidate_texts_of] in *.
  - rewrite (candidate_chunks_envelope s t Hs), IH. reflexivity.
  - rewrite (candidate_chunks_unparsable s Hs), IH. reflexivity.
Qed.

Lemma candidates_splittable (cands : list (str * option str)) :
  Forall (fun c => blob_candidate (fst c) (snd c)) cands ->
  Forall (fun e => splittable e = true) (map fst cands).
Proof.
  induction 1 as [|[s T] cands [Hs _] _ IH]; constructor; assumption.
Qed.

(** A candidate that does not parse is skipped and costs the others
    nothing: a blob of object texts of which some parse to envelopes and
    the others do not parse gives the texts of those that parse, joined
    in order and trimmed, as soon as one of them parses. *)
Theorem malformed_candidates_skipped (cands : list (str * option str)) :
  Forall (fun c => blob_candidate (fst c) (snd c)) cands ->
  contains "statusUpdate" (concat (map fst cands)) = true ->
  candidate_texts_of cands <> [] ->
  Blogpost.parse_streaming_json (concat (map fst cands))
  = strip (concat (candidate_texts_of cands)).
Proof.
  intros H Hm Hn.
  pose proof (candidates_splittable _ H) as Hs.
  pose proof (parsed_chunks_candidates _ H) as Hc.
  destruct cands as [|[s T] cands]; [contradiction Hn; reflexivity|].
  unfold Blogpost.parse_streaming_json, Blogpost.parsed_chunks. rewrite Hm.
  cbn [negb map fst] in *. rewrite (json_objects_concat s _ Hs), Hc.
  destruct (candidate_texts_of ((s, T) :: cands)); [contradiction Hn|]; reflexivity.
Qed.

(** The two paths differ on a value of the wrong type under
    [statusUpdate]: the parser, which catches every exception of a
    candidate, takes no text from it, where the streaming client
    raises. *)
Theorem wrong_type_skipped_by_parser (ec : nat) (s : str) (d : dict) (su : JSON) :
  json_loads s = Some (JObj d) ->
  lookup "statusUpdate" d = Some su ->
  is_object su = false ->
  Blogpost.candidate_chunks s = [] /\
  on_payload ec s = Raise (no_attribute su (if (ec <=? 3)%nat then lit "keys" else lit "get")).
Proof.
  intros Hs Hsu Ho. split.
  - unfold Blogpost.candidate_chunks, Blogpost.candidate_texts. rewrite Hs.
    cbn [py_in bind]. rewrite Hsu.
    destruct su; try discriminate Ho; reflexivity.
  - unfold on_payload, extract, debug_keys. rewrite Hs.
    destruct (ec <=? 3)%nat; rewrite ?Hsu; cbn [bind]; rewrite ?Hsu;
      destruct su; try discriminate Ho; reflexivity.
Qed.

(** Envelopes whose texts are all blank give the empty string: neither
    the error text of the last resort nor an exception, where the
    streaming client fails with "No content received from agent". *)
Theorem blank_texts_give_empty (envs : list (str * str)) :
  Forall (fun e => wire_envelope (fst e) (snd e)) envs ->
  Forall (fun e => blank (snd e) = true) envs ->
  Blogpost.parse_streaming_json (concat (map fst envs)) = [].
Proof.
  intros H B. rewrite (parse_streaming_json_envelopes envs H).
  apply strip_nil. clear H. induction B as [|e envs Be _ IH]; [reflexivity|].
  cbn [map]. unfold concat in *. cbn [List.concat]. rewrite blank_app, Be. exact IH.
Qed.

End ParserTolerance.

(** ** The scan of the last resort *)

Section RegexScan.

Lemma span_unquoted_spec (s : str) :
  s = fst (Blogpost.span_unquoted s) ++ snd (Blogpost.span_unquoted s) /\
  (forall b r, snd (Blogpost.span_unquoted s) = b :: r -> b = dquote).
Proof.
  induction s as [|c s [IH1 IH2]]; cbn [Blogpost.span_unquoted].
  - split; [reflexivity | discriminate].
  - destruct (chr_eqb c dquote) eqn:E.
    + cbn [fst snd app]. split; [reflexivity|].
      intros b r [= <- _]. apply chr_eqb_eq. exact E.
    + destruct (Blogpost.span_unquoted s) as [v r]. cbn [fst snd app] in *.
      split; [f_equal; exact IH1 | exact IH2].
Qed.

Lemma span_unquoted_run (v rest : str) :
  ~ In dquote v ->
  Blogpost.span_unquoted (v ++ dquote :: rest) = (v, dquote :: rest).
Proof.
  induction v as [|c v IH]; intros H; cbn [app Blogpost.span_unquoted].
  - rewrite chr_eqb_refl. reflexivity.
  - destruct (chr_eqb c dquote) eqn:E.
    + apply chr_eqb_eq in E. subst c. exfalso. apply H. left. reflexivity.
    + rewrite IH; [reflexivity|]. intros I. apply H. right. exact I.
Qed.

Lemma match_text_field_sound (s v : str) (n : nat) :
  Blogpost.match_text_field s = Some (v, n) ->
  exists ws post,
    s = q "'text':" ++ ws ++ dquote :: v ++ dquote :: post
    /\ blank ws = true /\ v <> [] /\ ~ In dquote v.
Proof.
  unfold Blogpost.match_text_field.
  destruct (startswith (q "'text':") s) eqn:P; [|discriminate].
  apply startswith_spec in P. destruct P as [r1 ->].
  change (skipn 7 (q "'text':" ++ r1)) with r1.
  destruct (lstrip_suffix r1) as [ws [E B]].
  destruct (lstrip r1) as [|c r3]; [discriminate|].
  destruct (chr_eqb c dquote) eqn:Ec; [|discriminate].
  apply chr_eqb_eq in Ec. subst c.
  pose proof (span_unquoted_fst r3) as U.
  destruct (span_unquoted_spec r3) as [S1 S2].
  destruct (Blogpost.span_unquoted r3) as [[|a v'] [|b r4]]; try discriminate.
  cbn [fst snd] in *. intros [= <- _].
  rewrite (S2 b r4 eq_refl) in S1.
  exists ws, r4. rewrite E, S1. repeat split; [exact B | discriminate | exact U].
Qed.

Lemma occurrence_later (v s : str) (c : ascii) :
  text_field_occurrence v s -> text_field_occurrence v (c :: s).
Proof.
  intros [pre [ws [post [-> H]]]]. exists (c :: pre), ws, post.
  split; [reflexivity | exact H].
Qed.

Lemma findall_from_sound (s : str) :
  forall skip, Forall (fun v => text_field_occurrence v s) (Blogpost.findall_from skip s).
Proof.
  induction s as [|c s IH]; intros skip; cbn [Blogpost.findall_from]; [constructor|].
  assert (forall k, Forall (fun v => text_field_occurrence v (c :: s))
                      (Blogpost.findall_from k s)) as Later.
  { intros k. eapply Forall_impl; [|apply IH]. intros v. apply occurrence_later. }
  destruct skip as [|k]; [|apply Later].
  destruct (Blogpost.match_text_field (c :: s)) as [[v n]|] eqn:M; [|apply Later].
  constructor; [|apply Later].
  destruct (match_text_field_sound _ _ _ M) as [ws [post [E H]]].
  exists [], ws, post. split; [exact E | exact H].
Qed.

(** The scan invents nothing: every value it returns stands in the blob
    between double quotes, after the key [text] in double quotes, a
    colon and whitespace only; it is not empty and holds no double
    quote. *)
Theorem findall_text_sound (blob : str) :
  Forall (fun v => text_field_occurrence v blob) (Blogpost.findall_text blob).
Proof. apply findall_from_sound. Qed.

End RegexScan.

Section RegexRescue.

Lemma scannable_inv (T : str) : scannable T = true -> T <> [] /\ ~ In dquote T.
Proof.
  unfold scannable. intros H. apply andb_true_iff in H. destruct H as [N Q].
  split; [destruct T; [discriminate N | discriminate]|].
  intros I. apply negb_true_iff in Q.
  assert (existsb (chr_eqb dquote) T = true) as E.
  { apply existsb_exists. exists dquote. split; [exact I | apply chr_eqb_refl]. }
  congruence.
Qed.

Lemma findall_no_match (a s : str) :
  (forall k, (k < length a)%nat -> Blogpost.match_text_field (skipn k a ++ s) = None) ->
  Blogpost.findall_from 0 (a ++ s) = Blogpost.findall_from 0 s.
Proof.
  induction a as [|c a IH]; intros H; [reflexivity|].
  cbn [app Blogpost.findall_from].
  pose proof (H O ltac:(cbn; lia)) as H0. cbn [skipn app] in H0. rewrite H0.
  apply IH. intros k Hk. apply (H (S k)). cbn [length]. lia.
Qed.

Lemma findall_skip (a s : str) :
  Blogpost.findall_from (length a) (a ++ s) = Blogpost.findall_from 0 s.
Proof.
  induction a as [|c a IH]; [reflexivity|].
  cbn [length app Blogpost.findall_from]. exact IH.
Qed.

Lemma match_text_field_compact (T rest : str) :
  scannable T = true ->
  Blogpost.match_text_field (q "'text':'" ++ T ++ dquote :: rest)
  = Some (T, (9 + length T)%nat).
Proof.
  intros H. destruct (scannable_inv T H) as [N Q].
  unfold Blogpost.match_text_field.
  change (startswith (q "'text':") (q "'text':'" ++ T ++ dquote :: rest)) with true.
  cbv iota.
  change (skipn 7 (q "'text':'" ++ T ++ dquote :: rest))
    with (dquote :: T ++ dquote :: rest).
  change (lstrip (dquote :: T ++ dquote :: rest)) with (dquote :: T ++ dquote :: rest).
  cbv iota beta. rewrite chr_eqb_refl, (span_unquoted_run T rest Q).
  destruct T as [|a T]; [contradiction N; reflexivity|].
  rewrite Nat.sub_diag. f_equal. f_equal. cbn [length]. lia.
Qed.

Lemma findall_envelope_text (T rest : str) :
  scannable T = true ->
  Blogpost.findall_from 0 (envelope_text T ++ rest)
  = T :: Blogpost.findall_from 0 rest.
Proof.
  intros H. unfold envelope_text.
  change (q "{'statusUpdate':{'status':{'message':{'content':[{'text':'")
    with (q "{'statusUpdate':{'status':{'message':{'content':[{" ++ q "'text':'").
  change (q "'}]}}}}") with (dquote :: lit "}]}}}}").
  rewrite <- !app_assoc. cbn [app].
  rewrite findall_no_match.
  - change (q "'text':'" ++ T ++ dquote :: lit "}]}}}}" ++ rest)
      with (dquote :: (lit "text" ++ [dquote; ":"%char; dquote]) ++ T ++ dquote :: lit "}]}}}}" ++ rest).
    cbn [Blogpost.findall_from].
    change (dquote :: (lit "text" ++ [dquote; ":"%char; dquote]) ++ T ++ dquote :: lit "}]}}}}" ++ rest)
      with (q "'text':'" ++ T ++ dquote :: (lit "}]}}}}" ++ rest)).
    rewrite (match_text_field_compact T _ H). f_equal.
    change (9 + length T - 1)%nat with (8 + length T)%nat.
    replace (8 + length T)%nat
      with (length ((lit "text" ++ [dquote; ":"%char; dquote]) ++ T ++ [dquote]))
      by (rewrite !length_app; cbn [length]; change (length (lit "text")) with 4%nat; lia).
    replace ((lit "text" ++ [dquote; ":"%char; dquote]) ++ T ++ dquote :: lit "}]}}}}" ++ rest)
      with (((lit "text" ++ [dquote; ":"%char; dquote]) ++ T ++ [dquote]) ++ lit "}]}}}}" ++ rest)
      by (rewrite <- !app_assoc; reflexivity).
    rewrite findall_skip.
    apply findall_no_match. intros k Hk.
    do 6 (destruct k as [|k]; [vm_compute; reflexivity|]).
    exfalso. change (length (lit "}]}}}}")) with 6%nat in Hk. lia.
  - intros k Hk.
    do 50 (destruct k as [|k]; [vm_compute; reflexivity|]).
    exfalso.
    change (length (q "{'statusUpdate':{'status':{'message':{'content':[{")) with 50%nat in Hk.
    lia.
Qed.

Lemma findall_envelope_texts (Ts : list str) :
  Forall (fun T => scannable T = true) Ts ->
  Blogpost.findall_text (concat (map envelope_text Ts)) = Ts.
Proof.
  unfold Blogpost.findall_text.
  induction 1 as [|T Ts H _ IH]; [reflexivity|].
  cbn [map]. unfold concat in *. cbn [List.concat].
  rewrite (findall_envelope_text T _ H), IH. reflexivity.
Qed.

End RegexRescue.

Section RescueProperty.
Context {L : PyLib}.

Lemma verbatim_scannable (T : str) : verbatim T = true -> scannable T = true.
Proof.
  unfold verbatim, scannable. intros H. apply andb_true_iff in H. destruct H as [N P].
  rewrite N. cbn [andb]. apply negb_true_iff.
  destruct (existsb (chr_eqb dquote) T) eqn:E; [|reflexivity].
  apply existsb_exists in E. destruct E as [c [I C]].
  apply chr_eqb_eq in C. subst c.
  pose proof (proj1 (forallb_forall _ _) P dquote I) as Q.
  discriminate Q.
Qed.

(** When no candidate of a blob of compact envelopes yields a text, as
    when every text holds the boundary or the delimiter and is cut in
    two, the last resort still finds the texts, provided each is not
    empty and needs no escape in a JSON string (no double quote, no
    backslash, no control character): it returns them in order, joined
    by single spaces and not trimmed, where the candidates would have
    been joined by nothing. *)
Theorem fallback_rescues_envelopes (Ts : list str) :
  Forall (fun T => verbatim T = true) Ts ->
  Ts <> [] ->
  Blogpost.parsed_chunks (concat (map envelope_text Ts)) = [] ->
  Blogpost.parse_streaming_json (concat (map envelope_text Ts)) = join " " Ts.
Proof.
  intros H N P. unfold Blogpost.parse_streaming_json.
  assert (Forall (fun T => scannable T = true) Ts) as H'.
  { revert H. apply Forall_impl. exact verbatim_scannable. }
  rewrite P, (findall_envelope_texts Ts H').
  destruct Ts as [|T Ts]; [contradiction N; reflexivity|].
  cbn [map]. unfold concat. cbn [List.concat].
  replace (contains "statusUpdate" (envelope_text T ++ List.concat (map envelope_text Ts)))
    with true; [reflexivity|].
  symmetry. apply contains_app_l. unfold envelope_text. apply contains_app_l. reflexivity.
Qed.

End RescueProperty.

Section Inbound.

Lemma blogpost_append_said (ps : list Part) :
  existsb broken ps = false ->
  forall query, Blogpost.append_parts query ps = Ok (query ++ concat (map said ps)).
Proof.
  induction ps as [|p ps IH]; intros H query; cbn [Blogpost.append_parts map].
  - rewrite app_nil_r. reflexivity.
  - cbn [existsb] in H. apply orb_false_iff in H. destruct H as [Hp Hps].
    unfold Blogpost.append_part. unfold said at 1. unfold broken in Hp.
    change (lit "") with (@nil ascii).
    destruct (is_text_root (root p)) as [r|].
    + destruct (text r) as [| |s]; try discriminate; cbn [bind];
        rewrite (IH Hps); unfold concat; cbn [List.concat app];
        rewrite ?app_nil_r, <- ?app_assoc; reflexivity.
    + destruct (content p) as [c|]; cbn [bind]; rewrite (IH Hps);
        unfold concat; cbn [List.concat app]; rewrite <- ?app_assoc; reflexivity.
Qed.

Lemma deepsearch_append_said (ps : list Part) :
  existsb broken ps = false ->
  forall query, Deepsearch.append_parts query ps = Ok (query ++ concat (map said ps)).
Proof.
  induction ps as [|p ps IH]; intros H query; cbn [Deepsearch.append_parts map].
  - rewrite app_nil_r. reflexivity.
  - cbn [existsb] in H. apply orb_false_iff in H. destruct H as [Hp Hps].
    unfold Deepsearch.append_part. unfold said at 1. unfold broken in Hp.
    change (lit "") with (@nil ascii).
    destruct (is_text_root (root p)) as [r|].
    + destruct (text r) as [| |s]; try discriminate; cbn [bind];
        rewrite (IH Hps); unfold concat; cbn [List.concat app];
        rewrite ?app_nil_r, <- ?app_assoc; reflexivity.
    + destruct (content p) as [c|]; cbn [bind]; rewrite (IH Hps);
        unfold concat; cbn [List.concat app]; rewrite <- ?app_assoc; reflexivity.
Qed.

Lemma deepsearch_assign_app (ps qs : list Part) :
  forall query,
    Deepsearch.assign_parts query (ps ++ qs)
    = bind (Deepsearch.assign_parts query ps) (fun query' => Deepsearch.assign_parts query' qs).
Proof.
  induction ps as [|p ps IH]; intros query; [reflexivity|].
  cbn [app Deepsearch.assign_parts].
  destruct (Deepsearch.assign_part query p) as [query'|e]; cbn [bind]; [apply IH | reflexivity].
Qed.

Lemma deepsearch_assign_sound (ps : list Part) :
  existsb broken ps = false ->
  forall query, exists query', Deepsearch.assign_parts query ps = Ok query'.
Proof.
  induction ps as [|p ps IH]; intros H query; [exists query; reflexivity|].
  cbn [existsb] in H. apply orb_false_iff in H. destruct H as [Hp Hps].
  cbn [Deepsearch.assign_parts]. unfold Deepsearch.assign_part. unfold broken in Hp.
  destruct (is_text_root (root p)) as [r|].
  - destruct (text r) as [| |s]; try discriminate; cbn [bind]; apply (IH Hps).
  - destruct (content p) as [c|]; cbn [bind]; apply (IH Hps).
Qed.

Lemma blogpost_append_broken (ps : list Part) :
  existsb broken ps = true ->
  forall query, Blogpost.append_parts query ps = Raise (AttributeError "text").
Proof.
  induction ps as [|p ps IH]; intros H query; [discriminate H|].
  cbn [existsb] in H. cbn [Blogpost.append_parts]. unfold Blogpost.append_part.
  unfold broken in H.
  destruct (is_text_root (root p)) as [r|].
  - destruct (text r) as [| |s]; cbn [orb] in H; cbn [bind];
      [reflexivity | apply (IH H) | apply (IH H)].
  - cbn [orb] in H. destruct (content p) as [c|]; cbn [bind]; apply (IH H).
Qed.

Lemma deepsearch_append_broken (ps : list Part) :
  existsb broken ps = true ->
  forall query, Deepsearch.append_parts query ps = Raise (AttributeError "text").
Proof.
  induction ps as [|p ps IH]; intros H query; [discriminate H|].
  cbn [existsb] in H. cbn [Deepsearch.append_parts]. unfold Deepsearch.append_part.
  unfold broken in H.
  destruct (is_text_root (root p)) as [r|].
  - destruct (text r) as [| |s]; cbn [orb] in H; cbn [bind];
      [reflexivity | apply (IH H) | apply (IH H)].
  - cbn [orb] in H. destruct (content p) as [c|]; cbn [bind]; apply (IH H).
Qed.

Lemma deepsearch_assign_broken (ps : list Part) :
  existsb broken ps = true ->
  forall query, Deepsearch.assign_parts query ps = Raise (AttributeError "text").
Proof.
  induction ps as [|p ps IH]; intros H query; [discriminate H|].
  cbn [existsb] in H. cbn [Deepsearch.assign_parts]. unfold Deepsearch.assign_part.
  unfold broken in H.
  destruct (is_text_root (root p)) as [r|].
  - destruct (text r) as [| |s]; cbn [orb] in H; cbn [bind];
      [reflexivity | apply (IH H) | apply (IH H)].
  - cbn [orb] in H. destruct (content p) as [c|]; cbn [bind]; apply (IH H).
Qed.

(** One part whose root has kind [text] and no attribute [text] makes
    every reader of the message give up what the other parts said: the
    handler of the blog post agent takes [str(message)] for the research
    text, the handler of the research agent takes it for the query, and
    the two helpers return it trimmed. *)
Theorem broken_part_falls_back (message : Message) :
  existsb broken (parts_of message) = true ->
  Blogpost.received_content message = message_str message /\
  Deepsearch.received_query message = Some (message_str message) /\
  Blogpost.extract_query_from_message message = strip (message_str message) /\
  Deepsearch.extract_query_from_message message = strip (message_str message).
Proof.
  intros H.
  unfold Blogpost.received_content, Deepsearch.received_query,
    Blogpost.extract_query_from_message, Deepsearch.extract_query_from_message.
  rewrite (blogpost_append_broken _ H), (deepsearch_append_broken _ H),
    (deepsearch_assign_broken _ H).
  repeat split.
Qed.

(** A message whose last part is a text root with [None] for text is
    refused by the handler of the research agent, whatever the parts
    before it said, as long as none of them is broken: the query is
    [None].  The helper of the same file and the blog post agent read
    the same message as what the earlier parts said, in order. *)
Theorem null_text_refused (message : Message) (ps : list Part) (p : Part) (r : Root) :
  parts message = Some (ps ++ [p]) ->
  existsb broken ps = false ->
  is_text_root (root p) = Some r ->
  text r = TextNone ->
  Deepsearch.received_query message = None /\
  Deepsearch.no_query (Deepsearch.received_query message) = true /\
  Deepsearch.extract_query_from_message message = strip (concat (map said ps)) /\
  Blogpost.received_content message = concat (map said ps).
Proof.
  intros Hm Hps Hr Ht.
  assert (Deepsearch.received_query message = None) as Hq.
  { unfold Deepsearch.received_query, parts_of. rewrite Hm, deepsearch_assign_app.
    destruct (deepsearch_assign_sound ps Hps (Some (lit ""))) as [q' E].
    rewrite E. cbn [bind Deepsearch.assign_parts]. unfold Deepsearch.assign_part.
    rewrite Hr, Ht. reflexivity. }
  assert (existsb broken (ps ++ [p]) = false) as Hall.
  { rewrite existsb_app, Hps. cbn [existsb orb]. unfold broken. rewrite Hr, Ht. reflexivity. }
  assert (concat (map said (ps ++ [p])) = concat (map said ps)) as Hs.
  { rewrite map_app. unfold concat. rewrite concat_app. cbn [map List.concat].
    unfold said at 2. rewrite Hr, Ht. rewrite !app_nil_r. reflexivity. }
  split; [exact Hq|]. split; [rewrite Hq; reflexivity|].
  unfold Deepsearch.extract_query_from_message, Blogpost.received_content, parts_of.
  rewrite Hm, (deepsearch_append_said _ Hall), (blogpost_append_said _ Hall), Hs.
  split; reflexivity.
Qed.

End Inbound.

Section BlogTopic.
Import BlogFile.

Lemma lstrip_incl (x : ascii) (s : str) : In x (lstrip s) -> In x s.
Proof.
  destruct (lstrip_suffix s) as [a [E _]]. intros H. rewrite E.
  apply in_or_app. right. exact H.
Qed.

Lemma rstrip_incl (x : ascii) (s : str) : In x (rstrip s) -> In x s.
Proof.
  unfold rstrip. intros H. apply in_rev in H. apply lstrip_incl in H.
  apply in_rev. exact H.
Qed.

Lemma strip_incl (x : ascii) (s : str) : In x (strip s) -> In x s.
Proof. unfold strip. intros H. apply lstrip_incl, rstrip_incl. exact H. Qed.

Lemma firstn_incl (A : Type) (n : nat) (l : list A) (x : A) :
  In x (firstn n l) -> In x l.
Proof.
  intros H. rewrite <- (firstn_skipn n l). apply in_or_app. left. exact H.
Qed.

Lemma contains_chr (c : ascii) (s : str) :
  contains [c] s = existsb (chr_eqb c) s.
Proof.
  induction s as [|a s IH]; [reflexivity|].
  cbn [contains startswith existsb]. rewrite IH, andb_true_r. reflexivity.
Qed.

Lemma contains_chr_false (c : ascii) (s : str) :
  ~ In c s -> contains [c] s = false.
Proof.
  intros H. rewrite contains_chr. destruct (existsb (chr_eqb c) s) eqn:E; [|reflexivity].
  apply existsb_exists in E. destruct E as [x [I X]].
  apply chr_eqb_eq in X. subst x. contradiction.
Qed.

Lemma split_chr_head (c : ascii) (s : str) :
  exists l rest, split [c] s = l :: rest /\ ~ In c l.
Proof.
  unfold split. induction s as [|a s [l [rest [E N]]]].
  - exists [], []. split; [reflexivity | intros []].
  - cbn [split_from startswith]. rewrite andb_true_r.
    destruct (chr_eqb c a) eqn:Ca.
    + exists [], (split_from [c] (length [c] - 1) s). split; [reflexivity | intros []].
    + rewrite E. exists (a :: l), rest. split; [reflexivity|].
      intros [H|H]; [|exact (N H)].
      subst a. rewrite chr_eqb_refl in Ca. discriminate Ca.
Qed.

Lemma split_chr_first (c : ascii) (l rest : str) :
  contains [c] l = false ->
  exists ps, split [c] (l ++ c :: rest) = l :: ps.
Proof.
  unfold split. induction l as [|a l IH]; intros H.
  - cbn [app split_from startswith]. rewrite chr_eqb_refl. cbn [andb].
    eexists. reflexivity.
  - apply contains_cons_false in H. destruct H as [H1 H2].
    cbn [startswith] in H1. rewrite andb_true_r in H1.
    destruct (IH H2) as [ps E].
    cbn [app split_from startswith]. rewrite H1. cbn [andb]. rewrite E.
    exists ps. reflexivity.
Qed.

Lemma topic_of_line (l : str) :
  (if (150 <? length (strip l))%nat then firstn 150 (strip l) ++ lit "..." else strip l)
  = (if blank l then []
     else if (150 <? length (strip l))%nat then firstn 150 (strip l) ++ lit "..."
          else strip l).
Proof.
  destruct (blank l) eqn:B; [|reflexivity].
  apply strip_nil in B. rewrite B. reflexivity.
Qed.

(** The topic the blog post agent hands to its workflow is one line of
    at most 153 characters, whatever the research text: it holds no
    line feed, and the default ["Blog Post Topic"] is never used. *)
Theorem blog_topic_single_line (research_content : str) :
  (length (blog_topic research_content) <= 153)%nat /\
  contains [newline] (blog_topic research_content) = false /\
  exists l rest, split [newline] research_content = l :: rest /\
    blog_topic research_content
    = (if (150 <? length (strip l))%nat then firstn 150 (strip l) ++ lit "..." else strip l).
Proof.
  destruct (split_chr_head newline research_content) as [l [rest [E N]]].
  assert (blog_topic research_content
          = (if (150 <? length (strip l))%nat then firstn 150 (strip l) ++ lit "..."
             else strip l)) as T.
  { unfold blog_topic. change ["010"%char] with [newline]. rewrite E. reflexivity. }
  split; [|split; [|exists l, rest; split; [exact E | exact T]]]; rewrite T.
  - destruct (150 <? length (strip l))%nat eqn:C.
    + rewrite length_app. pose proof (firstn_le_length 150 (strip l)) as F.
      change (length (lit "...")) with 3%nat. lia.
    + apply Nat.ltb_ge in C. lia.
  - apply contains_chr_false. intros I. apply N.
    destruct (150 <? length (strip l))%nat.
    + apply in_app_or in I. destruct I as [I|I].
      * apply strip_incl. exact (firstn_incl _ _ _ _ I).
      * exfalso. revert I. vm_compute. intuition discriminate.
    + apply strip_incl. exact I.
Qed.

(** The topic is read from the first line alone: what follows the first
    line feed does not count, and when the first line is blank the topic
    is empty even though text follows. *)
Theorem blog_topic_first_line (l rest : str) :
  contains [newline] l = false ->
  blog_topic (l ++ newline :: rest) = blog_topic l /\
  blog_topic l
  = (if blank l then []
     else if (150 <? length (strip l))%nat then firstn 150 (strip l) ++ lit "..."
          else strip l).
Proof.
  intros H. destruct (split_chr_first newline l rest H) as [ps E].
  unfold blog_topic. change ["010"%char] with [newline].
  rewrite E, (split_absent [newline] l H), <- topic_of_line. split; reflexivity.
Qed.

End BlogTopic.

Section BlogFileName.
Import BlogFile.

Lemma replace_chr (a b : ascii) (s : str) :
  replace [a] [b] s = map (fun c => if chr_eqb a c then b else c) s.
Proof.
  unfold replace. induction s as [|c s IH]; [reflexivity|].
  cbn [replace_from startswith map]. rewrite andb_true_r.
  destruct (chr_eqb a c); cbn [length Nat.sub app]; rewrite IH; reflexivity.
Qed.

Lemma kept_plain (c : ascii) :
  kept c = true ->
  name_char (lower_chr (if chr_eqb " " c then "_"%char else c)) = true.
Proof.
  destruct c as [[] [] [] [] [] [] [] []]; vm_compute; intros H;
    first [reflexivity | discriminate H].
Qed.

Lemma name_char_no_separator (c : ascii) :
  name_char c = true ->
  existsb (chr_eqb c) [" "; "/"; "092"; "."; ":"; "000"]%char = false.
Proof.
  destruct c as [[] [] [] [] [] [] [] []]; vm_compute; intros H;
    first [reflexivity | discriminate H].
Qed.

Lemma safe_title_plain (blog_title : str) :
  forallb name_char (safe_title blog_title) = true.
Proof.
  apply forallb_forall. intros x I. unfold safe_title, lower in I.
  change (lit " ") with [" "%char] in I. change (lit "_") with ["_"%char] in I.
  rewrite replace_chr, map_map in I. apply in_map_iff in I.
  destruct I as [c [X I]]. subst x.
  apply rstrip_incl in I. apply filter_In in I. destruct I as [_ K].
  apply kept_plain. exact K.
Qed.

(** Whatever the title, the file name of a post is [blog_], the time
    stamp, an underscore, at most 50 plain characters and [.md]: the
    part taken from the title holds only characters that are
    alphanumeric and not upper case, hyphens and underscores, and so no
    space, slash, backslash, dot, colon or NUL. *)
Theorem filename_title_plain (timestamp blog_title : str) :
  exists t,
    filename timestamp blog_title = lit "blog_" ++ timestamp ++ lit "_" ++ t ++ lit ".md" /\
    (length t <= 50)%nat /\
    forallb name_char t = true /\
    forallb (fun c => negb (existsb (chr_eqb c) [" "; "/"; "092"; "."; ":"; "000"]%char)) t
    = true.
Proof.
  exists (firstn 50 (safe_title blog_title)).
  assert (forall x, In x (firstn 50 (safe_title blog_title)) -> name_char x = true) as P.
  { intros x I. apply firstn_incl in I.
    exact (proj1 (forallb_forall _ _) (safe_title_plain blog_title) x I). }
  split; [reflexivity|]. split; [apply firstn_le_length|].
  split; apply forallb_forall; intros x I.
  - exact (P x I).
  - rewrite (name_char_no_separator x (P x I)). reflexivity.
Qed.

End BlogFileName.

Section ClientUrls.
Import Workflow.
Context {L : PyLib}.

Lemma rstrip_slash_rev_spec (r : str) :
  exists k, r = repeat "/"%char k ++ rstrip_slash_rev r /\
            startswith ["/"%char] (rstrip_slash_rev r) = false.
Proof.
  induction r as [|c r [k [E N]]].
  - exists O. split; reflexivity.
  - cbn [rstrip_slash_rev]. destruct (chr_eqb c "/") eqn:C.
    + apply chr_eqb_eq in C. subst c. exists (S k). cbn [repeat app].
      split; [f_equal; exact E | exact N].
    + exists O. split; [reflexivity|].
      cbn [startswith]. rewrite andb_true_r.
      destruct (chr_eqb "/" c) eqn:C'; [|reflexivity].
      apply chr_eqb_eq in C'. subst c. rewrite chr_eqb_refl in C. discriminate C.
Qed.

Lemma rev_repeat_chr (c : ascii) (k : nat) : rev (repeat c k) = repeat c k.
Proof.
  induction k as [|k IH]; [reflexivity|].
  cbn [repeat rev]. rewrite IH. symmetry. apply repeat_cons.
Qed.

(** A client drops every slash that ends its base URL and nothing else,
    so the address it requests never has a doubled slash before the
    path: the stream of [invoke_agent] is posted to the base URL without
    its final slashes followed by [/v1/message:stream], and the card of
    [discover_agent] is asked at that base followed by
    [/.well-known/agent.json]. *)
Theorem client_urls_normalised (w : World) (url text_input : str) :
  exists k,
    url = base_url (new_client url) ++ repeat "/"%char k /\
    endswith "/" (base_url (new_client url)) = false /\
    fst (invoke_agent w (new_client url) text_input)
    = [PostStream (base_url (new_client url) ++ lit "/v1/message:stream") text_input] /\
    hd_error (fst (discover_agent w (new_client url)))
    = Some (Get (base_url (new_client url) ++ lit "/.well-known/agent.json")).
Proof.
  destruct (rstrip_slash_rev_spec (rev url)) as [k [E N]].
  exists k. cbn [new_client base_url]. split; [|split; [|split]].
  - rewrite <- (rev_involutive url) at 1. rewrite E at 1.
    rewrite rev_app_distr, rev_repeat_chr. reflexivity.
  - unfold endswith. rewrite rev_involutive. exact N.
  - unfold invoke_agent. cbv beta iota delta [io_bind emit lift].
    cbn [base_url].
    destruct (invoke_response _); reflexivity.
  - unfold discover_agent. cbn [base_url].
    destruct (get_card w _); reflexivity.
Qed.

Lemma rfind_from_spec (c : ascii) (s : str) :
  forall i best,
    (rfind_from c i best s = best /\ ~ In c s) \/
    (exists a b, s = a ++ c :: b /\ ~ In c b /\
                 rfind_from c i best s = (i + Z.of_nat (length a))%Z).
Proof.
  induction s as [|x s IH]; intros i best.
  - left. split; [reflexivity | intros []].
  - cbn [rfind_from].
    destruct (IH (i + 1)%Z (if chr_eqb x c then i else best)) as [[E N]|[a [b [E [N R]]]]].
    + destruct (chr_eqb x c) eqn:C.
      * apply chr_eqb_eq in C. subst x. right. exists [], s.
        split; [reflexivity|]. split; [exact N|]. rewrite E. cbn [length]. lia.
      * left. split; [exact E|]. intros [H|H]; [|exact (N H)].
        subst x. rewrite chr_eqb_refl in C. discriminate C.
    + right. exists (x :: a), b. subst s. split; [reflexivity|]. split; [exact N|].
      rewrite R. cbn [length]. lia.
Qed.

(** The preview of the research that the sequential workflow prints is
    at most 503 characters long.  A text of up to 500 characters is
    shown whole and trimmed.  A longer one is cut to its first 500
    characters, trimmed and followed by three dots; when the last full
    stop of that piece comes after more than 200 characters, the piece
    ends at that full stop. *)
Theorem research_preview_bounded (research_content : str) :
  (length (research_preview research_content) <= 503)%nat /\
  (if (500 <? length research_content)%nat
   then if (200 <? rfind "." (strip (firstn 500 research_content)))%Z
        then exists a b,
               strip (firstn 500 research_content) = a ++ "."%char :: b /\
               ~ In "."%char b /\ (200 < length a)%nat /\
               research_preview research_content = a ++ lit "...."
        else research_preview research_content
             = strip (firstn 500 research_content) ++ lit "..."
   else research_preview research_content = strip research_content).
Proof.
  unfold research_preview.
  pose proof (strip_length (firstn 500 research_content)) as S.
  pose proof (firstn_le_length 500 research_content) as F.
  destruct (500 <? length research_content)%nat eqn:C.
  - set (p := strip (firstn 500 research_content)) in *.
    destruct (200 <? rfind "." p)%Z eqn:D.
    + split.
      * rewrite length_app. change (length (lit "...")) with 3%nat.
        assert (length (firstn (Z.to_nat (rfind "." p + 1)) p) <= length p)%nat
          by (rewrite length_firstn; lia).
        lia.
      * apply Z.ltb_lt in D. unfold rfind in *.
        destruct (rfind_from_spec "." p 0 (-1)) as [[E _]|[a [b [E [N R]]]]]; [lia|].
        exists a, b. split; [exact E|]. split; [exact N|]. split; [lia|].
        rewrite R. replace (Z.to_nat (0 + Z.of_nat (length a) + 1)) with (length (a ++ ["."%char]))
          by (rewrite length_app; cbn [length]; lia).
        rewrite E. change (a ++ "."%char :: b) with (a ++ ["."%char] ++ b).
        rewrite app_assoc, firstn_app, Nat.sub_diag, firstn_all. cbn [firstn].
        rewrite app_nil_r, <- app_assoc. reflexivity.
    + split; [|reflexivity].
      rewrite length_app. change (length (lit "...")) with 3%nat. lia.
  - apply Nat.ltb_ge in C. rewrite (firstn_all2 research_content) by lia.
    split; [|reflexivity].
    pose proof (strip_length research_content). lia.
Qed.

End ClientUrls.

(** ** The further properties at concrete inputs *)

Section FurtherExamples.
Existing Instance RefJson.reference.

Lemma invoke_result_trimmed_witness :
  invoke_response (answer [lit "data:   x  "] None) = Ok (lit "x") /\
  lit "x" <> [] /\ blank (lit "x") = false /\ strip (lit "x") = lit "x".
Proof.
  split; [reflexivity|].
  exact (invoke_result_trimmed (answer [lit "data:   x  "] None) (lit "x") eq_refl).
Defined.

Lemma invoke_failure_kinds_witness :
  Invoke.invoke_agent limited_loads
    {| Invoke.status_code := 200; Invoke.body := Invoke.Returns [];
       Invoke.lines := [data_line long_integer]; Invoke.stream_end := None |}
  = Invoke.Fails digits_limit /\
  (forall msg, digits_limit <> Invoke.Known (ReadError msg)) /\
  exists p, In (data_line p) [data_line long_integer] /\
            limited_loads p = Some digits_limit.
Proof.
  split; [vm_compute; reflexivity|].
  assert (Invoke.invoke_agent limited_loads
            {| Invoke.status_code := 200; Invoke.body := Invoke.Returns [];
               Invoke.lines := [data_line long_integer]; Invoke.stream_end := None |}
          = Invoke.Fails digits_limit) as H by (vm_compute; reflexivity).
  destruct (invoke_failure_kinds limited_loads _ _ H)
    as [N [[S _]|[[S _]|[[_ [e [_ E]]]|[[_ [p [r' [I [_ [K R]]]]]]|[[_ [_ E]]|[_ [r' [Z _]]]]]]]]].
  - exfalso. exact (S eq_refl).
  - exfalso. exact (S eq_refl).
  - discriminate E.
  - split; [exact N|]. exists p. split; [exact I|].
    rewrite K. f_equal. unfold relayed in R.
    destruct r' as [[]|]; first [discriminate R | symmetry; exact R].
  - discriminate E.
  - discriminate Z.
Defined.

Lemma direct_envelope_extraction_witness :
  json_loads (q "{'content':[{'text':'a'}]}")
  = Some (JObj [(lit "content", JArr [text_object "a"])]) /\
  on_payload 1 (q "{'content':[{'text':'a'}]}") = Ok [lit "a"].
Proof.
  split; [vm_compute; reflexivity|].
  exact (proj1 (direct_envelope_extraction 1 (q "{'content':[{'text':'a'}]}")
                  [(lit "content", JArr [text_object "a"])] (JArr [text_object "a"])
                  eq_refl eq_refl eq_refl)
               [text_object "a"] eq_refl).
Defined.

Lemma status_update_shadows_content_witness :
  lookup "statusUpdate"
    [(lit "content", JArr [text_object "b"]); (lit "statusUpdate", JObj [])] = Some (JObj []) /\
  extract 1 (JObj [(lit "content", JArr [text_object "b"]); (lit "statusUpdate", JObj [])])
  = extract 1 (JObj [(lit "statusUpdate", JObj [])]).
Proof.
  split; [reflexivity|].
  exact (status_update_shadows_content 1
           [(lit "content", JArr [text_object "b"]); (lit "statusUpdate", JObj [])]
           (JObj []) eq_refl).
Defined.

Lemma json_without_envelope_dropped_witness :
  json_loads (q "'hello'") = Some (JStr "hello") /\
  on_payload 1 (q "'hello'") = Ok [].
Proof.
  split; [vm_compute; reflexivity|].
  exact (json_without_envelope_dropped 1 (q "'hello'") (JStr "hello")
           eq_refl eq_refl eq_refl).
Defined.

Lemma diagnostics_only_add_failures_witness :
  extract 1 (status_envelope "a") = Ok [lit "a"] /\
  extract 5 (status_envelope "a") = Ok [lit "a"].
Proof.
  split; [vm_compute; reflexivity|].
  apply (diagnostics_only_add_failures 1 5 (status_envelope "a") [lit "a"]).
  - vm_compute. reflexivity.
  - lia.
Defined.

Lemma object_content_by_position_witness :
  json_loads (q "{'statusUpdate':{'status':{'message':{'content':{'k':'v'}}}}}")
  = Some (JObj [(lit "statusUpdate",
                 JObj [(lit "status",
                        JObj [(lit "message",
                               JObj [(lit "content", JObj [(lit "k", JStr "v")])])])])]) /\
  on_payload 1 (q "{'statusUpdate':{'status':{'message':{'content':{'k':'v'}}}}}")
  = Raise (KeyError "0") /\
  on_payload 4 (q "{'statusUpdate':{'status':{'message':{'content':{'k':'v'}}}}}")
  = Ok [].
Proof.
  split; [vm_compute; reflexivity|].
  split.
  - exact (object_content_by_position 1
             (q "{'statusUpdate':{'status':{'message':{'content':{'k':'v'}}}}}")
             _ _ (lit "k", JStr "v") [] eq_refl eq_refl eq_refl eq_refl).
  - exact (object_content_by_position 4
             (q "{'statusUpdate':{'status':{'message':{'content':{'k':'v'}}}}}")
             _ _ (lit "k", JStr "v") [] eq_refl eq_refl eq_refl eq_refl).
Defined.

Lemma client_round_trip_witness :
  Forall (fun e => status_event (fst e) (snd e))
    [(envelope_text "Hello ", lit "Hello "); (envelope_text " ", lit " ");
     (envelope_text "world", lit "world")] /\
  invoke_response
    (answer [data_line (envelope_text "Hello "); data_line (envelope_text " ");
             data_line (envelope_text "world")] (Some (lit "peer closed")))
  = Ok (lit "Hello world").
Proof.
  assert (Forall (fun e => status_event (fst e) (snd e))
            [(envelope_text "Hello ", lit "Hello "); (envelope_text " ", lit " ");
             (envelope_text "world", lit "world")]) as H.
  { repeat constructor; vm_compute; reflexivity. }
  split; [exact H|].
  exact (client_round_trip _ (Some (lit "peer closed")) H).
Defined.

Lemma workflow_data_flow_witness :
  card_outcome (Workflow.get_card answering_world card1_url) = Ok tt /\
  invoke_response (Workflow.post_stream answering_world stage1_url (topic_of answering_world))
  = Ok (lit "found") /\
  invokes (Workflow.sequential_workflow_a2a answering_world)
  = [Workflow.PostStream stage1_url (lit "tides");
     Workflow.PostStream stage2_url (lit "found")] /\
  snd (Workflow.sequential_workflow_a2a answering_world) = Ok tt.
Proof.
  split; [reflexivity|]. split; [vm_compute; reflexivity|].
  exact (workflow_data_flow answering_world (lit "found") eq_refl eq_refl eq_refl).
Defined.

Lemma malformed_card_aborts_witness :
  truthy (JArr [JStr "card"]) = true /\
  is_object (JArr [JStr "card"]) = false /\
  Workflow.get_card array_card_world card1_url = Ok (JArr [JStr "card"]) /\
  invokes (Workflow.sequential_workflow_a2a array_card_world) = [] /\
  snd (Workflow.sequential_workflow_a2a array_card_world)
  = Raise (AttributeError "'list' object has no attribute 'get'").
Proof.
  split; [reflexivity|]. split; [reflexivity|]. split; [reflexivity|].
  exact (proj1 (malformed_card_aborts array_card_world (JArr [JStr "card"]) eq_refl eq_refl)
               eq_refl).
Defined.

Lemma json_objects_lossless_witness :
  contains "|||" (q "{'a':'x'}{'b':'y'} and }{ more") = false /\
  Blogpost.json_objects (q "{'a':'x'}{'b':'y'} and }{ more")
  = [q "{'a':'x'}"; q "{'b':'y'} and }"; lit "{ more"] /\
  concat (Blogpost.json_objects (q "{'a':'x'}{'b':'y'} and }{ more"))
  = q "{'a':'x'}{'b':'y'} and }{ more".
Proof.
  split; [reflexivity|]. split; [vm_compute; reflexivity|].
  exact (json_objects_lossless (q "{'a':'x'}{'b':'y'} and }{ more") eq_refl).
Defined.

Lemma malformed_candidates_skipped_witness :
  Forall (fun c => blob_candidate (fst c) (snd c))
    [(envelope_text "a", Some (lit "a")); (q "{'statusUpdate': oops}", None);
     (envelope_text "b", Some (lit "b"))] /\
  Blogpost.parse_streaming_json
    (envelope_text "a" ++ q "{'statusUpdate': oops}" ++ envelope_text "b")
  = lit "ab".
Proof.
  assert (Forall (fun c => blob_candidate (fst c) (snd c))
            [(envelope_text "a", Some (lit "a")); (q "{'statusUpdate': oops}", None);
             (envelope_text "b", Some (lit "b"))]) as H.
  { repeat constructor; vm_compute; reflexivity. }
  split; [exact H|].
  refine (malformed_candidates_skipped _ H eq_refl _).
  vm_compute. discriminate.
Defined.

Lemma wrong_type_skipped_by_parser_witness :
  json_loads (q "{'statusUpdate': null}") = Some (JObj [(lit "statusUpdate", JNull)]) /\
  Blogpost.candidate_chunks (q "{'statusUpdate': null}") = [] /\
  on_payload 1 (q "{'statusUpdate': null}")
  = Raise (AttributeError "'NoneType' object has no attribute 'keys'").
Proof.
  split; [vm_compute; reflexivity|].
  exact (wrong_type_skipped_by_parser 1 (q "{'statusUpdate': null}")
           [(lit "statusUpdate", JNull)] JNull eq_refl eq_refl eq_refl).
Defined.

Lemma blank_texts_give_empty_witness :
  Forall (fun e => wire_envelope (fst e) (snd e))
    [(envelope_text " ", lit " "); (envelope_text "  ", lit "  ")] /\
  Blogpost.parse_streaming_json (envelope_text " " ++ envelope_text "  ") = [].
Proof.
  assert (Forall (fun e => wire_envelope (fst e) (snd e))
            [(envelope_text " ", lit " "); (envelope_text "  ", lit "  ")]) as H.
  { repeat constructor; vm_compute; reflexivity. }
  split; [exact H|].
  refine (blank_texts_give_empty _ H _).
  repeat constructor.
Defined.

Lemma fallback_rescues_envelopes_witness :
  Forall (fun T => verbatim T = true /\
                   json_loads (envelope_text T) = Some (status_envelope T))
    [lit "a}{b"; lit "c|||d"] /\
  Blogpost.parsed_chunks (concat (map envelope_text [lit "a}{b"; lit "c|||d"])) = [] /\
  Blogpost.parse_streaming_json (envelope_text "a}{b" ++ envelope_text "c|||d")
  = lit "a}{b c|||d".
Proof.
  split; [repeat constructor; vm_compute; reflexivity|].
  split; [vm_compute; reflexivity|].
  refine (fallback_rescues_envelopes [lit "a}{b"; lit "c|||d"] _ _ eq_refl).
  - repeat constructor.
  - discriminate.
Defined.

Lemma broken_part_falls_back_witness :
  existsb broken [text_part "tides"; root_part NoText] = true /\
  Deepsearch.received_query
    {| parts := Some [text_part "tides"; root_part NoText]; message_str := lit " shown " |}
  = Some (lit " shown ") /\
  Blogpost.extract_query_from_message
    {| parts := Some [text_part "tides"; root_part NoText]; message_str := lit " shown " |}
  = lit "shown".
Proof.
  split; [reflexivity|].
  destruct (broken_part_falls_back
              {| parts := Some [text_part "tides"; root_part NoText];
                 message_str := lit " shown " |} eq_refl) as [_ [H2 [H3 _]]].
  split; [exact H2 | exact H3].
Defined.

Lemma null_text_refused_witness :
  Deepsearch.received_query
    {| parts := Some [text_part "tides"; root_part TextNone]; message_str := lit "shown" |}
  = None /\
  Blogpost.received_content
    {| parts := Some [text_part "tides"; root_part TextNone]; message_str := lit "shown" |}
  = lit "tides".
Proof.
  destruct (null_text_refused
              {| parts := Some [text_part "tides"; root_part TextNone];
                 message_str := lit "shown" |}
              [text_part "tides"] (root_part TextNone)
              {| kind := Some (lit "text"); text := TextNone |}
              eq_refl eq_refl eq_refl eq_refl) as [H1 [_ [_ H4]]].
  split; [exact H1 | exact H4].
Defined.

Lemma blog_topic_first_line_witness :
  contains [newline] (lit "  Tides of the North Sea ") = false /\
  BlogFile.blog_topic (lit "  Tides of the North Sea " ++ newline :: lit "Findings: ...")
  = BlogFile.blog_topic (lit "  Tides of the North Sea ") /\
  BlogFile.blog_topic (lit "  Tides of the North Sea ") = lit "Tides of the North Sea".
Proof.
  split; [reflexivity|].
  exact (blog_topic_first_line (lit "  Tides of the North Sea ") (lit "Findings: ...") eq_refl).
Defined.

(** An error answer whose body cannot be decoded, and one whose body
    cannot be read to its end. *)
Example scenario_error_body :
  Invoke.invoke_agent limited_loads
    {| Invoke.status_code := 500; Invoke.body := Invoke.Fails undecodable;
       Invoke.lines := []; Invoke.stream_end := None |}
  = Invoke.Fails undecodable /\
  Invoke.invoke_agent limited_loads
    {| Invoke.status_code := 500;
       Invoke.body := Invoke.Fails (Invoke.Known (ReadError "peer closed"));
       Invoke.lines := []; Invoke.stream_end := None |}
  = Invoke.Fails (Invoke.Known (Exception "Stream error: peer closed")).
Proof. vm_compute. split; reflexivity. Qed.

(** A card that is a number too small for a double is 0.0 and false:
    the workflow prints nothing for it and goes on. *)
Example scenario_underflow_card :
  truthy (JFloat "1e-400") = false /\
  truthy (JFloat "5e-324") = true /\
  card_outcome (Ok (JFloat "1e-400")) = Ok tt.
Proof. vm_compute. repeat split. Qed.

End FurtherExamples.
